(** * Entity form controllers of the Sui ecosystem directory admin UI

    A shallow embedding of [components/ProjectForm.tsx] and
    [components/VideoForm.tsx]: the zod schema of the project form, the
    handlers that edit the component state, and the asynchronous [onSubmit]
    and [fetchProject] pipelines, followed by the properties of the form
    workflow.

    Conventions of the embedding.
    - A JavaScript string is a [string]; [String.length] stands for the
      [.length] of the source (one character per code unit).
    - An optional property ([x?: string]) is an [option]: [None] is
      [undefined].
    - An [async] function is a computation in the monad [M] below: it reads
      and writes the component state, emits the calls it makes (to
      [apiService], [toast], [navigate], [console]) as a trace of events, and
      ends with a completion in the sense of ECMAScript: normal, [return] or
      [throw].  An [await] is sequencing.
    - [apiService] is imported from [../services/api]; its methods are the
      fields of a record, each giving the outcome of the call for its
      arguments: [Some r] when the promise resolves with [r], [None] when it
      rejects. *)

From stdpp Require Import base option list strings gmap.
From Stdlib Require Import ZArith.

Open Scope string_scope.
Open Scope list_scope.

(** ** Completions and the monad of handlers *)

Inductive Completion (A : Type) : Type :=
  | Normal (a : A)
  | ReturnC
  | ThrowC.
Arguments Normal {A} a.
Arguments ReturnC {A}.
Arguments ThrowC {A}.

Definition M (St Ev A : Type) : Type := St -> Completion A * St * list Ev.

Section Monad.
Context {St Ev : Type}.

Definition ret {A} (a : A) : M St Ev A := fun s => (Normal a, s, []).

Definition bind {A B} (m : M St Ev A) (k : A -> M St Ev B) : M St Ev B :=
  fun s =>
    match m s with
    | (Normal a, s1, t1) =>
        match k a s1 with (c, s2, t2) => (c, s2, t1 ++ t2) end
    | (ReturnC, s1, t1) => (ReturnC, s1, t1)
    | (ThrowC, s1, t1) => (ThrowC, s1, t1)
    end.

(** [return;] and [throw new Error(..)] *)
Definition return_ {A} : M St Ev A := fun s => (ReturnC, s, []).
Definition throw {A} : M St Ev A := fun s => (ThrowC, s, []).

Definition get : M St Ev St := fun s => (Normal s, s, []).
Definition modify (f : St -> St) : M St Ev unit := fun s => (Normal tt, f s, []).

(** A call that cannot fail: it is recorded in the trace. *)
Definition emit (e : Ev) : M St Ev unit := fun s => (Normal tt, s, [e]).

(** [await apiService.f(args)]: the call is recorded, then the promise
    resolves with a value or rejects. *)
Definition call {A} (e : Ev) (outcome : option A) : M St Ev A :=
  fun s =>
    match outcome with
    | Some a => (Normal a, s, [e])
    | None => (ThrowC, s, [e])
    end.

(** [try { body } catch { handler }]: only a throw reaches the handler. *)
Definition try_catch {A} (body handler : M St Ev A) : M St Ev A :=
  fun s =>
    match body s with
    | (ThrowC, s1, t1) =>
        match handler s1 with (c, s2, t2) => (c, s2, t1 ++ t2) end
    | r => r
    end.

(** [try { body } finally { fin }]: [fin] runs after every completion of
    [body]; an abrupt completion of [fin] replaces that of [body]. *)
Definition try_finally {A} (body : M St Ev A) (fin : M St Ev unit) : M St Ev A :=
  fun s =>
    match body s with
    | (c, s1, t1) =>
        match fin s1 with
        | (Normal _, s2, t2) => (c, s2, t1 ++ t2)
        | (ReturnC, s2, t2) => (ReturnC, s2, t1 ++ t2)
        | (ThrowC, s2, t2) => (ThrowC, s2, t1 ++ t2)
        end
    end.

Definition try_catch_finally {A} (body handler : M St Ev A) (fin : M St Ev unit)
  : M St Ev A :=
  try_finally (try_catch body handler) fin.

(** The body of a function: [return] completes the call normally. *)
Definition function_body (m : M St Ev unit) : M St Ev unit :=
  fun s =>
    match m s with
    | (ReturnC, s1, t1) => (Normal tt, s1, t1)
    | r => r
    end.

Definition completion {A} (r : Completion A * St * list Ev) : Completion A := r.1.1.
Definition final {A} (r : Completion A * St * list Ev) : St := r.1.2.
Definition events {A} (r : Completion A * St * list Ev) : list Ev := r.2.
End Monad.

(** [x ← m; k] and [m;; k] are stdpp's notations for [bind]. *)
#[global] Instance M_ret {St Ev} : MRet (M St Ev) := fun A a => ret a.
#[global] Instance M_bind {St Ev} : MBind (M St Ev) := fun A B k m => bind m k.

(** ** JavaScript truthiness of the values the forms test *)

(** [!!s] for a string: only the empty string is falsy. *)
Definition truthy (s : string) : bool :=
  match s with
  | EmptyString => false
  | String _ _ => true
  end.

(** [!!v] for [v : string | undefined]. *)
Definition truthy_opt (v : option string) : bool :=
  match v with
  | Some s => truthy s
  | None => false
  end.

(** [v || ""] for [v : string | undefined]. *)
Definition or_empty (v : option string) : string :=
  match v with
  | Some s => if truthy s then s else ""
  | None => ""
  end.

(** [File] objects of the browser, identified by their name. *)
Inductive File : Type := mkFile (file_name : string).

Inductive Mode : Type := create | edit.

Definition is_create (m : Mode) : bool := match m with create => true | edit => false end.
Definition is_edit (m : Mode) : bool := match m with create => false | edit => true end.

Inductive Status : Type := PUBLISHED | UNPUBLISHED.

(** The result of [apiService.getFeaturedCounts()]. *)
Record FeaturedCounts : Type := { projects : Z; videos : Z }.

(** The result of an upload: [{ url }]. *)
Record UploadResult : Type := { url : string }.

(** ** [types/index.ts]: the [Project] record exchanged with the backend *)

Module Project.
(** [socialLinks?: { website: string | null; ... }]: [None] is [null] or
    a missing key. *)
Record SocialLinks : Type := {
  social_website : option string;
  social_github : option string;
  social_twitter : option string;
  social_discord : option string;
  social_telegram : option string;
  social_medium : option string;
  social_youtube : option string;
}.

Record t : Type := {
  id : string;
  name : string;
  tagline : string;
  description : string;
  categories : list string;
  website : option string;
  twitter : option string;
  github : option string;
  discord : option string;
  telegram : option string;
  logo : option string;
  heroImage : option string;
  images : option (list string);
  isHiring : bool;
  careerPageUrl : option string;
  isOpenForBounty : bool;
  bountySubmissionUrl : option string;
  isOpenSource : bool;
  githubUrl : option string;
  featured : bool;
  status : Status;
  createdAt : string;
  updatedAt : string;
  socialLinks : option SocialLinks;
}.
End Project.

(** ** [types/index.ts]: the [Video] record exchanged with the backend *)

Module Video.
Record t : Type := {
  id : string;
  projectId : string;
  title : string;
  description : option string;
  playbackId : string;
  thumbnail : string;
  featured : bool;
  categories : list string;
  createdAt : string;
  updatedAt : string;
  projectName : option string;
}.
End Video.

(** ** [components/ProjectForm.tsx] *)

Module ProjectForm.

Record IncludeSocialLinks : Type := {
  include_website : bool;
  include_twitter : bool;
  include_github : bool;
  include_discord : bool;
  include_telegram : bool;
}.

Record SocialLinks : Type := {
  link_website : option string;
  link_twitter : option string;
  link_github : option string;
  link_discord : option string;
  link_telegram : option string;
}.

(** [type ProjectFormData = z.infer<typeof projectSchema>] *)
Record ProjectFormData : Type := {
  name : string;
  tagline : string;
  description : string;
  categories : list string;
  website : option string;
  isHiring : bool;
  careerPageUrl : option string;
  isOpenForBounty : bool;
  bountySubmissionUrl : option string;
  isOpenSource : bool;
  githubUrl : option string;
  includeSocialLinks : IncludeSocialLinks;
  socialLinks : SocialLinks;
  featured : bool;
  status : Status;
}.

(** *** The schema *)

(** An issue reported by zod: the path of the field and the message. *)
Record ZodIssue : Type := { path : list string; message : string }.

#[global] Instance ZodIssue_eq_dec : EqDecision ZodIssue.
Proof. solve_decision. Defined.

Section Schema.
(** [z.string().url(..)] accepts the strings that zod takes for URLs; the
    check belongs to the zod library. *)
Variable is_url : string -> bool.

(** [z.string().min(n, msg)] *)
Definition string_min (n : nat) (msg : string) (p : list string) (s : string)
  : list ZodIssue :=
  if (n <=? String.length s)%nat then [] else [{| path := p; message := msg |}].

(** [z.array(z.string()).min(n, msg)] *)
Definition array_min (n : nat) (msg : string) (p : list string) (l : list string)
  : list ZodIssue :=
  if (n <=? length l)%nat then [] else [{| path := p; message := msg |}].

(** [z.string().url("Must be a valid URL").optional().or(z.literal(""))]:
    [undefined] passes the first member of the union, the empty string
    the second, and any other string must pass the URL check. *)
Definition optional_url (p : list string) (v : option string) : list ZodIssue :=
  match v with
  | None => []
  | Some s =>
      if is_url s || negb (truthy s) then []
      else [{| path := p; message := "Must be a valid URL" |}]
  end.

(** [projectSchema]: the issues of a draft, in the order of the keys.
    The boolean fields, [includeSocialLinks] and [status] are well typed
    in a [ProjectFormData] and raise no issue. *)
Definition projectSchema (d : ProjectFormData) : list ZodIssue :=
  string_min 1 "Project name is required" ["name"] (name d)
  ++ string_min 1 "Project tagline is required" ["tagline"] (tagline d)
  ++ string_min 10 "Description must be at least 10 characters" ["description"]
       (description d)
  ++ array_min 1 "At least one category is required" ["categories"] (categories d)
  ++ optional_url ["website"] (website d)
  ++ optional_url ["careerPageUrl"] (careerPageUrl d)
  ++ optional_url ["bountySubmissionUrl"] (bountySubmissionUrl d)
  ++ optional_url ["githubUrl"] (githubUrl d)
  ++ optional_url ["socialLinks"; "website"] (link_website (socialLinks d))
  ++ optional_url ["socialLinks"; "twitter"] (link_twitter (socialLinks d))
  ++ optional_url ["socialLinks"; "github"] (link_github (socialLinks d))
  ++ optional_url ["socialLinks"; "discord"] (link_discord (socialLinks d))
  ++ optional_url ["socialLinks"; "telegram"] (link_telegram (socialLinks d)).

(** The verdict of [zodResolver(projectSchema)]: the draft is accepted
    when the schema reports no issue. *)
Definition Validate (d : ProjectFormData) : bool :=
  match projectSchema d with
  | [] => true
  | _ :: _ => false
  end.

(** A URL field that is "well-formed or empty", in the words of the
    specification: absent, the empty string, or a string that the URL
    check takes. *)
Definition well_formed_or_empty (v : option string) : Prop :=
  v = None \/ v = Some "" \/ exists s, v = Some s /\ is_url s = true.

(** The issues reported on one field. *)
Definition errors_at (p : list string) (d : ProjectFormData) : list ZodIssue :=
  filter (fun i => path i = p) (projectSchema d).
End Schema.

(** Editing one field of a draft. *)
Definition with_isHiring (b : bool) (d : ProjectFormData) : ProjectFormData :=
  {| name := name d; tagline := tagline d; description := description d;
     categories := categories d; website := website d;
     isHiring := b; careerPageUrl := careerPageUrl d;
     isOpenForBounty := isOpenForBounty d; bountySubmissionUrl := bountySubmissionUrl d;
     isOpenSource := isOpenSource d; githubUrl := githubUrl d;
     includeSocialLinks := includeSocialLinks d; socialLinks := socialLinks d;
     featured := featured d; status := status d |}.

Definition with_careerPageUrl (v : option string) (d : ProjectFormData) : ProjectFormData :=
  {| name := name d; tagline := tagline d; description := description d;
     categories := categories d; website := website d;
     isHiring := isHiring d; careerPageUrl := v;
     isOpenForBounty := isOpenForBounty d; bountySubmissionUrl := bountySubmissionUrl d;
     isOpenSource := isOpenSource d; githubUrl := githubUrl d;
     includeSocialLinks := includeSocialLinks d; socialLinks := socialLinks d;
     featured := featured d; status := status d |}.

Definition with_isOpenForBounty (b : bool) (d : ProjectFormData) : ProjectFormData :=
  {| name := name d; tagline := tagline d; description := description d;
     categories := categories d; website := website d;
     isHiring := isHiring d; careerPageUrl := careerPageUrl d;
     isOpenForBounty := b; bountySubmissionUrl := bountySubmissionUrl d;
     isOpenSource := isOpenSource d; githubUrl := githubUrl d;
     includeSocialLinks := includeSocialLinks d; socialLinks := socialLinks d;
     featured := featured d; status := status d |}.

Definition with_bountySubmissionUrl (v : option string) (d : ProjectFormData)
  : ProjectFormData :=
  {| name := name d; tagline := tagline d; description := description d;
     categories := categories d; website := website d;
     isHiring := isHiring d; careerPageUrl := careerPageUrl d;
     isOpenForBounty := isOpenForBounty d; bountySubmissionUrl := v;
     isOpenSource := isOpenSource d; githubUrl := githubUrl d;
     includeSocialLinks := includeSocialLinks d; socialLinks := socialLinks d;
     featured := featured d; status := status d |}.

Definition with_isOpenSource (b : bool) (d : ProjectFormData) : ProjectFormData :=
  {| name := name d; tagline := tagline d; description := description d;
     categories := categories d; website := website d;
     isHiring := isHiring d; careerPageUrl := careerPageUrl d;
     isOpenForBounty := isOpenForBounty d; bountySubmissionUrl := bountySubmissionUrl d;
     isOpenSource := b; githubUrl := githubUrl d;
     includeSocialLinks := includeSocialLinks d; socialLinks := socialLinks d;
     featured := featured d; status := status d |}.

Definition with_githubUrl (v : option string) (d : ProjectFormData) : ProjectFormData :=
  {| name := name d; tagline := tagline d; description := description d;
     categories := categories d; website := website d;
     isHiring := isHiring d; careerPageUrl := careerPageUrl d;
     isOpenForBounty := isOpenForBounty d; bountySubmissionUrl := bountySubmissionUrl d;
     isOpenSource := isOpenSource d; githubUrl := v;
     includeSocialLinks := includeSocialLinks d; socialLinks := socialLinks d;
     featured := featured d; status := status d |}.

Definition with_categories (l : list string) (d : ProjectFormData) : ProjectFormData :=
  {| name := name d; tagline := tagline d; description := description d;
     categories := l; website := website d;
     isHiring := isHiring d; careerPageUrl := careerPageUrl d;
     isOpenForBounty := isOpenForBounty d; bountySubmissionUrl := bountySubmissionUrl d;
     isOpenSource := isOpenSource d; githubUrl := githubUrl d;
     includeSocialLinks := includeSocialLinks d; socialLinks := socialLinks d;
     featured := featured d; status := status d |}.

Definition with_name (v : string) (d : ProjectFormData) : ProjectFormData :=
  {| name := v; tagline := tagline d; description := description d;
     categories := categories d; website := website d; isHiring := isHiring d;
     careerPageUrl := careerPageUrl d; isOpenForBounty := isOpenForBounty d;
     bountySubmissionUrl := bountySubmissionUrl d; isOpenSource := isOpenSource d;
     githubUrl := githubUrl d; includeSocialLinks := includeSocialLinks d;
     socialLinks := socialLinks d; featured := featured d; status := status d |}.

Definition with_tagline (v : string) (d : ProjectFormData) : ProjectFormData :=
  {| name := name d; tagline := v; description := description d;
     categories := categories d; website := website d; isHiring := isHiring d;
     careerPageUrl := careerPageUrl d; isOpenForBounty := isOpenForBounty d;
     bountySubmissionUrl := bountySubmissionUrl d; isOpenSource := isOpenSource d;
     githubUrl := githubUrl d; includeSocialLinks := includeSocialLinks d;
     socialLinks := socialLinks d; featured := featured d; status := status d |}.

Definition with_description (v : string) (d : ProjectFormData) : ProjectFormData :=
  {| name := name d; tagline := tagline d; description := v;
     categories := categories d; website := website d; isHiring := isHiring d;
     careerPageUrl := careerPageUrl d; isOpenForBounty := isOpenForBounty d;
     bountySubmissionUrl := bountySubmissionUrl d; isOpenSource := isOpenSource d;
     githubUrl := githubUrl d; includeSocialLinks := includeSocialLinks d;
     socialLinks := socialLinks d; featured := featured d; status := status d |}.

Definition with_featured (v : bool) (d : ProjectFormData) : ProjectFormData :=
  {| name := name d; tagline := tagline d; description := description d;
     categories := categories d; website := website d; isHiring := isHiring d;
     careerPageUrl := careerPageUrl d; isOpenForBounty := isOpenForBounty d;
     bountySubmissionUrl := bountySubmissionUrl d; isOpenSource := isOpenSource d;
     githubUrl := githubUrl d; includeSocialLinks := includeSocialLinks d;
     socialLinks := socialLinks d; featured := v; status := status d |}.

Definition with_status (v : Status) (d : ProjectFormData) : ProjectFormData :=
  {| name := name d; tagline := tagline d; description := description d;
     categories := categories d; website := website d; isHiring := isHiring d;
     careerPageUrl := careerPageUrl d; isOpenForBounty := isOpenForBounty d;
     bountySubmissionUrl := bountySubmissionUrl d; isOpenSource := isOpenSource d;
     githubUrl := githubUrl d; includeSocialLinks := includeSocialLinks d;
     socialLinks := socialLinks d; featured := featured d; status := v |}.

Definition with_includeSocialLinks (v : IncludeSocialLinks) (d : ProjectFormData) : ProjectFormData :=
  {| name := name d; tagline := tagline d; description := description d;
     categories := categories d; website := website d; isHiring := isHiring d;
     careerPageUrl := careerPageUrl d; isOpenForBounty := isOpenForBounty d;
     bountySubmissionUrl := bountySubmissionUrl d; isOpenSource := isOpenSource d;
     githubUrl := githubUrl d; includeSocialLinks := v; socialLinks := socialLinks d;
     featured := featured d; status := status d |}.

Definition with_socialLinks (v : SocialLinks) (d : ProjectFormData) : ProjectFormData :=
  {| name := name d; tagline := tagline d; description := description d;
     categories := categories d; website := website d; isHiring := isHiring d;
     careerPageUrl := careerPageUrl d; isOpenForBounty := isOpenForBounty d;
     bountySubmissionUrl := bountySubmissionUrl d; isOpenSource := isOpenSource d;
     githubUrl := githubUrl d; includeSocialLinks := includeSocialLinks d;
     socialLinks := v; featured := featured d; status := status d |}.

(** The [defaultValues] of [useForm] for the two nested objects. *)
Definition defaultIncludeSocialLinks : IncludeSocialLinks :=
  {| include_website := false; include_twitter := false; include_github := false;
     include_discord := false; include_telegram := false |}.

Definition defaultSocialLinks : SocialLinks :=
  {| link_website := Some ""; link_twitter := Some ""; link_github := Some "";
     link_discord := Some ""; link_telegram := Some "" |}.

(** *** The payload and the calls of the component *)

(** The object returned by [uploadFiles]: a key is present once its file
    has been uploaded. *)
Record Uploads : Type := {
  logo : option string;
  heroImage : option string;
  projectImages : option (list string);
}.

(** The object literal [projectData] of [onSubmit].  A key whose value is
    [undefined], or that the spread of [uploads] does not bring, is [None];
    [pd_socialLinks] lists the entries kept by [Object.fromEntries]. *)
Record ProjectData : Type := {
  pd_name : string;
  pd_tagline : string;
  pd_description : string;
  pd_categories : list string;
  pd_featured : bool;
  pd_status : Status;
  pd_isHiring : bool;
  pd_careerPageUrl : option string;
  pd_isOpenForBounty : bool;
  pd_bountySubmissionUrl : option string;
  pd_isOpenSource : bool;
  pd_githubUrl : option string;
  pd_logo : option string;
  pd_heroImage : option string;
  pd_projectImages : option (list string);
  pd_socialLinks : list (string * string);
}.

Inductive Event : Type :=
  | EGetFeaturedCounts
  | EGetProject (id : string)
  | ECreateProjectFolders (projectName : string)
  | EUploadFile (file : File) (type projectName : string)
  | EUploadMultipleFiles (files : list File) (type projectName : string)
  | ECreateProject (projectData : ProjectData)
  | EUpdateProject (id : string) (projectData : ProjectData)
  | EToastError (msg : string)
  | EToastSuccess (msg : string)
  | ENavigate (to : string)
  | EConsoleError (msg : string).

(** The methods of [apiService] that the component awaits. *)
Record ApiService : Type := {
  getFeaturedCounts : option FeaturedCounts;
  getProject : string -> option Project.t;
  createProjectFolders : string -> option unit;
  uploadFile : File -> string -> string -> option UploadResult;
  uploadMultipleFiles : list File -> string -> string -> option (list UploadResult);
  createProject : ProjectData -> option unit;
  updateProject : string -> ProjectData -> option unit;
}.

(** The [useState] cells of the component read or written by the handlers
    below, the field values held by [useForm] ([values]) and its
    [formState.errors]. *)
Record State : Type := {
  loading : bool;
  logoFile : option File;
  heroImageFile : option File;
  projectImageFiles : list File;
  logoPreview : string;
  heroImagePreview : string;
  projectImagePreviews : list string;
  selectedCategories : list string;
  socialLinksSelection : IncludeSocialLinks;
  values : ProjectFormData;
  errors : list ZodIssue;
}.

Definition setLoading (b : bool) (st : State) : State :=
  {| loading := b; logoFile := logoFile st; heroImageFile := heroImageFile st;
     projectImageFiles := projectImageFiles st; logoPreview := logoPreview st;
     heroImagePreview := heroImagePreview st;
     projectImagePreviews := projectImagePreviews st;
     selectedCategories := selectedCategories st;
     socialLinksSelection := socialLinksSelection st;
     values := values st; errors := errors st |}.

Definition setLogoPreview (v : string) (st : State) : State :=
  {| loading := loading st; logoFile := logoFile st; heroImageFile := heroImageFile st;
     projectImageFiles := projectImageFiles st; logoPreview := v;
     heroImagePreview := heroImagePreview st;
     projectImagePreviews := projectImagePreviews st;
     selectedCategories := selectedCategories st;
     socialLinksSelection := socialLinksSelection st;
     values := values st; errors := errors st |}.

Definition setHeroImagePreview (v : string) (st : State) : State :=
  {| loading := loading st; logoFile := logoFile st; heroImageFile := heroImageFile st;
     projectImageFiles := projectImageFiles st; logoPreview := logoPreview st;
     heroImagePreview := v;
     projectImagePreviews := projectImagePreviews st;
     selectedCategories := selectedCategories st;
     socialLinksSelection := socialLinksSelection st;
     values := values st; errors := errors st |}.

Definition setProjectImagePreviews (v : list string) (st : State) : State :=
  {| loading := loading st; logoFile := logoFile st; heroImageFile := heroImageFile st;
     projectImageFiles := projectImageFiles st; logoPreview := logoPreview st;
     heroImagePreview := heroImagePreview st;
     projectImagePreviews := v;
     selectedCategories := selectedCategories st;
     socialLinksSelection := socialLinksSelection st;
     values := values st; errors := errors st |}.

Definition setSelectedCategories (v : list string) (st : State) : State :=
  {| loading := loading st; logoFile := logoFile st; heroImageFile := heroImageFile st;
     projectImageFiles := projectImageFiles st; logoPreview := logoPreview st;
     heroImagePreview := heroImagePreview st;
     projectImagePreviews := projectImagePreviews st;
     selectedCategories := v;
     socialLinksSelection := socialLinksSelection st;
     values := values st; errors := errors st |}.

Definition setSocialLinksSelection (v : IncludeSocialLinks) (st : State) : State :=
  {| loading := loading st; logoFile := logoFile st; heroImageFile := heroImageFile st;
     projectImageFiles := projectImageFiles st; logoPreview := logoPreview st;
     heroImagePreview := heroImagePreview st;
     projectImagePreviews := projectImagePreviews st;
     selectedCategories := selectedCategories st;
     socialLinksSelection := v;
     values := values st; errors := errors st |}.

(** A value that reaches one of the three selects [isHiring],
    [isOpenForBounty] and [isOpenSource]: a boolean, which the component
    hands to [setValue], or the [value] string of the chosen [<option>]. *)
Inductive FlagInput : Type :=
  | from_boolean (b : bool)
  | from_option (value : string).

(** [setValueAs: (value) => value === "true"], the option with which the
    three selects are registered.  The comparison is strict: no boolean is
    equal to the string ["true"]. *)
Definition setValueAs (value : FlagInput) : bool :=
  match value with
  | from_option s => String.eqb s "true"
  | from_boolean _ => false
  end.

(** [setValue(field, v)] of react-hook-form, as an edit of [values].  On a
    field registered with [setValueAs], react-hook-form stores
    [setValueAs(v)]: the callers write [setValueAs] out for the three
    selects; every other field of the form is written as it is given. *)
Definition setValue (f : ProjectFormData -> ProjectFormData) (st : State) : State :=
  {| loading := loading st; logoFile := logoFile st; heroImageFile := heroImageFile st;
     projectImageFiles := projectImageFiles st; logoPreview := logoPreview st;
     heroImagePreview := heroImagePreview st;
     projectImagePreviews := projectImagePreviews st;
     selectedCategories := selectedCategories st;
     socialLinksSelection := socialLinksSelection st;
     values := f (values st); errors := errors st |}.


(** [disabled={loading}] on the submit button. *)
Definition submitDisabled (st : State) : bool := loading st.

(** *** [toggleCategory] *)

(** [selectedCategories.includes(categoryName)] *)
Definition includes (categoryName : string) (l : list string) : bool :=
  existsb (String.eqb categoryName) l.

Definition toggleCategory (categoryName : string) (st : State) : State :=
  let updatedCategories :=
    if includes categoryName (selectedCategories st)
    then List.filter (fun cat => negb (String.eqb cat categoryName)) (selectedCategories st)
    else selectedCategories st ++ [categoryName] in
  setValue (with_categories updatedCategories)
    (setSelectedCategories updatedCategories st).

(** *** The asynchronous handlers *)

Definition featuredCapMessage : string :=
  "Only 3 featured projects are allowed. Please unfeature an existing project first.".

(** [Object.entries(data.socialLinks)], in the order of the schema's keys,
    each with its flag in [data.includeSocialLinks]. *)
Definition socialLinkEntries (d : ProjectFormData) : list (string * bool * option string) :=
  [ ("website", include_website (includeSocialLinks d), link_website (socialLinks d));
    ("twitter", include_twitter (includeSocialLinks d), link_twitter (socialLinks d));
    ("github", include_github (includeSocialLinks d), link_github (socialLinks d));
    ("discord", include_discord (includeSocialLinks d), link_discord (socialLinks d));
    ("telegram", include_telegram (includeSocialLinks d), link_telegram (socialLinks d)) ].

(** The entries kept by [.filter(([key, value]) => include[key] && value)]. *)
Definition keptSocialLinks (d : ProjectFormData) : list (string * string) :=
  omap (fun e : string * bool * option string =>
          match e with
          | (key, included, Some value) =>
              if included && truthy value then Some (key, value) else None
          | (_, _, None) => None
          end)
       (socialLinkEntries d).

(** The object literal [projectData]. *)
Definition projectData (data : ProjectFormData) (uploads : Uploads) : ProjectData :=
  {| pd_name := name data;
     pd_tagline := tagline data;
     pd_description := description data;
     pd_categories := categories data;
     pd_featured := featured data;
     pd_status := status data;
     pd_isHiring := isHiring data;
     pd_careerPageUrl := if isHiring data then careerPageUrl data else None;
     pd_isOpenForBounty := isOpenForBounty data;
     pd_bountySubmissionUrl :=
       if isOpenForBounty data then bountySubmissionUrl data else None;
     pd_isOpenSource := isOpenSource data;
     pd_githubUrl := if isOpenSource data then githubUrl data else None;
     pd_logo := logo uploads;
     pd_heroImage := heroImage uploads;
     pd_projectImages := projectImages uploads;
     pd_socialLinks := keptSocialLinks data |}.

(** The values written by [fetchProject] for the five platforms. *)
Definition loadedInclude (social : option Project.SocialLinks) : IncludeSocialLinks :=
  {| include_website := truthy_opt (social ≫= Project.social_website);
     include_twitter := truthy_opt (social ≫= Project.social_twitter);
     include_github := truthy_opt (social ≫= Project.social_github);
     include_discord := truthy_opt (social ≫= Project.social_discord);
     include_telegram := truthy_opt (social ≫= Project.social_telegram) |}.

Definition loadedSocialLinks (social : option Project.SocialLinks) : SocialLinks :=
  {| link_website := Some (or_empty (social ≫= Project.social_website));
     link_twitter := Some (or_empty (social ≫= Project.social_twitter));
     link_github := Some (or_empty (social ≫= Project.social_github));
     link_discord := Some (or_empty (social ≫= Project.social_discord));
     link_telegram := Some (or_empty (social ≫= Project.social_telegram)) |}.

Section Component.
(** [apiService], the [mode] prop and the [id] of [useParams]. *)
Variable api : ApiService.
Variable mode : Mode.
Variable id : option string.

Definition uploadFiles (projectName : string) : M State Event Uploads :=
  (* Create project folders first *)
  call (ECreateProjectFolders projectName) (createProjectFolders api projectName);;
  st ← get;
  uploads_logo ←
    match logoFile st with
    | Some file =>
        result ← call (EUploadFile file "logo" projectName)
                      (uploadFile api file "logo" projectName);
        ret (Some (url result))
    | None => ret None
    end;
  uploads_heroImage ←
    match heroImageFile st with
    | Some file =>
        result ← call (EUploadFile file "project-hero-image" projectName)
                      (uploadFile api file "project-hero-image" projectName);
        ret (Some (url result))
    | None => ret None
    end;
  uploads_projectImages ←
    match projectImageFiles st with
    | _ :: _ =>
        results ← call (EUploadMultipleFiles (projectImageFiles st)
                                             "project-image" projectName)
                       (uploadMultipleFiles api (projectImageFiles st)
                                            "project-image" projectName);
        ret (Some (map url results))
    | [] => ret None
    end;
  ret {| logo := uploads_logo; heroImage := uploads_heroImage;
         projectImages := uploads_projectImages |}.

(** The block of [onSubmit] that guards the featured cap
    ([if (data.featured) { try { .. } catch {} }]). *)
Definition checkFeaturedCap (data : ProjectFormData) : M State Event unit :=
  if featured data then
    try_catch
      (counts ← call EGetFeaturedCounts (getFeaturedCounts api);
       (if (3 <=? projects counts)%Z && is_create mode then
          emit (EToastError featuredCapMessage);;
          modify (setLoading false);;
          return_
        else ret tt);;
       (if (3 <=? projects counts)%Z && is_edit mode then
          emit (EToastError featuredCapMessage);;
          modify (setLoading false);;
          return_
        else ret tt))
      (ret tt)
  else ret tt.

(** [if (mode === "create") { .. } else if (id) { .. }] *)
Definition createOrUpdate (payload : ProjectData) : M State Event unit :=
  match mode with
  | create =>
      call (ECreateProject payload) (createProject api payload);;
      emit (EToastSuccess "Project created successfully")
  | edit =>
      match id with
      | Some i =>
          if truthy i then
            call (EUpdateProject i payload) (updateProject api i payload);;
            emit (EToastSuccess "Project updated successfully")
          else ret tt
      | None => ret tt
      end
  end.

(** The rest of the [try] block: uploads, payload, API call, navigation. *)
Definition saveProject (data : ProjectFormData) : M State Event unit :=
  uploads ← uploadFiles (name data);
  createOrUpdate (projectData data uploads);;
  emit (ENavigate "/projects").

(** The [try] block of [onSubmit]. *)
Definition onSubmit_try (data : ProjectFormData) : M State Event unit :=
  modify (setLoading true);;
  checkFeaturedCap data;;
  saveProject data.

Definition onSubmit (data : ProjectFormData) : M State Event unit :=
  function_body
    (try_catch_finally
       (onSubmit_try data)
       (emit (EConsoleError "Failed to save project:"))
       (modify (setLoading false))).

(** [onSubmit] without its featured-cap block: the submission as it
    proceeds when the cap does not stop it. *)
Definition onSubmit_unchecked (data : ProjectFormData) : M State Event unit :=
  function_body
    (try_catch_finally
       (modify (setLoading true);; saveProject data)
       (emit (EConsoleError "Failed to save project:"))
       (modify (setLoading false))).


Definition fetchProject : M State Event unit :=
  function_body
    (match id with
     | Some i =>
         if truthy i then
           try_catch_finally
             (modify (setLoading true);;
              project ← call (EGetProject i) (getProject api i);
              (* Set form values *)
              modify (setValue (with_name (Project.name project)));;
              modify (setValue (with_tagline (Project.tagline project)));;
              modify (setValue (with_description (Project.description project)));;
              modify (setValue (with_categories (Project.categories project)));;
              modify (setValue (with_featured (Project.featured project)));;
              modify (setValue (with_status (Project.status project)));;
              (* Set boolean fields and ensure dropdowns reflect existing URLs *)
              modify (setValue (with_isHiring
                (setValueAs
                   (from_boolean (Project.isHiring project
                                  || truthy_opt (Project.careerPageUrl project))))));;
              modify (setValue (with_careerPageUrl
                (Some (or_empty (Project.careerPageUrl project)))));;
              modify (setValue (with_isOpenForBounty
                (setValueAs
                   (from_boolean (Project.isOpenForBounty project
                                  || truthy_opt (Project.bountySubmissionUrl project))))));;
              modify (setValue (with_bountySubmissionUrl
                (Some (or_empty (Project.bountySubmissionUrl project)))));;
              modify (setValue (with_isOpenSource
                (setValueAs
                   (from_boolean (Project.isOpenSource project
                                  || truthy_opt (Project.githubUrl project))))));;
              modify (setValue (with_githubUrl
                (Some (or_empty (Project.githubUrl project)))));;
              (* Set image previews *)
              modify (setLogoPreview (or_empty (Project.logo project)));;
              modify (setHeroImagePreview (or_empty (Project.heroImage project)));;
              (match Project.images project with
               | Some images => modify (setProjectImagePreviews images)
               | None => ret tt
               end);;
              (* Set categories *)
              modify (setSelectedCategories (Project.categories project));;
              (* Social links mapping into checkboxes + values if present:
                 the five [includeSocialLinks.*] and the five
                 [socialLinks.*] fields are set key by key *)
              modify (setSocialLinksSelection
                        (loadedInclude (Project.socialLinks project)));;
              modify (setValue (with_includeSocialLinks
                        (loadedInclude (Project.socialLinks project))));;
              modify (setValue (with_socialLinks
                        (loadedSocialLinks (Project.socialLinks project)))))
             (emit (EConsoleError "Failed to fetch project:"))
             (modify (setLoading false))
         else return_
     | None => return_
     end).
End Component.

(** *** Reading a trace *)

Definition is_folder_creation (e : Event) : bool :=
  match e with ECreateProjectFolders _ => true | _ => false end.

Definition is_upload (e : Event) : bool :=
  match e with
  | EUploadFile _ _ _ | EUploadMultipleFiles _ _ _ => true
  | _ => false
  end.

(** The payloads of the create calls of a trace, in order. *)
Definition create_calls (tr : list Event) : list ProjectData :=
  omap (fun e => match e with ECreateProject payload => Some payload | _ => None end) tr.

(** The update calls of a trace: identity and payload. *)
Definition update_calls (tr : list Event) : list (string * ProjectData) :=
  omap (fun e => match e with EUpdateProject i payload => Some (i, payload) | _ => None end)
       tr.

(** The targets of the navigations of a trace. *)
Definition navigations (tr : list Event) : list string :=
  omap (fun e => match e with ENavigate to => Some to | _ => None end) tr.

(** The featured cap stops the submission: the draft is featured, the
    count query succeeds and reports 3 featured projects or more. *)
Definition cap_reached (api : ApiService) (data : ProjectFormData) : bool :=
  featured data
  && match getFeaturedCounts api with
     | Some counts => (3 <=? projects counts)%Z
     | None => false
     end.

(** How a submission ends once the uploads are over: the completion of
    the [try] block and the calls made after the last upload. *)
Inductive SaveTail (api : ApiService) (mode : Mode) (id : option string)
    (data : ProjectFormData) : Completion unit -> list Event -> Prop :=
  | not_reached :
      SaveTail api mode id data ThrowC []
  | created (uploads : Uploads) :
      mode = create ->
      createProject api (projectData data uploads) = Some tt ->
      SaveTail api mode id data (Normal tt)
        [ECreateProject (projectData data uploads);
         EToastSuccess "Project created successfully";
         ENavigate "/projects"]
  | create_failed (uploads : Uploads) :
      mode = create ->
      createProject api (projectData data uploads) = None ->
      SaveTail api mode id data ThrowC [ECreateProject (projectData data uploads)]
  | updated (i : string) (uploads : Uploads) :
      mode = edit -> id = Some i -> truthy i = true ->
      updateProject api i (projectData data uploads) = Some tt ->
      SaveTail api mode id data (Normal tt)
        [EUpdateProject i (projectData data uploads);
         EToastSuccess "Project updated successfully";
         ENavigate "/projects"]
  | update_failed (i : string) (uploads : Uploads) :
      mode = edit -> id = Some i -> truthy i = true ->
      updateProject api i (projectData data uploads) = None ->
      SaveTail api mode id data ThrowC [EUpdateProject i (projectData data uploads)]
  | no_identity :
      mode = edit -> truthy_opt id = false ->
      SaveTail api mode id data (Normal tt) [ENavigate "/projects"].

(** The same service with another answer to the featured-count query. *)
Definition withFeaturedCounts (c : option FeaturedCounts) (api : ApiService)
  : ApiService :=
  {| getFeaturedCounts := c;
     getProject := getProject api;
     createProjectFolders := createProjectFolders api;
     uploadFile := uploadFile api;
     uploadMultipleFiles := uploadMultipleFiles api;
     createProject := createProject api;
     updateProject := updateProject api |}.

(** *** Staging files *)

Definition setLogoFile (v : option File) (st : State) : State :=
  {| loading := loading st; logoFile := v; heroImageFile := heroImageFile st;
     projectImageFiles := projectImageFiles st; logoPreview := logoPreview st;
     heroImagePreview := heroImagePreview st;
     projectImagePreviews := projectImagePreviews st;
     selectedCategories := selectedCategories st;
     socialLinksSelection := socialLinksSelection st;
     values := values st; errors := errors st |}.

Definition setHeroImageFile (v : option File) (st : State) : State :=
  {| loading := loading st; logoFile := logoFile st; heroImageFile := v;
     projectImageFiles := projectImageFiles st; logoPreview := logoPreview st;
     heroImagePreview := heroImagePreview st;
     projectImagePreviews := projectImagePreviews st;
     selectedCategories := selectedCategories st;
     socialLinksSelection := socialLinksSelection st;
     values := values st; errors := errors st |}.

Definition setProjectImageFiles (v : list File) (st : State) : State :=
  {| loading := loading st; logoFile := logoFile st; heroImageFile := heroImageFile st;
     projectImageFiles := v; logoPreview := logoPreview st;
     heroImagePreview := heroImagePreview st;
     projectImagePreviews := projectImagePreviews st;
     selectedCategories := selectedCategories st;
     socialLinksSelection := socialLinksSelection st;
     values := values st; errors := errors st |}.

(** [type: "logo" | "hero-image"] *)
Inductive FileSlot : Type := slot_logo | slot_hero_image.

(** [handleFileChange(file, type)] up to the end of the handler: with a
    file, a [FileReader] is started and the state changes only in its
    [onload]; with [null], the slot is cleared at once. *)
Definition handleFileChange (file : option File) (type : FileSlot) (st : State) : State :=
  match file with
  | Some _ => st
  | None =>
      match type with
      | slot_logo => setLogoPreview "" (setLogoFile None st)
      | slot_hero_image => setHeroImagePreview "" (setHeroImageFile None st)
      end
  end.

(** The [reader.onload] callback of [handleFileChange(file, type)], with
    [e.target.result]. *)
Definition handleFileChange_onload (file : File) (type : FileSlot) (result : string)
    (st : State) : State :=
  match type with
  | slot_logo => setLogoPreview result (setLogoFile (Some file) st)
  | slot_hero_image => setHeroImagePreview result (setHeroImageFile (Some file) st)
  end.

(** [handleProjectImagesChange(files)] up to the end of the handler: the
    files are appended; one [FileReader] per file is started. *)
Definition handleProjectImagesChange (files : option (list File)) (st : State) : State :=
  match files with
  | Some fileArray => setProjectImageFiles (projectImageFiles st ++ fileArray) st
  | None => st
  end.

(** The [reader.onload] callback of one gallery file, with [e.target.result]. *)
Definition projectImage_onload (result : string) (st : State) : State :=
  setProjectImagePreviews (projectImagePreviews st ++ [result]) st.

(** [array.filter((x, i) => keep x i)], the indices counted from [i]. *)
Fixpoint filter_index_from {A : Type} (keep : A -> nat -> bool) (i : nat) (l : list A)
  : list A :=
  match l with
  | [] => []
  | x :: l' =>
      if keep x i then x :: filter_index_from keep (S i) l'
      else filter_index_from keep (S i) l'
  end.

Definition filter_index {A : Type} (keep : A -> nat -> bool) (l : list A) : list A :=
  filter_index_from keep 0 l.

Definition removeProjectImage (index : nat) (st : State) : State :=
  setProjectImagePreviews
    (filter_index (fun _ i => negb (i =? index)%nat) (projectImagePreviews st))
    (setProjectImageFiles
       (filter_index (fun _ i => negb (i =? index)%nat) (projectImageFiles st)) st).

(** The previews are those of the staged gallery files, in order, for a
    reader that turns a file into [dataUrl file]. *)
Definition previews_follow (dataUrl : File -> string) (st : State) : Prop :=
  projectImagePreviews st = map dataUrl (projectImageFiles st).

(** *** Social links *)

(** [keyof typeof socialLinksSelection] *)
Inductive Platform : Type :=
  on_website | on_twitter | on_github | on_discord | on_telegram.

#[global] Instance Platform_eq_dec : EqDecision Platform.
Proof. solve_decision. Defined.

Definition platform_key (platform : Platform) : string :=
  match platform with
  | on_website => "website"
  | on_twitter => "twitter"
  | on_github => "github"
  | on_discord => "discord"
  | on_telegram => "telegram"
  end.

(** [selection[platform]] *)
Definition included (platform : Platform) (selection : IncludeSocialLinks) : bool :=
  match platform with
  | on_website => include_website selection
  | on_twitter => include_twitter selection
  | on_github => include_github selection
  | on_discord => include_discord selection
  | on_telegram => include_telegram selection
  end.

(** [{ ...selection, [platform]: b }] *)
Definition with_included (platform : Platform) (b : bool) (selection : IncludeSocialLinks)
  : IncludeSocialLinks :=
  {| include_website :=
       match platform with on_website => b | _ => include_website selection end;
     include_twitter :=
       match platform with on_twitter => b | _ => include_twitter selection end;
     include_github :=
       match platform with on_github => b | _ => include_github selection end;
     include_discord :=
       match platform with on_discord => b | _ => include_discord selection end;
     include_telegram :=
       match platform with on_telegram => b | _ => include_telegram selection end |}.

(** [data.socialLinks[platform]] *)
Definition link_of (platform : Platform) (links : SocialLinks) : option string :=
  match platform with
  | on_website => link_website links
  | on_twitter => link_twitter links
  | on_github => link_github links
  | on_discord => link_discord links
  | on_telegram => link_telegram links
  end.

(** [toggleSocialLink(platform)]: the updater flips the cell and writes
    the new flag to the form field [includeSocialLinks.<platform>]. *)
Definition toggleSocialLink (platform : Platform) (st : State) : State :=
  let updated :=
    with_included platform (negb (included platform (socialLinksSelection st)))
      (socialLinksSelection st) in
  setSocialLinksSelection updated
    (setValue
       (fun d =>
          with_includeSocialLinks
            (with_included platform (included platform updated) (includeSocialLinks d)) d)
       st).

(** The form fields that mirror a cell agree with it. *)
Definition form_in_sync (st : State) : Prop :=
  categories (values st) = selectedCategories st
  /\ includeSocialLinks (values st) = socialLinksSelection st.

(** *** The handlers that edit the form, as actions *)

Inductive Action : Type :=
  | ToggleCategory (categoryName : string)
  | ToggleSocialLink (platform : Platform)
  | ChangeFile (file : option File) (type : FileSlot)
  | FileLoaded (file : File) (type : FileSlot) (result : string)
  | ChangeProjectImages (files : option (list File))
  | ProjectImageLoaded (result : string)
  | RemoveProjectImage (index : nat).

Definition perform (a : Action) (st : State) : State :=
  match a with
  | ToggleCategory categoryName => toggleCategory categoryName st
  | ToggleSocialLink platform => toggleSocialLink platform st
  | ChangeFile file type => handleFileChange file type st
  | FileLoaded file type result => handleFileChange_onload file type result st
  | ChangeProjectImages files => handleProjectImagesChange files st
  | ProjectImageLoaded result => projectImage_onload result st
  | RemoveProjectImage index => removeProjectImage index st
  end.

Definition performAll (actions : list Action) (st : State) : State :=
  fold_left (fun s a => perform a s) actions st.

(** [project.socialLinks?.[platform]] of a stored project. *)
Definition stored_link (platform : Platform) (p : Project.t) : option string :=
  Project.socialLinks p ≫=
    match platform with
    | on_website => Project.social_website
    | on_twitter => Project.social_twitter
    | on_github => Project.social_github
    | on_discord => Project.social_discord
    | on_telegram => Project.social_telegram
    end.

(** The payload built from the field values that [fetchProject] leaves,
    for given uploads: what saving a project just loaded sends. *)
Definition reloadedPayload (api : ApiService) (i : string) (st : State) (u : Uploads)
  : ProjectData :=
  projectData (values (final (fetchProject api (Some i) st))) u.

(** *** More readings of a trace *)

(** The upload calls of a trace, in order. *)
Definition upload_calls (tr : list Event) : list Event := List.filter is_upload tr.

(** The uploads that the staged files call for, in the order of
    [uploadFiles]. *)
Definition stagedUploads (projectName : string) (st : State) : list Event :=
  match logoFile st with
  | Some file => [EUploadFile file "logo" projectName]
  | None => []
  end
  ++ match heroImageFile st with
     | Some file => [EUploadFile file "project-hero-image" projectName]
     | None => []
     end
  ++ match projectImageFiles st with
     | _ :: _ => [EUploadMultipleFiles (projectImageFiles st) "project-image" projectName]
     | [] => []
     end.

(** The storage service resolves every call that [uploadFiles] makes for
    the staged files, and [u] holds the URLs it returns: stated on the
    answers of [apiService]. *)
Definition storage_answers (api : ApiService) (projectName : string) (st : State)
    (u : Uploads) : Prop :=
  createProjectFolders api projectName = Some tt
  /\ match logoFile st with
     | Some file =>
         exists r, uploadFile api file "logo" projectName = Some r
                   /\ logo u = Some (url r)
     | None => logo u = None
     end
  /\ match heroImageFile st with
     | Some file =>
         exists r, uploadFile api file "project-hero-image" projectName = Some r
                   /\ heroImage u = Some (url r)
     | None => heroImage u = None
     end
  /\ match projectImageFiles st with
     | _ :: _ =>
         exists rs,
           uploadMultipleFiles api (projectImageFiles st) "project-image" projectName
           = Some rs
           /\ projectImages u = Some (map url rs)
     | [] => projectImages u = None
     end.

(** The storage service rejects a call that [uploadFiles] makes: the
    folder creation, or the upload of a staged file. *)
Definition storage_rejects (api : ApiService) (projectName : string) (st : State)
  : Prop :=
  createProjectFolders api projectName = None
  \/ (exists file, logoFile st = Some file
                   /\ uploadFile api file "logo" projectName = None)
  \/ (exists file, heroImageFile st = Some file
                   /\ uploadFile api file "project-hero-image" projectName = None)
  \/ (projectImageFiles st <> []
      /\ uploadMultipleFiles api (projectImageFiles st) "project-image" projectName
         = None).

(** The calls after the last upload, as the answer of the create or update
    call decides them. *)
Definition lastCalls (api : ApiService) (mode : Mode) (id : option string)
    (payload : ProjectData) : list Event :=
  match mode with
  | create =>
      ECreateProject payload
      :: match createProject api payload with
         | Some _ => [EToastSuccess "Project created successfully";
                      ENavigate "/projects"]
         | None => [EConsoleError "Failed to save project:"]
         end
  | edit =>
      match id with
      | Some i =>
          if truthy i then
            EUpdateProject i payload
            :: match updateProject api i payload with
               | Some _ => [EToastSuccess "Project updated successfully";
                            ENavigate "/projects"]
               | None => [EConsoleError "Failed to save project:"]
               end
          else [ENavigate "/projects"]
      | None => [ENavigate "/projects"]
      end
  end.

(** The messages of the error toasts, of the success toasts and of the
    console errors of a trace. *)
Definition error_toasts (tr : list Event) : list string :=
  omap (fun e => match e with EToastError msg => Some msg | _ => None end) tr.

Definition success_toasts (tr : list Event) : list string :=
  omap (fun e => match e with EToastSuccess msg => Some msg | _ => None end) tr.

Definition console_errors (tr : list Event) : list string :=
  omap (fun e => match e with EConsoleError msg => Some msg | _ => None end) tr.

End ProjectForm.

(** ** [components/VideoForm.tsx] *)

Module VideoForm.

(** [type VideoFormData = z.infer<typeof videoSchema>] *)
Record VideoFormData : Type := {
  title : string;
  description : option string;
  playbackId : string;
  thumbnail : option string;
  featured : bool;
  projectId : string;
}.

Inductive Event : Type :=
  | EGetFeaturedCounts
  | ECreateVideoFolder (projectName playbackId : string)
  | EUploadVideoThumbnail (file : File) (projectName playbackId : string)
  | ECreateVideo (videoData : VideoFormData)
  | EUpdateVideo (id : string) (videoData : VideoFormData)
  | EToastError (msg : string)
  | EToastSuccess (msg : string)
  | ENavigate (to : string)
  | EConsoleError (msg : string).

(** The methods of [apiService] that [onSubmit] awaits. *)
Record ApiService : Type := {
  getFeaturedCounts : option FeaturedCounts;
  createVideoFolder : string -> string -> option unit;
  uploadVideoThumbnail : File -> string -> string -> option UploadResult;
  createVideo : VideoFormData -> option unit;
  updateVideo : string -> VideoFormData -> option unit;
}.

(** The [useState] cells of the component. *)
Record State : Type := {
  loading : bool;
  projects : list Project.t;
  thumbnailFile : option File;
  thumbnailPreview : string;
}.

Definition setLoading (b : bool) (st : State) : State :=
  {| loading := b; projects := projects st; thumbnailFile := thumbnailFile st;
     thumbnailPreview := thumbnailPreview st |}.

(** [disabled={loading}] on the submit button. *)
Definition submitDisabled (st : State) : bool := loading st.

Definition featuredCapMessage : string :=
  "Only 3 featured videos are allowed. Please unfeature an existing video first.".

(** [{ ...data, thumbnail: thumbnailUrl || data.thumbnail }] *)
Definition videoData (data : VideoFormData) (thumbnailUrl : option string)
  : VideoFormData :=
  {| title := title data; description := description data;
     playbackId := playbackId data;
     thumbnail := if truthy_opt thumbnailUrl then thumbnailUrl else thumbnail data;
     featured := featured data; projectId := projectId data |}.

Section Component.
(** [apiService], the [mode] prop and the [id] of [useParams]. *)
Variable api : ApiService.
Variable mode : Mode.
Variable id : option string.

Definition uploadThumbnail (projectName playbackId : string)
  : M State Event (option string) :=
  st ← get;
  match thumbnailFile st with
  | Some file =>
      (* Create video folder first *)
      call (ECreateVideoFolder projectName playbackId)
           (createVideoFolder api projectName playbackId);;
      (* Upload thumbnail to the specific video folder *)
      result ← call (EUploadVideoThumbnail file projectName playbackId)
                    (uploadVideoThumbnail api file projectName playbackId);
      ret (Some (url result))
  | None => ret None
  end.

(** The block of [onSubmit] that guards the featured cap. *)
Definition checkFeaturedCap (data : VideoFormData) : M State Event unit :=
  if featured data then
    try_catch
      (counts ← call EGetFeaturedCounts (getFeaturedCounts api);
       (if (3 <=? videos counts)%Z && is_create mode then
          emit (EToastError featuredCapMessage);;
          modify (setLoading false);;
          return_
        else ret tt);;
       (if (3 <=? videos counts)%Z && is_edit mode then
          emit (EToastError featuredCapMessage);;
          modify (setLoading false);;
          return_
        else ret tt))
      (ret tt)
  else ret tt.

(** [if (mode === "create") { .. } else if (id) { .. }] *)
Definition createOrUpdate (payload : VideoFormData) : M State Event unit :=
  match mode with
  | create =>
      call (ECreateVideo payload) (createVideo api payload);;
      emit (EToastSuccess "Video created successfully")
  | edit =>
      match id with
      | Some i =>
          if truthy i then
            call (EUpdateVideo i payload) (updateVideo api i payload);;
            emit (EToastSuccess "Video updated successfully")
          else ret tt
      | None => ret tt
      end
  end.

(** [projects.find((p) => p.id === data.projectId)], then
    [throw new Error("Selected project not found")] when there is none. *)
Definition findSelectedProject (data : VideoFormData) : M State Event Project.t :=
  st ← get;
  match List.find (fun p => String.eqb (Project.id p) (projectId data)) (projects st) with
  | Some p => ret p
  | None => throw
  end.

(** The rest of the [try] block: project lookup, upload, API call,
    navigation. *)
Definition saveVideo (data : VideoFormData) : M State Event unit :=
  (* Find the selected project to get its name *)
  selectedProject ← findSelectedProject data;
  (* Upload thumbnail if any *)
  thumbnailUrl ← uploadThumbnail (Project.name selectedProject) (playbackId data);
  createOrUpdate (videoData data thumbnailUrl);;
  emit (ENavigate "/videos").

(** The [try] block of [onSubmit]. *)
Definition onSubmit_try (data : VideoFormData) : M State Event unit :=
  modify (setLoading true);;
  checkFeaturedCap data;;
  saveVideo data.

Definition onSubmit (data : VideoFormData) : M State Event unit :=
  function_body
    (try_catch_finally
       (onSubmit_try data)
       (emit (EConsoleError "Failed to save video:"))
       (modify (setLoading false))).
(** [onSubmit] without its featured-cap block: the submission as it
    proceeds when the cap does not stop it. *)
Definition onSubmit_unchecked (data : VideoFormData) : M State Event unit :=
  function_body
    (try_catch_finally
       (modify (setLoading true);; saveVideo data)
       (emit (EConsoleError "Failed to save video:"))
       (modify (setLoading false))).
End Component.

(** *** Reading a trace *)

Definition is_folder_creation (e : Event) : bool :=
  match e with ECreateVideoFolder _ _ => true | _ => false end.

Definition is_upload (e : Event) : bool :=
  match e with EUploadVideoThumbnail _ _ _ => true | _ => false end.

(** The payloads of the create calls of a trace, in order. *)
Definition create_calls (tr : list Event) : list VideoFormData :=
  omap (fun e => match e with ECreateVideo payload => Some payload | _ => None end) tr.

(** The update calls of a trace: identity and payload. *)
Definition update_calls (tr : list Event) : list (string * VideoFormData) :=
  omap (fun e => match e with EUpdateVideo i payload => Some (i, payload) | _ => None end)
       tr.

(** The targets of the navigations of a trace. *)
Definition navigations (tr : list Event) : list string :=
  omap (fun e => match e with ENavigate to => Some to | _ => None end) tr.

(** The featured cap stops the submission: the draft is featured, the
    count query succeeds and reports 3 featured videos or more. *)
Definition cap_reached (api : ApiService) (data : VideoFormData) : bool :=
  featured data
  && match getFeaturedCounts api with
     | Some counts => (3 <=? videos counts)%Z
     | None => false
     end.

(** The project selected in the form, as [onSubmit] looks it up. *)
Definition selectedProject (data : VideoFormData) (st : State) : option Project.t :=
  List.find (fun p => String.eqb (Project.id p) (projectId data)) (projects st).

(** The calls of [uploadThumbnail] in a submission: none, a folder
    creation that fails, or a folder creation followed by the upload. *)
Inductive ThumbnailCalls (api : ApiService) (data : VideoFormData) (st : State)
  : list Event -> Prop :=
  | no_thumbnail_call :
      ThumbnailCalls api data st []
  | folder_failed (p : Project.t) :
      selectedProject data st = Some p ->
      createVideoFolder api (Project.name p) (playbackId data) = None ->
      ThumbnailCalls api data st
        [ECreateVideoFolder (Project.name p) (playbackId data)]
  | folder_then_upload (p : Project.t) (file : File) :
      selectedProject data st = Some p ->
      createVideoFolder api (Project.name p) (playbackId data) = Some tt ->
      ThumbnailCalls api data st
        [ECreateVideoFolder (Project.name p) (playbackId data);
         EUploadVideoThumbnail file (Project.name p) (playbackId data)].

(** How a submission ends once the thumbnail is dealt with: the
    completion of the [try] block and the calls made after the upload. *)
Inductive SaveTail (api : ApiService) (mode : Mode) (id : option string)
    (data : VideoFormData) : Completion unit -> list Event -> Prop :=
  | not_reached :
      SaveTail api mode id data ThrowC []
  | created (thumbnailUrl : option string) :
      mode = create ->
      createVideo api (videoData data thumbnailUrl) = Some tt ->
      SaveTail api mode id data (Normal tt)
        [ECreateVideo (videoData data thumbnailUrl);
         EToastSuccess "Video created successfully";
         ENavigate "/videos"]
  | create_failed (thumbnailUrl : option string) :
      mode = create ->
      createVideo api (videoData data thumbnailUrl) = None ->
      SaveTail api mode id data ThrowC [ECreateVideo (videoData data thumbnailUrl)]
  | updated (i : string) (thumbnailUrl : option string) :
      mode = edit -> id = Some i -> truthy i = true ->
      updateVideo api i (videoData data thumbnailUrl) = Some tt ->
      SaveTail api mode id data (Normal tt)
        [EUpdateVideo i (videoData data thumbnailUrl);
         EToastSuccess "Video updated successfully";
         ENavigate "/videos"]
  | update_failed (i : string) (thumbnailUrl : option string) :
      mode = edit -> id = Some i -> truthy i = true ->
      updateVideo api i (videoData data thumbnailUrl) = None ->
      SaveTail api mode id data ThrowC [EUpdateVideo i (videoData data thumbnailUrl)]
  | no_identity :
      mode = edit -> truthy_opt id = false ->
      SaveTail api mode id data (Normal tt) [ENavigate "/videos"].

(** The same service with another answer to the featured-count query. *)
Definition withFeaturedCounts (c : option FeaturedCounts) (api : ApiService)
  : ApiService :=
  {| getFeaturedCounts := c;
     createVideoFolder := createVideoFolder api;
     uploadVideoThumbnail := uploadVideoThumbnail api;
     createVideo := createVideo api;
     updateVideo := updateVideo api |}.

(** *** The schema *)

(** [videoSchema]: the issues of a draft, in the order of the keys;
    [description] and [thumbnail] are optional strings and [featured] a
    boolean, which raise no issue in a [VideoFormData]. *)
Definition videoSchema (d : VideoFormData) : list ProjectForm.ZodIssue :=
  ProjectForm.string_min 1 "Video title is required" ["title"] (title d)
  ++ ProjectForm.string_min 1 "Playback ID is required" ["playbackId"] (playbackId d)
  ++ ProjectForm.string_min 1 "Project is required" ["projectId"] (projectId d).

(** The verdict of [zodResolver(videoSchema)]. *)
Definition Validate (d : VideoFormData) : bool :=
  match videoSchema d with
  | [] => true
  | _ :: _ => false
  end.

(** *** Loading and staging *)

(** The component with the field values held by [useForm] beside its
    [useState] cells. *)
Record Form : Type := { cells : State; values : VideoFormData }.

Definition setProjects (v : list Project.t) (st : State) : State :=
  {| loading := loading st; projects := v; thumbnailFile := thumbnailFile st;
     thumbnailPreview := thumbnailPreview st |}.

Definition setThumbnailFile (v : option File) (st : State) : State :=
  {| loading := loading st; projects := projects st; thumbnailFile := v;
     thumbnailPreview := thumbnailPreview st |}.

Definition setThumbnailPreview (v : string) (st : State) : State :=
  {| loading := loading st; projects := projects st; thumbnailFile := thumbnailFile st;
     thumbnailPreview := v |}.

(** A write to a cell, and [setValue] on the form. *)
Definition onCells (f : State -> State) (fm : Form) : Form :=
  {| cells := f (cells fm); values := values fm |}.

Definition setValue (f : VideoFormData -> VideoFormData) (fm : Form) : Form :=
  {| cells := cells fm; values := f (values fm) |}.

Definition with_title (v : string) (d : VideoFormData) : VideoFormData :=
  {| title := v; description := description d; playbackId := playbackId d;
     thumbnail := thumbnail d; featured := featured d; projectId := projectId d |}.

Definition with_description (v : option string) (d : VideoFormData) : VideoFormData :=
  {| title := title d; description := v; playbackId := playbackId d;
     thumbnail := thumbnail d; featured := featured d; projectId := projectId d |}.

Definition with_playbackId (v : string) (d : VideoFormData) : VideoFormData :=
  {| title := title d; description := description d; playbackId := v;
     thumbnail := thumbnail d; featured := featured d; projectId := projectId d |}.

Definition with_thumbnail (v : option string) (d : VideoFormData) : VideoFormData :=
  {| title := title d; description := description d; playbackId := playbackId d;
     thumbnail := v; featured := featured d; projectId := projectId d |}.

Definition with_featured (v : bool) (d : VideoFormData) : VideoFormData :=
  {| title := title d; description := description d; playbackId := playbackId d;
     thumbnail := thumbnail d; featured := v; projectId := projectId d |}.

Definition with_projectId (v : string) (d : VideoFormData) : VideoFormData :=
  {| title := title d; description := description d; playbackId := playbackId d;
     thumbnail := thumbnail d; featured := featured d; projectId := v |}.

Inductive LoadEvent : Type :=
  | EGetPublishedProjects
  | EGetVideo (id : string)
  | ELoadError (msg : string).

(** The methods of [apiService] awaited while loading. *)
Record LoadService : Type := {
  getPublishedProjects : option (list Project.t);
  getVideo : string -> option Video.t;
}.

Definition fetchProjects (service : LoadService) : M Form LoadEvent unit :=
  try_catch
    (publishedProjects ← call EGetPublishedProjects (getPublishedProjects service);
     modify (onCells (setProjects publishedProjects)))
    (emit (ELoadError "Failed to fetch published projects:")).

Definition fetchVideo (service : LoadService) (id : option string)
  : M Form LoadEvent unit :=
  function_body
    (match id with
     | Some i =>
         if truthy i then
           try_catch_finally
             (modify (onCells (setLoading true));;
              video ← call (EGetVideo i) (getVideo service i);
              modify (setValue (with_title (Video.title video)));;
              modify (setValue (with_description
                                  (Some (or_empty (Video.description video)))));;
              modify (setValue (with_playbackId (Video.playbackId video)));;
              modify (setValue (with_thumbnail (Some (Video.thumbnail video))));;
              modify (setValue (with_featured (Video.featured video)));;
              modify (setValue (with_projectId (Video.projectId video)));;
              modify (onCells (setThumbnailPreview (Video.thumbnail video))))
             (emit (ELoadError "Failed to fetch video:"))
             (modify (onCells (setLoading false)))
         else return_
     | None => return_
     end).

(** [handleFileChange(file)] up to the end of the handler: with a file,
    a [FileReader] is started and the state changes only in its [onload];
    with [null], the thumbnail is cleared at once. *)
Definition handleFileChange (file : option File) (st : State) : State :=
  match file with
  | Some _ => st
  | None => setThumbnailPreview "" (setThumbnailFile None st)
  end.

(** The [reader.onload] callback of [handleFileChange(file)], with
    [e.target.result]. *)
Definition handleFileChange_onload (file : File) (result : string) (st : State) : State :=
  setThumbnailPreview result (setThumbnailFile (Some file) st).

(** *** More readings of a trace *)

Definition upload_calls (tr : list Event) : list Event := List.filter is_upload tr.

Definition folder_calls (tr : list Event) : list Event :=
  List.filter is_folder_creation tr.

(** The calls to the storage service of a trace, in order. *)
Definition storage_calls (tr : list Event) : list Event :=
  List.filter (fun e => is_folder_creation e || is_upload e) tr.

(** The calls that a staged thumbnail asks of [uploadThumbnail]. *)
Definition stagedThumbnail (projectName playbackId : string) (st : State) : list Event :=
  match thumbnailFile st with
  | Some file => [ECreateVideoFolder projectName playbackId;
                  EUploadVideoThumbnail file projectName playbackId]
  | None => []
  end.

(** The storage service resolves the calls that [uploadThumbnail] makes,
    and [u] is what [uploadThumbnail] then returns: stated on the answers of
    [apiService]. *)
Definition thumbnail_answers (api : ApiService) (projectName playbackId : string)
    (st : State) (u : option string) : Prop :=
  match thumbnailFile st with
  | Some file =>
      createVideoFolder api projectName playbackId = Some tt
      /\ exists r, uploadVideoThumbnail api file projectName playbackId = Some r
                   /\ u = Some (url r)
  | None => u = None
  end.

(** The storage service rejects a call that [uploadThumbnail] makes: the
    folder creation, or the upload of the staged thumbnail. *)
Definition thumbnail_rejects (api : ApiService) (projectName playbackId : string)
    (st : State) : Prop :=
  exists file,
    thumbnailFile st = Some file
    /\ (createVideoFolder api projectName playbackId = None
        \/ uploadVideoThumbnail api file projectName playbackId = None).

(** The calls after the thumbnail, as the answer of the create or update
    call decides them. *)
Definition lastCalls (api : ApiService) (mode : Mode) (id : option string)
    (payload : VideoFormData) : list Event :=
  match mode with
  | create =>
      ECreateVideo payload
      :: match createVideo api payload with
         | Some _ => [EToastSuccess "Video created successfully"; ENavigate "/videos"]
         | None => [EConsoleError "Failed to save video:"]
         end
  | edit =>
      match id with
      | Some i =>
          if truthy i then
            EUpdateVideo i payload
            :: match updateVideo api i payload with
               | Some _ => [EToastSuccess "Video updated successfully";
                            ENavigate "/videos"]
               | None => [EConsoleError "Failed to save video:"]
               end
          else [ENavigate "/videos"]
      | None => [ENavigate "/videos"]
      end
  end.

Definition error_toasts (tr : list Event) : list string :=
  omap (fun e => match e with EToastError msg => Some msg | _ => None end) tr.

Definition success_toasts (tr : list Event) : list string :=
  omap (fun e => match e with EToastSuccess msg => Some msg | _ => None end) tr.

Definition console_errors (tr : list Event) : list string :=
  omap (fun e => match e with EConsoleError msg => Some msg | _ => None end) tr.

End VideoForm.

(** ** Drafts and collaborators used to exercise the forms *)

Module Samples.
Import ProjectForm.

(** The draft of the scenario: the fields it lists, the rest as
    [defaultValues] leaves them. *)
Definition scenarioDraft : ProjectFormData :=
  {| name := "Foo"; tagline := "bar";
     description := "a sufficiently long description";
     categories := ["DeFi"]; website := None;
     isHiring := false; careerPageUrl := None;
     isOpenForBounty := false; bountySubmissionUrl := None;
     isOpenSource := false; githubUrl := None;
     includeSocialLinks := defaultIncludeSocialLinks;
     socialLinks := defaultSocialLinks;
     featured := false; status := UNPUBLISHED |}.

(** The three flags switched on, the three URL boxes left empty. *)
Definition flagsWithoutUrls : ProjectFormData :=
  with_isHiring true (with_careerPageUrl (Some "")
    (with_isOpenForBounty true (with_bountySubmissionUrl (Some "")
      (with_isOpenSource true (with_githubUrl (Some "") scenarioDraft))))).

(** A URL check that accepts nothing: the strictest possible. *)
Definition no_url : string -> bool := fun _ => false.

Definition featuredDraft : ProjectFormData := with_featured true scenarioDraft.

(** A record stored with [isHiring = false] and a career page all the
    same. *)
Definition storedProject : Project.t :=
  {| Project.id := "p1"; Project.name := "Foo"; Project.tagline := "bar";
     Project.description := "a sufficiently long description";
     Project.categories := ["DeFi"];
     Project.website := None; Project.twitter := None; Project.github := None;
     Project.discord := None; Project.telegram := None;
     Project.logo := None; Project.heroImage := None; Project.images := None;
     Project.isHiring := false;
     Project.careerPageUrl := Some "https://foo.dev/careers";
     Project.isOpenForBounty := false; Project.bountySubmissionUrl := None;
     Project.isOpenSource := true; Project.githubUrl := None;
     Project.featured := false; Project.status := PUBLISHED;
     Project.createdAt := "2025-01-01"; Project.updatedAt := "2025-01-02";
     Project.socialLinks := None |}.

(** A backend that answers every call, with the given featured counts. *)
Definition projectApi (counts : option FeaturedCounts) : ApiService :=
  {| getFeaturedCounts := counts;
     getProject := fun _ => Some storedProject;
     createProjectFolders := fun _ => Some tt;
     uploadFile := fun _ type _ => Some {| url := "https://cdn.example/" +:+ type |};
     uploadMultipleFiles :=
       fun files _ _ => Some (map (fun _ => {| url := "https://cdn.example/image" |}) files);
     createProject := fun _ => Some tt;
     updateProject := fun _ _ => Some tt |}.

(** A form on the draft [d], a logo staged, nothing else touched. *)
Definition projectState (d : ProjectFormData) : State :=
  {| loading := false; logoFile := Some (mkFile "logo.png"); heroImageFile := None;
     projectImageFiles := []; logoPreview := ""; heroImagePreview := "";
     projectImagePreviews := []; selectedCategories := categories d;
     socialLinksSelection := defaultIncludeSocialLinks;
     values := d; errors := [] |}.

(** A form on the draft [d] where no file is staged. *)
Definition emptyForm (d : ProjectFormData) : State :=
  {| loading := false; logoFile := None; heroImageFile := None;
     projectImageFiles := []; logoPreview := ""; heroImagePreview := "";
     projectImagePreviews := []; selectedCategories := categories d;
     socialLinksSelection := defaultIncludeSocialLinks;
     values := d; errors := [] |}.

Definition videoDraft : VideoForm.VideoFormData :=
  {| VideoForm.title := "Intro"; VideoForm.description := None;
     VideoForm.playbackId := "aBcDeFgHiJkL01234567";
     VideoForm.thumbnail := None; VideoForm.featured := true;
     VideoForm.projectId := "p1" |}.

Definition videoApi (counts : option FeaturedCounts) : VideoForm.ApiService :=
  {| VideoForm.getFeaturedCounts := counts;
     VideoForm.createVideoFolder := fun _ _ => Some tt;
     VideoForm.uploadVideoThumbnail :=
       fun _ _ playbackId => Some {| url := "https://cdn.example/" +:+ playbackId |};
     VideoForm.createVideo := fun _ => Some tt;
     VideoForm.updateVideo := fun _ _ => Some tt |}.

(** A video form with the project list loaded and a thumbnail staged. *)
Definition videoState : VideoForm.State :=
  {| VideoForm.loading := false; VideoForm.projects := [storedProject];
     VideoForm.thumbnailFile := Some (mkFile "thumb.png");
     VideoForm.thumbnailPreview := "" |}.

(** A backend whose storage turns every file down. *)
Definition brokenStorage : ApiService :=
  {| getFeaturedCounts := None;
     getProject := fun _ => Some storedProject;
     createProjectFolders := fun _ => Some tt;
     uploadFile := fun _ _ _ => None;
     uploadMultipleFiles := fun _ _ _ => None;
     createProject := fun _ => Some tt;
     updateProject := fun _ _ => Some tt |}.

Definition atCap : FeaturedCounts := {| projects := 3; videos := 3 |}.
Definition belowCap : FeaturedCounts := {| projects := 2; videos := 0 |}.
(** A reader that turns a file into a data URL made of its name. *)
Definition dataUrlOf (file : File) : string :=
  match file with mkFile file_name => "data:" +:+ file_name end.

(** A stored project with two gallery images, and a backend that serves it. *)
Definition storedGallery : Project.t :=
  {| Project.id := "p2"; Project.name := "Bar"; Project.tagline := "baz";
     Project.description := "another sufficiently long description";
     Project.categories := ["NFT"];
     Project.website := None; Project.twitter := None; Project.github := None;
     Project.discord := None; Project.telegram := None;
     Project.logo := Some "https://cdn.example/bar.png"; Project.heroImage := None;
     Project.images := Some ["https://cdn.example/a.png"; "https://cdn.example/b.png"];
     Project.isHiring := true; Project.careerPageUrl := None;
     Project.isOpenForBounty := false; Project.bountySubmissionUrl := None;
     Project.isOpenSource := false; Project.githubUrl := Some "https://github.com/bar";
     Project.featured := false; Project.status := PUBLISHED;
     Project.createdAt := "2025-02-01"; Project.updatedAt := "2025-02-02";
     Project.socialLinks :=
       Some {| Project.social_website := Some "https://bar.dev";
               Project.social_github := None;
               Project.social_twitter := Some "";
               Project.social_discord := None;
               Project.social_telegram := None;
               Project.social_medium := Some "https://medium.com/bar";
               Project.social_youtube := None |} |}.

Definition galleryApi : ApiService :=
  {| getFeaturedCounts := None;
     getProject := fun _ => Some storedGallery;
     createProjectFolders := fun _ => Some tt;
     uploadFile := fun _ type _ => Some {| url := "https://cdn.example/" +:+ type |};
     uploadMultipleFiles :=
       fun files _ _ => Some (map (fun _ => {| url := "https://cdn.example/image" |}) files);
     createProject := fun _ => Some tt;
     updateProject := fun _ _ => Some tt |}.

(** A backend that answers nothing. *)
Definition offlineApi : ApiService :=
  {| getFeaturedCounts := None;
     getProject := fun _ => None;
     createProjectFolders := fun _ => None;
     uploadFile := fun _ _ _ => None;
     uploadMultipleFiles := fun _ _ _ => None;
     createProject := fun _ => None;
     updateProject := fun _ _ => None |}.

(** A form with a logo, a hero image and two gallery files staged. *)
Definition fullyStaged (d : ProjectFormData) : State :=
  {| loading := false; logoFile := Some (mkFile "logo.png");
     heroImageFile := Some (mkFile "hero.png");
     projectImageFiles := [mkFile "one.png"; mkFile "two.png"];
     logoPreview := "data:logo.png"; heroImagePreview := "data:hero.png";
     projectImagePreviews := ["data:one.png"; "data:two.png"];
     selectedCategories := categories d;
     socialLinksSelection := includeSocialLinks d;
     values := d; errors := [] |}.

Definition storedVideo : Video.t :=
  {| Video.id := "v1"; Video.projectId := "p1"; Video.title := "Intro";
     Video.description := None; Video.playbackId := "aBcDeFgHiJkL01234567";
     Video.thumbnail := "https://cdn.example/thumb.png"; Video.featured := false;
     Video.categories := ["DeFi"]; Video.createdAt := "2025-03-01";
     Video.updatedAt := "2025-03-02"; Video.projectName := Some "Foo" |}.

(** A backend whose storage answers and whose create and update calls
    are rejected; the same for videos. *)
Definition rejectingBackend : ApiService :=
  {| getFeaturedCounts := None;
     getProject := fun _ => Some storedProject;
     createProjectFolders := fun _ => Some tt;
     uploadFile := fun _ type _ => Some {| url := "https://cdn.example/" +:+ type |};
     uploadMultipleFiles :=
       fun files _ _ => Some (map (fun _ => {| url := "https://cdn.example/image" |}) files);
     createProject := fun _ => None;
     updateProject := fun _ _ => None |}.

Definition rejectingVideoBackend : VideoForm.ApiService :=
  {| VideoForm.getFeaturedCounts := None;
     VideoForm.createVideoFolder := fun _ _ => Some tt;
     VideoForm.uploadVideoThumbnail :=
       fun _ _ playbackId => Some {| url := "https://cdn.example/" +:+ playbackId |};
     VideoForm.createVideo := fun _ => None;
     VideoForm.updateVideo := fun _ _ => None |}.

(** A video backend whose storage creates the folder and turns the
    thumbnail down. *)
Definition brokenVideoStorage : VideoForm.ApiService :=
  {| VideoForm.getFeaturedCounts := None;
     VideoForm.createVideoFolder := fun _ _ => Some tt;
     VideoForm.uploadVideoThumbnail := fun _ _ _ => None;
     VideoForm.createVideo := fun _ => Some tt;
     VideoForm.updateVideo := fun _ _ => Some tt |}.

(** A form on the draft [d] with two gallery files staged and nothing
    else. *)
Definition galleryOnly (d : ProjectFormData) : State :=
  {| loading := false; logoFile := None; heroImageFile := None;
     projectImageFiles := [mkFile "one.png"; mkFile "two.png"];
     logoPreview := ""; heroImagePreview := "";
     projectImagePreviews := ["data:one.png"; "data:two.png"];
     selectedCategories := categories d;
     socialLinksSelection := includeSocialLinks d;
     values := d; errors := [] |}.

Definition videoLoaders : VideoForm.LoadService :=
  {| VideoForm.getPublishedProjects := Some [storedProject];
     VideoForm.getVideo := fun _ => Some storedVideo |}.

Definition offlineLoaders : VideoForm.LoadService :=
  {| VideoForm.getPublishedProjects := None;
     VideoForm.getVideo := fun _ => None |}.

(** A video form just mounted, and one whose project list is loaded
    with no thumbnail staged. *)
Definition newVideoForm : VideoForm.Form :=
  {| VideoForm.cells :=
       {| VideoForm.loading := false; VideoForm.projects := [];
          VideoForm.thumbnailFile := None; VideoForm.thumbnailPreview := "" |};
     VideoForm.values :=
       {| VideoForm.title := ""; VideoForm.description := None;
          VideoForm.playbackId := ""; VideoForm.thumbnail := None;
          VideoForm.featured := false; VideoForm.projectId := "" |} |}.

Definition loadedVideoForm : VideoForm.Form :=
  {| VideoForm.cells :=
       {| VideoForm.loading := false; VideoForm.projects := [storedProject];
          VideoForm.thumbnailFile := None; VideoForm.thumbnailPreview := "" |};
     VideoForm.values := VideoForm.values newVideoForm |}.
End Samples.

(** ** The schema *)

Section SchemaProperties.
Import ProjectForm.
Variable is_url : string -> bool.

Lemma Validate_true_iff (d : ProjectFormData) :
  Validate is_url d = true <-> projectSchema is_url d = [].
Proof. unfold Validate. destruct (projectSchema is_url d); split; congruence. Qed.

Lemma optional_url_empty (p : list string) (v : option string) :
  truthy_opt v = false -> optional_url is_url p v = [].
Proof.
  destruct v as [s|]; simpl; [|done].
  intros ->. by rewrite orb_true_r.
Qed.

Lemma optional_url_well_formed (p : list string) (s : string) :
  is_url s = true -> optional_url is_url p (Some s) = [].
Proof. simpl. by intros ->. Qed.
Lemma string_min_path (n : nat) (msg : string) (p : list string) (s : string) :
  Forall (fun i => path i = p) (string_min n msg p s).
Proof. unfold string_min. case_match; repeat constructor. Qed.

Lemma array_min_path (n : nat) (msg : string) (p : list string) (l : list string) :
  Forall (fun i => path i = p) (array_min n msg p l).
Proof. unfold array_min. case_match; repeat constructor. Qed.

Lemma optional_url_path (p : list string) (v : option string) :
  Forall (fun i => path i = p) (optional_url is_url p v).
Proof. unfold optional_url. repeat case_match; repeat constructor. Qed.

(** Issues raised on another field do not show at [p]. *)
Lemma filter_other_path (q p : list string) (l : list ZodIssue) :
  Forall (fun i => path i = q) l -> q <> p ->
  filter (fun i => path i = p) l = [].
Proof.
  intros Hall Hne. induction Hall as [|i l Hi _ IH]; [done|].
  rewrite filter_cons_False; [done | congruence].
Qed.
End SchemaProperties.

Section Validation.
Import ProjectForm.
Variable is_url : string -> bool.

Lemma optional_url_ok (p : list string) (v : option string) :
  well_formed_or_empty is_url v -> optional_url is_url p v = [].
Proof.
  intros [-> | [-> | (s & -> & Hs)]].
  - done.
  - by apply optional_url_empty.
  - by apply optional_url_well_formed.
Qed.

(** C1 (amended): the schema check never requires a conditional URL.  For
    each of the three flag/URL pairs, the verdict of [Validate] is the same
    for either value of the flag; an absent or empty URL raises no issue on
    its field; and a non-empty URL, stale or not, raises an issue exactly
    when the URL check turns it down. *)
Theorem C1_conditional_url_never_required (d : ProjectFormData) :
  ((forall b, Validate is_url (with_isHiring b d) = Validate is_url d)
   /\ errors_at is_url ["careerPageUrl"] (with_careerPageUrl None d) = []
   /\ errors_at is_url ["careerPageUrl"] (with_careerPageUrl (Some "") d) = []
   /\ (forall a s,
         errors_at is_url ["careerPageUrl"] (with_careerPageUrl (Some (String a s)) d)
         = if is_url (String a s) then []
           else [{| path := ["careerPageUrl"]; message := "Must be a valid URL" |}]))
  /\ ((forall b, Validate is_url (with_isOpenForBounty b d) = Validate is_url d)
   /\ errors_at is_url ["bountySubmissionUrl"] (with_bountySubmissionUrl None d) = []
   /\ errors_at is_url ["bountySubmissionUrl"] (with_bountySubmissionUrl (Some "") d) = []
   /\ (forall a s,
         errors_at is_url ["bountySubmissionUrl"]
           (with_bountySubmissionUrl (Some (String a s)) d)
         = if is_url (String a s) then []
           else [{| path := ["bountySubmissionUrl"];
                    message := "Must be a valid URL" |}]))
  /\ ((forall b, Validate is_url (with_isOpenSource b d) = Validate is_url d)
   /\ errors_at is_url ["githubUrl"] (with_githubUrl None d) = []
   /\ errors_at is_url ["githubUrl"] (with_githubUrl (Some "") d) = []
   /\ (forall a s,
         errors_at is_url ["githubUrl"] (with_githubUrl (Some (String a s)) d)
         = if is_url (String a s) then []
           else [{| path := ["githubUrl"]; message := "Must be a valid URL" |}])).
Proof.
  repeat split; try reflexivity; intros.
  all: unfold errors_at, projectSchema; rewrite !filter_app.
  all: repeat
    match goal with
    | |- context [filter _ (string_min ?n ?m ?q ?x)] =>
        rewrite (filter_other_path q _ _ (string_min_path n m q x)) by discriminate
    | |- context [filter _ (array_min ?n ?m ?q ?x)] =>
        rewrite (filter_other_path q _ _ (array_min_path n m q x)) by discriminate
    | |- context [filter _ (optional_url _ ?q ?x)] =>
        rewrite (filter_other_path q _ _ (optional_url_path is_url q x)) by discriminate
    end.
  all: simpl; try reflexivity.
  all: try (rewrite orb_true_r; reflexivity).
  all: rewrite orb_false_r, app_nil_r; by destruct (is_url _).
Qed.

(** C2: [Validate] rejects every draft whose category list is empty, and
    accepts a draft with exactly one category whose name and tagline are
    non-empty, whose description has at least 10 characters and whose URL
    fields are each well-formed or empty. *)
Theorem C2_category_required (d : ProjectFormData) :
  (categories d = [] -> Validate is_url d = false)
  /\ (forall c : string,
        categories d = [c] ->
        name d <> "" ->
        tagline d <> "" ->
        (10 <= String.length (description d))%nat ->
        well_formed_or_empty is_url (website d) ->
        well_formed_or_empty is_url (careerPageUrl d) ->
        well_formed_or_empty is_url (bountySubmissionUrl d) ->
        well_formed_or_empty is_url (githubUrl d) ->
        well_formed_or_empty is_url (link_website (socialLinks d)) ->
        well_formed_or_empty is_url (link_twitter (socialLinks d)) ->
        well_formed_or_empty is_url (link_github (socialLinks d)) ->
        well_formed_or_empty is_url (link_discord (socialLinks d)) ->
        well_formed_or_empty is_url (link_telegram (socialLinks d)) ->
        Validate is_url d = true).
Proof.
  split.
  - intros Hnil. unfold Validate, projectSchema. rewrite Hnil.
    unfold string_min. repeat case_match; simpl in *; congruence.
  - intros c Hc Hname Htag Hdesc Hw Hcar Hbou Hgit H1 H2 H3 H4 H5.
    apply Validate_true_iff. unfold projectSchema.
    rewrite !optional_url_ok by assumption.
    assert (Hn : (1 <=? String.length (name d))%nat = true)
      by (destruct (name d); done).
    assert (Ht : (1 <=? String.length (tagline d))%nat = true)
      by (destruct (tagline d); done).
    apply Nat.leb_le in Hdesc.
    unfold string_min, array_min. rewrite Hn, Ht, Hdesc, Hc. reflexivity.
Qed.
End Validation.

(** C1 as stated fails: with the three flags on and the three URL boxes
    empty, the draft is accepted, whatever strings the URL check takes. *)
Lemma C1_flags_without_urls_accepted :
  (ProjectForm.isHiring Samples.flagsWithoutUrls = true
   /\ ProjectForm.careerPageUrl Samples.flagsWithoutUrls = Some "")
  /\ (ProjectForm.isOpenForBounty Samples.flagsWithoutUrls = true
      /\ ProjectForm.bountySubmissionUrl Samples.flagsWithoutUrls = Some "")
  /\ (ProjectForm.isOpenSource Samples.flagsWithoutUrls = true
      /\ ProjectForm.githubUrl Samples.flagsWithoutUrls = Some "")
  /\ (forall is_url, ProjectForm.Validate is_url Samples.flagsWithoutUrls = true).
Proof.
  repeat split. intros is_url.
  unfold ProjectForm.Validate, ProjectForm.projectSchema. simpl.
  by rewrite !orb_true_r.
Qed.

(** The scenario draft, with and without its category. *)
Lemma C2_category_required_witness :
  ProjectForm.Validate Samples.no_url
    (ProjectForm.with_categories [] Samples.scenarioDraft) = false
  /\ ProjectForm.Validate Samples.no_url Samples.scenarioDraft = true.
Proof.
  split.
  - apply (proj1 (C2_category_required Samples.no_url
                    (ProjectForm.with_categories [] Samples.scenarioDraft))).
    reflexivity.
  - apply (proj2 (C2_category_required Samples.no_url Samples.scenarioDraft) "DeFi");
      try reflexivity; try discriminate.
    + simpl. lia.
    + left; reflexivity.
    + left; reflexivity.
    + left; reflexivity.
    + left; reflexivity.
    + right; left; reflexivity.
    + right; left; reflexivity.
    + right; left; reflexivity.
    + right; left; reflexivity.
    + right; left; reflexivity.
Defined.

(** ** Selecting categories *)

Section ToggleCategory.
Import ProjectForm.

Lemma includes_elem_of (c : string) (l : list string) :
  includes c l = true <-> c ∈ l.
Proof.
  unfold includes. rewrite existsb_exists, list_elem_of_In. split.
  - intros (x & Hx & Heq). apply String.eqb_eq in Heq. by subst.
  - intros Hc. exists c. split; [done | apply String.eqb_refl].
Qed.

Lemma elem_of_removed (c x : string) (l : list string) :
  x ∈ List.filter (fun cat => negb (String.eqb cat c)) l <-> x ∈ l /\ x <> c.
Proof.
  rewrite !list_elem_of_In, filter_In, negb_true_iff, String.eqb_neq. done.
Qed.

Lemma selectedCategories_toggle (c : string) (st : State) :
  selectedCategories (toggleCategory c st)
  = if includes c (selectedCategories st)
    then List.filter (fun cat => negb (String.eqb cat c)) (selectedCategories st)
    else selectedCategories st ++ [c].
Proof. reflexivity. Qed.

Lemma elem_of_toggle (c x : string) (st : State) :
  x ∈ selectedCategories (toggleCategory c st)
  <-> (x <> c /\ x ∈ selectedCategories st)
      \/ (x = c /\ c ∉ selectedCategories st).
Proof.
  rewrite selectedCategories_toggle.
  destruct (includes c (selectedCategories st)) eqn:Hin.
  - apply includes_elem_of in Hin. rewrite elem_of_removed. tauto.
  - assert (Hnot : c ∉ selectedCategories st).
    { intros Hc. apply includes_elem_of in Hc. congruence. }
    rewrite elem_of_app, list_elem_of_singleton.
    destruct (decide (x = c)) as [->|Hne]; tauto.
Qed.

(** C3: toggling a category twice brings the set of selected categories
    back to what it was; the form value [categories] follows the selection
    at each toggle. *)
Theorem C3_toggleCategory_twice (categoryName : string) (st : State) :
  list_to_set (selectedCategories (toggleCategory categoryName
                                     (toggleCategory categoryName st)))
    =@{gset string} list_to_set (selectedCategories st)
  /\ categories (values (toggleCategory categoryName (toggleCategory categoryName st)))
      = selectedCategories (toggleCategory categoryName
                              (toggleCategory categoryName st)).
Proof.
  split; [|reflexivity].
  apply set_eq. intros x. rewrite !elem_of_list_to_set, !elem_of_toggle.
  destruct (decide (x = categoryName)) as [->|Hne];
    destruct (decide (categoryName ∈ selectedCategories st)); tauto.
Qed.
End ToggleCategory.

(** ** Loading a project for editing *)

Section LoadForEdit.
Import ProjectForm.

Lemma truthy_opt_spec (v : option string) :
  truthy_opt v = true <-> exists s, v = Some s /\ s <> "".
Proof.
  destruct v as [[|a s]|]; simpl; split; try discriminate.
  - intros (s & [= <-] & Hs). done.
  - intros _. eexists. split; [reflexivity | discriminate].
  - intros _. reflexivity.
  - intros (s & [=] & _).
Qed.

(** The field values left by [fetchProject] when the project is fetched:
    the three flags went through [setValueAs]. *)
Lemma fetchProject_values (api : ApiService) (i : string) (p : Project.t) (st : State) :
  truthy i = true ->
  getProject api i = Some p ->
  values (final (fetchProject api (Some i) st))
  = {| name := Project.name p; tagline := Project.tagline p;
       description := Project.description p; categories := Project.categories p;
       website := website (values st);
       isHiring := false;
       careerPageUrl := Some (or_empty (Project.careerPageUrl p));
       isOpenForBounty := false;
       bountySubmissionUrl := Some (or_empty (Project.bountySubmissionUrl p));
       isOpenSource := false;
       githubUrl := Some (or_empty (Project.githubUrl p));
       includeSocialLinks := loadedInclude (Project.socialLinks p);
       socialLinks := loadedSocialLinks (Project.socialLinks p);
       featured := Project.featured p; status := Project.status p |}.
Proof.
  intros Hi Hp.
  unfold fetchProject, function_body, try_catch_finally, try_finally, try_catch.
  rewrite Hi. unfold mbind, M_bind, bind, call. simpl. rewrite Hp.
  destruct (Project.images p); reflexivity.
Qed.
End LoadForEdit.

(** ** Running handlers *)

Section MonadFacts.
Context {St Ev : Type}.
Implicit Types s : St.

Lemma bind_completion {A B} (m : M St Ev A) (k : A -> M St Ev B) s :
  completion (bind m k s)
  = match completion (m s) with
    | Normal a => completion (k a (final (m s)))
    | ReturnC => ReturnC
    | ThrowC => ThrowC
    end.
Proof.
  unfold bind, completion, final.
  destruct (m s) as [[[a| |] s1] t1]; simpl; [|done..].
  by destruct (k a s1) as [[c s2] t2].
Qed.

Lemma bind_final {A B} (m : M St Ev A) (k : A -> M St Ev B) s :
  final (bind m k s)
  = match completion (m s) with
    | Normal a => final (k a (final (m s)))
    | _ => final (m s)
    end.
Proof.
  unfold bind, completion, final.
  destruct (m s) as [[[a| |] s1] t1]; simpl; [|done..].
  by destruct (k a s1) as [[c s2] t2].
Qed.

Lemma bind_events {A B} (m : M St Ev A) (k : A -> M St Ev B) s :
  events (bind m k s)
  = events (m s)
    ++ match completion (m s) with
       | Normal a => events (k a (final (m s)))
       | _ => []
       end.
Proof.
  unfold bind, completion, final, events.
  destruct (m s) as [[[a| |] s1] t1]; simpl; [|by rewrite app_nil_r..].
  by destruct (k a s1) as [[c s2] t2].
Qed.

(** The shape shared by the two [onSubmit]: the [try] block, a [catch]
    that logs, a [finally] that writes a state cell. *)
Lemma try_log_finally_run (body : M St Ev unit) (e : Ev) (f : St -> St) s :
  function_body (try_catch_finally body (emit e) (modify f)) s
  = (Normal tt, f (final (body s)),
     events (body s)
     ++ match completion (body s) with ThrowC => [e] | _ => [] end).
Proof.
  unfold function_body, try_catch_finally, try_finally, try_catch, emit, modify,
    completion, final, events.
  destruct (body s) as [[[[]| |] s1] t1]; simpl; by rewrite ?app_nil_r.
Qed.
End MonadFacts.

(** ** Positions in a trace *)

Section Traces.
Context {Ev : Type}.
Implicit Types (kind : Ev -> bool) (tr : list Ev).

(** In a trace [G ++ F :: R] whose prefix [G] has no event of a kind, and
    where [F] is not of that kind either, every event of the kind comes
    after [F]. *)
Lemma after_first kind (G R pre post : list Ev) (F e : Ev) :
  G ++ F :: R = pre ++ e :: post ->
  Forall (fun x => kind x = false) G ->
  kind F = false ->
  kind e = true ->
  F ∈ pre.
Proof.
  intros Heq HG HF He. revert pre Heq.
  induction HG as [|g G Hg _ IH]; intros [|x pre] Heq; simpl in Heq;
    injection Heq as -> Heq.
  - congruence.
  - apply list_elem_of_here.
  - congruence.
  - apply list_elem_of_further. by apply IH.
Qed.

(** A projection that ignores a kind of events finds nothing in a trace
    of that kind. *)
Lemma omap_other_kind {B} kind (f : Ev -> option B) tr :
  (forall x, kind x = true -> f x = None) ->
  Forall (fun x => kind x = true) tr ->
  omap f tr = [].
Proof.
  intros Hf. induction 1 as [|x tr Hx _ IH]; [done|].
  simpl. by rewrite (Hf x Hx).
Qed.

(** A trace without event of a kind cannot be split at one. *)
Lemma no_split_at kind tr (pre post : list Ev) (e : Ev) :
  Forall (fun x => kind x = false) tr ->
  tr = pre ++ e :: post ->
  kind e = true ->
  False.
Proof.
  intros Hall -> He. apply Forall_app in Hall as [_ Hall].
  apply Forall_cons in Hall as [Hall _]. congruence.
Qed.
End Traces.

(** ** The project form: what each block of [onSubmit] does *)

Section ProjectSubmit.
Import ProjectForm.
Variable api : ApiService.
Variable mode : Mode.
Variable id : option string.

(** The featured-cap block, case by case; the two tests on [mode] cover
    both modes. *)
Lemma checkFeaturedCap_run (data : ProjectFormData) (st : State) :
  checkFeaturedCap api mode data st
  = if featured data then
      match getFeaturedCounts api with
      | Some counts =>
          if (3 <=? projects counts)%Z
          then (ReturnC, setLoading false st,
                [EGetFeaturedCounts; EToastError featuredCapMessage])
          else (Normal tt, st, [EGetFeaturedCounts])
      | None => (Normal tt, st, [EGetFeaturedCounts])
      end
    else (Normal tt, st, []).
Proof.
  unfold checkFeaturedCap. destruct (featured data); [|done].
  unfold try_catch, mbind, M_bind, bind, call.
  destruct (getFeaturedCounts api) as [counts|]; [|done].
  destruct (3 <=? projects counts)%Z; destruct mode; reflexivity.
Qed.

Lemma uploadFiles_run (projectName : string) (st : State) :
  exists c ups,
    uploadFiles api projectName st = (c, st, ECreateProjectFolders projectName :: ups)
    /\ c <> ReturnC
    /\ Forall (fun e => is_upload e = true) ups
    /\ (createProjectFolders api projectName = None -> c = ThrowC /\ ups = []).
Proof.
  unfold uploadFiles, mbind, M_bind, bind, call, get, mret, M_ret, ret.
  destruct (createProjectFolders api projectName) as [[]|]; simpl;
    [|by eexists _, _].
  destruct (logoFile st) as [logo|]; simpl;
    [destruct (uploadFile api logo _ _); simpl; [|by eexists _, _; repeat split; repeat constructor]|];
  (destruct (heroImageFile st) as [hero|]; simpl;
    [destruct (uploadFile api hero _ _); simpl; [|by eexists _, _; repeat split; repeat constructor]|]);
  (destruct (projectImageFiles st) as [|f fs]; simpl;
    [|destruct (uploadMultipleFiles api _ _ _); simpl]);
  by eexists _, _; repeat split; repeat constructor.
Qed.

Lemma createOrUpdate_run (data : ProjectFormData) (uploads : Uploads) (st : State) :
  exists c calls,
    createOrUpdate api mode id (projectData data uploads) st = (c, st, calls)
    /\ c <> ReturnC
    /\ SaveTail api mode id data
         (if c is Normal _ then Normal tt else ThrowC)
         (calls ++ if c is Normal _ then [ENavigate "/projects"] else []).
Proof.
  unfold createOrUpdate, mbind, M_bind, bind, call, emit, mret, M_ret, ret.
  destruct mode eqn:Hmode.
  - destruct (createProject api _) as [[]|] eqn:Hc; eexists _, _;
      (split; [reflexivity|]); (split; [done|]); simpl; by econstructor.
  - destruct id as [i|] eqn:Hid; [destruct (truthy i) eqn:Hi|].
    + destruct (updateProject api i _) as [[]|] eqn:Hc; eexists _, _;
        (split; [reflexivity|]); (split; [done|]); simpl; by econstructor.
    + eexists _, _. split; [reflexivity|]. split; [done|]. by apply no_identity.
    + eexists _, _. split; [reflexivity|]. split; [done|]. by apply no_identity.
Qed.

(** The trace of the save block: the folder creation, the uploads, then
    the end of the submission. *)
Lemma saveProject_run (data : ProjectFormData) (st : State) :
  exists c ups tail,
    saveProject api mode id data st
    = (c, st, ECreateProjectFolders (name data) :: ups ++ tail)
    /\ Forall (fun e => is_upload e = true) ups
    /\ (createProjectFolders api (name data) = None -> ups = [])
    /\ SaveTail api mode id data c tail.
Proof.
  destruct (uploadFiles_run (name data) st) as (cu & ups & Hu & Hret & Hups & Hfail).
  unfold saveProject, mbind, M_bind. unfold bind at 1. rewrite Hu.
  destruct cu as [uploads| |]; [|done|].
  - destruct (createOrUpdate_run data uploads st) as (c & calls & Hc & Hcret & Htail).
    unfold bind, emit. rewrite Hc.
    assert (Hups' : createProjectFolders api (name data) = None -> ups = [])
      by (intros Hnone; by apply Hfail).
    destruct c as [[]| |]; [|done|].
    + by exists (Normal tt), ups, (calls ++ [ENavigate "/projects"]).
    + exists ThrowC, ups, calls. rewrite app_nil_r in Htail. done.
  - exists ThrowC, ups, []. rewrite app_nil_r. repeat split; try done.
    + intros Hnone. by apply Hfail.
    + constructor.
Qed.

Lemma SaveTail_no_upload (data : ProjectFormData) c tail :
  SaveTail api mode id data c tail ->
  Forall (fun e => is_upload e = false) tail
  /\ Forall (fun e => is_folder_creation e = false) tail.
Proof. destruct 1; split; repeat constructor. Qed.

(** The [try] block when the cap stops the submission. *)
Lemma onSubmit_try_stopped (data : ProjectFormData) (st : State) :
  cap_reached api data = true ->
  onSubmit_try api mode id data st
  = (ReturnC, setLoading false (setLoading true st),
     [EGetFeaturedCounts; EToastError featuredCapMessage]).
Proof.
  unfold cap_reached, onSubmit_try, mbind, M_bind. intros Hcap.
  unfold bind, modify. rewrite checkFeaturedCap_run.
  destruct (featured data); [|done].
  destruct (getFeaturedCounts api) as [counts|]; [|done].
  simpl in Hcap. by rewrite Hcap.
Qed.

(** The [try] block when it does not: the save block runs, after the
    count query of a featured draft. *)
Lemma onSubmit_try_proceeds (data : ProjectFormData) (st : State) :
  cap_reached api data = false ->
  onSubmit_try api mode id data st
  = (completion (saveProject api mode id data (setLoading true st)),
     final (saveProject api mode id data (setLoading true st)),
     (if featured data then [EGetFeaturedCounts] else [])
     ++ events (saveProject api mode id data (setLoading true st))).
Proof.
  unfold cap_reached, onSubmit_try, mbind, M_bind. intros Hcap.
  unfold bind, modify. rewrite checkFeaturedCap_run.
  destruct (saveProject api mode id data (setLoading true st)) as [[c s] t] eqn:Hsave.
  destruct (featured data); [|by rewrite Hsave].
  destruct (getFeaturedCounts api) as [counts|]; [|by rewrite Hsave].
  simpl in Hcap. rewrite Hcap. by rewrite Hsave.
Qed.

Lemma onSubmit_run (data : ProjectFormData) (st : State) :
  onSubmit api mode id data st
  = (Normal tt,
     setLoading false (final (onSubmit_try api mode id data st)),
     events (onSubmit_try api mode id data st)
     ++ match completion (onSubmit_try api mode id data st) with
        | ThrowC => [EConsoleError "Failed to save project:"]
        | _ => []
        end).
Proof. apply try_log_finally_run. Qed.

Lemma onSubmit_unchecked_run (data : ProjectFormData) (st : State) :
  onSubmit_unchecked api mode id data st
  = (Normal tt,
     setLoading false (final (saveProject api mode id data (setLoading true st))),
     events (saveProject api mode id data (setLoading true st))
     ++ match completion (saveProject api mode id data (setLoading true st)) with
        | ThrowC => [EConsoleError "Failed to save project:"]
        | _ => []
        end).
Proof.
  unfold onSubmit_unchecked. rewrite try_log_finally_run.
  unfold mbind, M_bind, bind, modify, completion, final, events.
  by destruct (saveProject api mode id data (setLoading true st)) as [[[[]| |] s] t].
Qed.

(** A submission that the cap does not stop is the unchecked submission,
    after the count query of a featured draft. *)
Lemma onSubmit_proceeds (data : ProjectFormData) (st : State) :
  cap_reached api data = false ->
  onSubmit api mode id data st
  = (Normal tt, final (onSubmit_unchecked api mode id data st),
     (if featured data then [EGetFeaturedCounts] else [])
     ++ events (onSubmit_unchecked api mode id data st)).
Proof.
  intros Hcap. rewrite onSubmit_run, onSubmit_unchecked_run, onSubmit_try_proceeds by done.
  unfold completion, final, events. simpl. by rewrite app_assoc.
Qed.

(** The whole trace of a submission that the cap does not stop. *)
Lemma onSubmit_shape (data : ProjectFormData) (st : State) :
  cap_reached api data = false ->
  exists c ups tail,
    completion (onSubmit_try api mode id data st) = c
    /\ events (onSubmit api mode id data st)
       = (if featured data then [EGetFeaturedCounts] else [])
         ++ ECreateProjectFolders (name data)
         :: ups ++ tail
         ++ (if c is ThrowC then [EConsoleError "Failed to save project:"] else [])
    /\ Forall (fun e => is_upload e = true) ups
    /\ (createProjectFolders api (name data) = None -> ups = [])
    /\ SaveTail api mode id data c tail.
Proof.
  intros Hcap.
  destruct (saveProject_run data (setLoading true st))
    as (c & ups & tail & Hsave & Hups & Hfail & Htail).
  exists c, ups, tail. rewrite onSubmit_run, onSubmit_try_proceeds, Hsave by done.
  unfold completion, final, events. simpl.
  repeat split; try done.
  rewrite <- app_assoc. simpl. by rewrite <- app_assoc.
Qed.
End ProjectSubmit.

(** ** The video form: what each block of [onSubmit] does *)

Section VideoSubmit.
Import VideoForm.
Variable api : ApiService.
Variable mode : Mode.
Variable id : option string.

(** The featured-cap block, case by case; the two tests on [mode] cover
    both modes. *)
Lemma video_checkFeaturedCap_run (data : VideoFormData) (st : State) :
  checkFeaturedCap api mode data st
  = if featured data then
      match getFeaturedCounts api with
      | Some counts =>
          if (3 <=? videos counts)%Z
          then (ReturnC, setLoading false st,
                [EGetFeaturedCounts; EToastError featuredCapMessage])
          else (Normal tt, st, [EGetFeaturedCounts])
      | None => (Normal tt, st, [EGetFeaturedCounts])
      end
    else (Normal tt, st, []).
Proof.
  unfold checkFeaturedCap. destruct (featured data); [|done].
  unfold try_catch, mbind, M_bind, bind, call.
  destruct (getFeaturedCounts api) as [counts|]; [|done].
  destruct (3 <=? videos counts)%Z; destruct mode; reflexivity.
Qed.

Lemma video_createOrUpdate_run (data : VideoFormData) (thumbnailUrl : option string)
    (st : State) :
  exists c calls,
    createOrUpdate api mode id (videoData data thumbnailUrl) st = (c, st, calls)
    /\ c <> ReturnC
    /\ SaveTail api mode id data
         (if c is Normal _ then Normal tt else ThrowC)
         (calls ++ if c is Normal _ then [ENavigate "/videos"] else []).
Proof.
  unfold createOrUpdate, mbind, M_bind, bind, call, emit, mret, M_ret, ret.
  destruct mode eqn:Hmode.
  - destruct (createVideo api _) as [[]|] eqn:Hc; eexists _, _;
      (split; [reflexivity|]); (split; [done|]); simpl; by econstructor.
  - destruct id as [i|] eqn:Hid; [destruct (truthy i) eqn:Hi|].
    + destruct (updateVideo api i _) as [[]|] eqn:Hc; eexists _, _;
        (split; [reflexivity|]); (split; [done|]); simpl; by econstructor.
    + eexists _, _. split; [reflexivity|]. split; [done|]. by apply no_identity.
    + eexists _, _. split; [reflexivity|]. split; [done|]. by apply no_identity.
Qed.

Lemma uploadThumbnail_run (data : VideoFormData) (p : Project.t) (st : State) :
  selectedProject data st = Some p ->
  exists c calls,
    uploadThumbnail api (Project.name p) (playbackId data) st = (c, st, calls)
    /\ c <> ReturnC
    /\ ThumbnailCalls api data st calls.
Proof.
  intros Hp.
  unfold uploadThumbnail, mbind, M_bind, bind, call, get, mret, M_ret, ret.
  destruct (thumbnailFile st) as [file|]; simpl.
  - destruct (createVideoFolder api _ _) as [[]|] eqn:Hfolder; simpl.
    + destruct (uploadVideoThumbnail api file _ _); simpl; eexists _, _;
        (split; [reflexivity|]); (split; [done|]); by eapply folder_then_upload.
    + eexists _, _. split; [reflexivity|]. split; [done|]. by eapply folder_failed.
  - eexists _, _. split; [reflexivity|]. split; [done|]. constructor.
Qed.

(** The trace of the save block: the calls for the thumbnail, then the
    end of the submission. *)
Lemma saveVideo_run (data : VideoFormData) (st : State) :
  exists c ups tail,
    saveVideo api mode id data st = (c, st, ups ++ tail)
    /\ ThumbnailCalls api data st ups
    /\ SaveTail api mode id data c tail.
Proof.
  unfold saveVideo, findSelectedProject, mbind, M_bind.
  unfold bind at 1 2. unfold get. simpl.
  destruct (find _ (projects st)) as [p|] eqn:Hp.
  - destruct (uploadThumbnail_run data p st Hp) as (cu & ups & Hu & Hret & Hups).
    unfold mret, M_ret, ret. simpl. unfold bind at 1. rewrite Hu.
    destruct cu as [thumbnailUrl| |]; [|done|].
    + destruct (video_createOrUpdate_run data thumbnailUrl st)
        as (c & calls & Hc & Hcret & Htail).
      unfold bind, emit. rewrite Hc.
      destruct c as [[]| |]; [|done|].
      * by exists (Normal tt), ups, (calls ++ [ENavigate "/videos"]).
      * exists ThrowC, ups, calls. rewrite app_nil_r in Htail. done.
    + exists ThrowC, ups, []. rewrite app_nil_r. repeat split; try done. constructor.
  - exists ThrowC, [], []. repeat split; constructor.
Qed.

Lemma video_SaveTail_no_upload (data : VideoFormData) c tail :
  SaveTail api mode id data c tail ->
  Forall (fun e => is_upload e = false) tail.
Proof. destruct 1; repeat constructor. Qed.

(** The [try] block when the cap stops the submission. *)
Lemma video_onSubmit_try_stopped (data : VideoFormData) (st : State) :
  cap_reached api data = true ->
  onSubmit_try api mode id data st
  = (ReturnC, setLoading false (setLoading true st),
     [EGetFeaturedCounts; EToastError featuredCapMessage]).
Proof.
  unfold cap_reached, onSubmit_try, mbind, M_bind. intros Hcap.
  unfold bind, modify. rewrite video_checkFeaturedCap_run.
  destruct (featured data); [|done].
  destruct (getFeaturedCounts api) as [counts|]; [|done].
  simpl in Hcap. by rewrite Hcap.
Qed.

(** The [try] block when it does not: the save block runs, after the
    count query of a featured draft. *)
Lemma video_onSubmit_try_proceeds (data : VideoFormData) (st : State) :
  cap_reached api data = false ->
  onSubmit_try api mode id data st
  = (completion (saveVideo api mode id data (setLoading true st)),
     final (saveVideo api mode id data (setLoading true st)),
     (if featured data then [EGetFeaturedCounts] else [])
     ++ events (saveVideo api mode id data (setLoading true st))).
Proof.
  unfold cap_reached, onSubmit_try, mbind, M_bind. intros Hcap.
  unfold bind, modify. rewrite video_checkFeaturedCap_run.
  destruct (saveVideo api mode id data (setLoading true st)) as [[c s] t] eqn:Hsave.
  destruct (featured data); [|by rewrite Hsave].
  destruct (getFeaturedCounts api) as [counts|]; [|by rewrite Hsave].
  simpl in Hcap. rewrite Hcap. by rewrite Hsave.
Qed.

Lemma video_onSubmit_run (data : VideoFormData) (st : State) :
  onSubmit api mode id data st
  = (Normal tt,
     setLoading false (final (onSubmit_try api mode id data st)),
     events (onSubmit_try api mode id data st)
     ++ match completion (onSubmit_try api mode id data st) with
        | ThrowC => [EConsoleError "Failed to save video:"]
        | _ => []
        end).
Proof. apply try_log_finally_run. Qed.

Lemma video_onSubmit_unchecked_run (data : VideoFormData) (st : State) :
  onSubmit_unchecked api mode id data st
  = (Normal tt,
     setLoading false (final (saveVideo api mode id data (setLoading true st))),
     events (saveVideo api mode id data (setLoading true st))
     ++ match completion (saveVideo api mode id data (setLoading true st)) with
        | ThrowC => [EConsoleError "Failed to save video:"]
        | _ => []
        end).
Proof.
  unfold onSubmit_unchecked. rewrite try_log_finally_run.
  unfold mbind, M_bind, bind, modify, completion, final, events.
  by destruct (saveVideo api mode id data (setLoading true st)) as [[[[]| |] s] t].
Qed.

(** A submission that the cap does not stop is the unchecked submission,
    after the count query of a featured draft. *)
Lemma video_onSubmit_proceeds (data : VideoFormData) (st : State) :
  cap_reached api data = false ->
  onSubmit api mode id data st
  = (Normal tt, final (onSubmit_unchecked api mode id data st),
     (if featured data then [EGetFeaturedCounts] else [])
     ++ events (onSubmit_unchecked api mode id data st)).
Proof.
  intros Hcap.
  rewrite video_onSubmit_run, video_onSubmit_unchecked_run,
    video_onSubmit_try_proceeds by done.
  unfold completion, final, events. simpl. by rewrite app_assoc.
Qed.

(** The whole trace of a submission that the cap does not stop. *)
Lemma video_onSubmit_shape (data : VideoFormData) (st : State) :
  cap_reached api data = false ->
  exists c ups tail,
    completion (onSubmit_try api mode id data st) = c
    /\ events (onSubmit api mode id data st)
       = (if featured data then [EGetFeaturedCounts] else [])
         ++ ups ++ tail
         ++ (if c is ThrowC then [EConsoleError "Failed to save video:"] else [])
    /\ ThumbnailCalls api data (setLoading true st) ups
    /\ SaveTail api mode id data c tail.
Proof.
  intros Hcap.
  destruct (saveVideo_run data (setLoading true st))
    as (c & ups & tail & Hsave & Hups & Htail).
  exists c, ups, tail.
  rewrite video_onSubmit_run, video_onSubmit_try_proceeds, Hsave by done.
  unfold completion, final, events. simpl.
  repeat split; try done.
  by rewrite <- !app_assoc.
Qed.
End VideoSubmit.

(** ** The calls of a submission *)

Section ProjectFormCalls.
Import ProjectForm.
Variable api : ApiService.
Variable mode : Mode.
Variable id : option string.

(** The create, update and navigation calls found in the trace of
    [onSubmit], against the completion of its [try] block. *)
Lemma onSubmit_calls (data : ProjectFormData) (st : State) :
  let tr := events (onSubmit api mode id data st) in
  let c := completion (onSubmit_try api mode id data st) in
  navigations tr = (if c is Normal _ then ["/projects"] else [])
  /\ match mode with
     | create =>
         update_calls tr = []
         /\ (create_calls tr = [] \/ exists u, create_calls tr = [projectData data u])
         /\ (c = Normal tt -> exists u, create_calls tr = [projectData data u])
     | edit =>
         create_calls tr = []
         /\ match id with
            | Some i =>
                if truthy i then
                  (update_calls tr = []
                   \/ exists u, update_calls tr = [(i, projectData data u)])
                  /\ (c = Normal tt ->
                      exists u, update_calls tr = [(i, projectData data u)])
                else update_calls tr = []
            | None => update_calls tr = []
            end
     end.
Proof.
  intros tr c. subst tr c.
  destruct (cap_reached api data) eqn:Hcap.
  - rewrite onSubmit_run, onSubmit_try_stopped by done.
    unfold completion, events. simpl.
    split; [done|]. destruct mode; [repeat split; eauto; discriminate|].
    split; [done|]. destruct id as [i|]; [|done].
    destruct (truthy i); repeat split; eauto; discriminate.
  - destruct (onSubmit_shape api mode id data st Hcap)
      as (c & ups & tail & Hc & Hev & Hups & _ & Htail).
    rewrite Hev, Hc. clear Hev Hc.
    unfold navigations, create_calls, update_calls.
    rewrite !omap_app. simpl. rewrite !omap_app.
    rewrite !(omap_other_kind is_upload _ ups) by (done || by intros []).
    destruct (featured data); simpl;
      destruct Htail as [|u Hm Hcall|u Hm Hcall|i u Hm Hid Hi Hcall
                         |i u Hm Hid Hi Hcall|Hm Hid];
      subst; simpl; (split; [done|]).
    all: try rewrite Hi.
    all: try (destruct mode; [|destruct id as [i|]; [destruct (truthy i)|]]).
    all: try (destruct id as [i|]; simpl in Hid; [rewrite Hid|]).
    all: repeat split; eauto; discriminate.
Qed.
(** The calls issued once the uploads have completed: the one the mode
    asks for, with the payload built from the uploads. *)
(** The create and update calls of the last block of a submission. *)
Lemma createOrUpdate_calls (payload : ProjectData) (st : State) :
  create_calls (events (bind (createOrUpdate api mode id payload)
                          (fun _ => emit (ENavigate "/projects")) st))
  = (if is_create mode then [payload] else [])
  /\ update_calls (events (bind (createOrUpdate api mode id payload)
                             (fun _ => emit (ENavigate "/projects")) st))
     = match mode, id with
       | edit, Some i => if truthy i then [(i, payload)] else []
       | _, _ => []
       end.
Proof.
  unfold createOrUpdate, mbind, M_bind, bind, call, emit, mret, M_ret, ret.
  destruct mode; simpl.
  - by destruct (createProject api payload) as [[]|].
  - destruct id as [i|]; [destruct (truthy i)|]; simpl; try done.
    by destruct (updateProject api i payload) as [[]|].
Qed.

Lemma onSubmit_reaches_call (data : ProjectFormData) (st : State) (u : Uploads) :
  cap_reached api data = false ->
  completion (uploadFiles api (name data) (setLoading true st)) = Normal u ->
  create_calls (events (onSubmit api mode id data st))
  = (if is_create mode then [projectData data u] else [])
  /\ update_calls (events (onSubmit api mode id data st))
     = match mode, id with
       | edit, Some i => if truthy i then [(i, projectData data u)] else []
       | _, _ => []
       end.
Proof.
  intros Hcap Hu.
  rewrite onSubmit_run, onSubmit_try_proceeds by done.
  destruct (uploadFiles_run api (name data) (setLoading true st))
    as (cu & ups & Hrun & _ & Hups & _).
  rewrite Hrun in Hu. unfold completion in Hu. simpl in Hu. subst cu.
  unfold saveProject, mbind, M_bind. unfold events at 1 3. simpl.
  rewrite bind_events, Hrun. unfold events at 1 4, completion at 2 5, final. simpl.
  unfold create_calls, update_calls. rewrite !omap_app. simpl. rewrite !omap_app.
  rewrite !(omap_other_kind is_upload _ ups) by (done || by intros []).
  destruct (featured data); simpl.
  all: rewrite (proj1 (createOrUpdate_calls _ _)), (proj2 (createOrUpdate_calls _ _)).
  all: by destruct (completion _); rewrite !app_nil_r.
Qed.
End ProjectFormCalls.

Section VideoFormCalls.
Import VideoForm.
Variable api : ApiService.
Variable mode : Mode.
Variable id : option string.

(** The create, update and navigation calls found in the trace of
    [onSubmit], against the completion of its [try] block. *)
Lemma video_onSubmit_calls (data : VideoFormData) (st : State) :
  let tr := events (onSubmit api mode id data st) in
  let c := completion (onSubmit_try api mode id data st) in
  navigations tr = (if c is Normal _ then ["/videos"] else [])
  /\ match mode with
     | create =>
         update_calls tr = []
         /\ (create_calls tr = [] \/ exists u, create_calls tr = [videoData data u])
         /\ (c = Normal tt -> exists u, create_calls tr = [videoData data u])
     | edit =>
         create_calls tr = []
         /\ match id with
            | Some i =>
                if truthy i then
                  (update_calls tr = []
                   \/ exists u, update_calls tr = [(i, videoData data u)])
                  /\ (c = Normal tt ->
                      exists u, update_calls tr = [(i, videoData data u)])
                else update_calls tr = []
            | None => update_calls tr = []
            end
     end.
Proof.
  intros tr c. subst tr c.
  destruct (cap_reached api data) eqn:Hcap.
  - rewrite video_onSubmit_run, video_onSubmit_try_stopped by done.
    unfold completion, events. simpl.
    split; [done|]. destruct mode; [repeat split; eauto; discriminate|].
    split; [done|]. destruct id as [i|]; [|done].
    destruct (truthy i); repeat split; eauto; discriminate.
  - destruct (video_onSubmit_shape api mode id data st Hcap)
      as (c & ups & tail & Hc & Hev & Hups & Htail).
    rewrite Hev, Hc. clear Hev Hc.
    unfold navigations, create_calls, update_calls.
    rewrite !omap_app.
    destruct Hups as [| p Hp Hfolder | p file Hp Hfolder]; simpl.
    all: destruct (featured data); simpl;
      destruct Htail as [|u Hm Hcall|u Hm Hcall|i u Hm Hid Hi Hcall
                         |i u Hm Hid Hi Hcall|Hm Hid];
      subst; simpl; (split; [done|]).
    all: try rewrite Hi.
    all: try (destruct mode; [|destruct id as [i|]; [destruct (truthy i)|]]).
    all: try (destruct id as [i|]; simpl in Hid; [rewrite Hid|]).
    all: repeat split; eauto; discriminate.
Qed.
(** The save block once the project is found and the thumbnail dealt with. *)
Lemma saveVideo_reaches (data : VideoFormData) (st : State) (p : Project.t)
    (u : option string) (ups : list Event) :
  selectedProject data st = Some p ->
  uploadThumbnail api (Project.name p) (playbackId data) st = (Normal u, st, ups) ->
  saveVideo api mode id data st
  = (completion (bind (createOrUpdate api mode id (videoData data u))
                   (fun _ => emit (ENavigate "/videos")) st),
     final (bind (createOrUpdate api mode id (videoData data u))
              (fun _ => emit (ENavigate "/videos")) st),
     ups ++ events (bind (createOrUpdate api mode id (videoData data u))
                      (fun _ => emit (ENavigate "/videos")) st)).
Proof.
  intros Hp Hrun.
  unfold saveVideo, findSelectedProject, mbind, M_bind.
  unfold bind at 1 2. unfold get. simpl.
  unfold selectedProject in Hp. rewrite Hp.
  unfold mret, M_ret, ret. simpl. unfold bind at 1. rewrite Hrun.
  by destruct (bind _ _ st) as [[c s] t].
Qed.

(** The calls issued once the project is found and the thumbnail dealt
    with: the one the mode asks for, with the payload built from the
    thumbnail URL. *)
(** The create and update calls of the last block of a submission. *)
Lemma video_createOrUpdate_calls (payload : VideoFormData) (st : State) :
  create_calls (events (bind (createOrUpdate api mode id payload)
                          (fun _ => emit (ENavigate "/videos")) st))
  = (if is_create mode then [payload] else [])
  /\ update_calls (events (bind (createOrUpdate api mode id payload)
                             (fun _ => emit (ENavigate "/videos")) st))
     = match mode, id with
       | edit, Some i => if truthy i then [(i, payload)] else []
       | _, _ => []
       end.
Proof.
  unfold createOrUpdate, mbind, M_bind, bind, call, emit, mret, M_ret, ret.
  destruct mode; simpl.
  - by destruct (createVideo api payload) as [[]|].
  - destruct id as [i|]; [destruct (truthy i)|]; simpl; try done.
    by destruct (updateVideo api i payload) as [[]|].
Qed.

Lemma video_onSubmit_reaches_call (data : VideoFormData) (st : State)
    (p : Project.t) (u : option string) :
  cap_reached api data = false ->
  selectedProject data st = Some p ->
  completion (uploadThumbnail api (Project.name p) (playbackId data)
                (setLoading true st)) = Normal u ->
  create_calls (events (onSubmit api mode id data st))
  = (if is_create mode then [videoData data u] else [])
  /\ update_calls (events (onSubmit api mode id data st))
     = match mode, id with
       | edit, Some i => if truthy i then [(i, videoData data u)] else []
       | _, _ => []
       end.
Proof.
  intros Hcap Hp Hu.
  rewrite video_onSubmit_run, video_onSubmit_try_proceeds by done.
  assert (Hp' : selectedProject data (setLoading true st) = Some p) by exact Hp.
  destruct (uploadThumbnail_run api data p (setLoading true st) Hp')
    as (cu & ups & Hrun & _ & Hups).
  rewrite Hrun in Hu. unfold completion in Hu. simpl in Hu. subst cu.
  rewrite (saveVideo_reaches data _ p u ups Hp' Hrun).
  unfold events at 1 3, completion at 1 3. simpl.
  unfold create_calls, update_calls. rewrite !omap_app.
  assert (Hnone : omap (fun e => match e with
                                 | ECreateVideo payload => Some payload
                                 | _ => None
                                 end) ups = []
                  /\ omap (fun e => match e with
                                    | EUpdateVideo i payload => Some (i, payload)
                                    | _ => None
                                    end) ups = [])
    by (by destruct Hups).
  destruct Hnone as [-> ->].
  destruct (featured data); simpl.
  all: rewrite (proj1 (video_createOrUpdate_calls _ _)),
         (proj2 (video_createOrUpdate_calls _ _)).
  all: by destruct (completion _); rewrite !app_nil_r.
Qed.
End VideoFormCalls.

(** ** Submitting *)

(** C8: whatever happens in a submission (success, rejection by the cap,
    an error thrown at any step), [onSubmit] completes normally and leaves the
    loading flag false, so the submit button is enabled again; this holds for
    the project form and for the video form. *)
Theorem C8_loading_cleared :
  (forall api mode id data st,
     completion (ProjectForm.onSubmit api mode id data st) = Normal tt
     /\ ProjectForm.loading (final (ProjectForm.onSubmit api mode id data st)) = false
     /\ ProjectForm.submitDisabled (final (ProjectForm.onSubmit api mode id data st))
        = false)
  /\ (forall api mode id data st,
        completion (VideoForm.onSubmit api mode id data st) = Normal tt
        /\ VideoForm.loading (final (VideoForm.onSubmit api mode id data st)) = false
        /\ VideoForm.submitDisabled (final (VideoForm.onSubmit api mode id data st))
           = false).
Proof.
  split; intros api mode id data st.
  - by rewrite onSubmit_run.
  - by rewrite video_onSubmit_run.
Qed.

(** C5: in every submission, an upload call comes after the folder creation
    call, and the folder creation has succeeded: [createProjectFolders]
    before the logo, hero image and gallery uploads of the project form,
    [createVideoFolder] before the thumbnail upload of the video form. *)
Theorem C5_folder_before_upload :
  (forall api mode id data st pre e post,
     events (ProjectForm.onSubmit api mode id data st) = pre ++ e :: post ->
     ProjectForm.is_upload e = true ->
     ProjectForm.ECreateProjectFolders (ProjectForm.name data) ∈ pre
     /\ ProjectForm.createProjectFolders api (ProjectForm.name data) = Some tt)
  /\ (forall api mode id data st pre e post,
        events (VideoForm.onSubmit api mode id data st) = pre ++ e :: post ->
        VideoForm.is_upload e = true ->
        exists p,
          VideoForm.selectedProject data st = Some p
          /\ VideoForm.ECreateVideoFolder (Project.name p) (VideoForm.playbackId data) ∈ pre
          /\ VideoForm.createVideoFolder api (Project.name p) (VideoForm.playbackId data)
             = Some tt).
Proof.
  split; intros api mode id data st pre e post Hsplit He.
  - destruct (ProjectForm.cap_reached api data) eqn:Hcap.
    + rewrite onSubmit_run, onSubmit_try_stopped in Hsplit by done.
      exfalso. eapply (no_split_at ProjectForm.is_upload); [|exact Hsplit|exact He].
      repeat constructor.
    + destruct (onSubmit_shape api mode id data st Hcap)
        as (c & ups & tail & _ & Hev & Hups & Hfail & Htail).
      rewrite Hev in Hsplit.
      assert (HG : Forall (fun x => ProjectForm.is_upload x = false)
                     (if ProjectForm.featured data
                      then [ProjectForm.EGetFeaturedCounts] else []))
        by (destruct (ProjectForm.featured data); repeat constructor).
      split.
      * by eapply (after_first ProjectForm.is_upload).
      * destruct (ProjectForm.createProjectFolders api (ProjectForm.name data))
          as [[]|]; [done|].
        rewrite (Hfail eq_refl) in Hsplit. exfalso.
        eapply (no_split_at ProjectForm.is_upload); [|exact Hsplit|exact He].
        apply Forall_app; split; [exact HG|].
        constructor; [done|]. simpl.
        apply Forall_app; split; [by apply SaveTail_no_upload in Htail as [? _]|].
        destruct c; repeat constructor.
  - destruct (VideoForm.cap_reached api data) eqn:Hcap.
    + rewrite video_onSubmit_run, video_onSubmit_try_stopped in Hsplit by done.
      exfalso. eapply (no_split_at VideoForm.is_upload); [|exact Hsplit|exact He].
      repeat constructor.
    + destruct (video_onSubmit_shape api mode id data st Hcap)
        as (c & ups & tail & _ & Hev & Hups & Htail).
      rewrite Hev in Hsplit.
      apply video_SaveTail_no_upload in Htail.
      assert (HG : Forall (fun x => VideoForm.is_upload x = false)
                     (if VideoForm.featured data
                      then [VideoForm.EGetFeaturedCounts] else []))
        by (destruct (VideoForm.featured data); repeat constructor).
      assert (Hrest : Forall (fun x => VideoForm.is_upload x = false)
                (tail ++ (if c is ThrowC
                          then [VideoForm.EConsoleError "Failed to save video:"]
                          else []))).
      { apply Forall_app; split; [exact Htail|]. destruct c; repeat constructor. }
      destruct Hups as [| p Hp Hfolder | p file Hp Hfolder].
      * exfalso. eapply (no_split_at VideoForm.is_upload); [|exact Hsplit|exact He].
        apply Forall_app; split; [exact HG | exact Hrest].
      * exfalso. eapply (no_split_at VideoForm.is_upload); [|exact Hsplit|exact He].
        apply Forall_app; split; [exact HG|]. by constructor.
      * exists p. split; [exact Hp|]. split; [|exact Hfolder].
        simpl in Hsplit. by eapply (after_first VideoForm.is_upload).
Qed.

(** ** The payload of the project form *)

Section Payload.
Import ProjectForm.



End Payload.


(** ** Runs of the model *)

(** A category removed and selected again moves to the end of the list. *)
Example toggle_twice_reorders :
  ProjectForm.selectedCategories
    (ProjectForm.toggleCategory "DeFi"
       (ProjectForm.toggleCategory "DeFi"
          (Samples.emptyForm
             (ProjectForm.with_categories ["DeFi"; "NFT"] Samples.scenarioDraft))))
  = ["NFT"; "DeFi"].
Proof. reflexivity. Qed.

(** A stale value that is no URL is turned down with its flag off. *)
Example stale_value_checked :
  ProjectForm.isHiring Samples.scenarioDraft = false
  /\ ProjectForm.projectSchema Samples.no_url
       (ProjectForm.with_careerPageUrl (Some "careers") Samples.scenarioDraft)
     = [{| ProjectForm.path := ["careerPageUrl"];
           ProjectForm.message := "Must be a valid URL" |}].
Proof. split; reflexivity. Qed.

(** When the logo upload fails, the error is logged, nothing is saved, the
    form stays on the page and is editable again. *)
Example upload_failure :
  ProjectForm.onSubmit Samples.brokenStorage create None Samples.scenarioDraft
    (Samples.projectState Samples.scenarioDraft)
  = (Normal tt, Samples.projectState Samples.scenarioDraft,
     [ProjectForm.ECreateProjectFolders "Foo";
      ProjectForm.EUploadFile (mkFile "logo.png") "logo" "Foo";
      ProjectForm.EConsoleError "Failed to save project:"]).
Proof. reflexivity. Qed.

(** In edit mode without [id], no call is made and the form navigates. *)
Example edit_without_identity :
  events (ProjectForm.onSubmit (Samples.projectApi None) edit None Samples.scenarioDraft
            (Samples.emptyForm Samples.scenarioDraft))
  = [ProjectForm.ECreateProjectFolders "Foo"; ProjectForm.ENavigate "/projects"].
Proof. reflexivity. Qed.

(** A video whose project is not in the list of published projects is not
    saved. *)
Example project_not_found :
  events (VideoForm.onSubmit (Samples.videoApi None) create None
            (VideoForm.videoData Samples.videoDraft None)
            (VideoForm.setLoading false
               {| VideoForm.loading := false; VideoForm.projects := [];
                  VideoForm.thumbnailFile := None; VideoForm.thumbnailPreview := "" |}))
  = [VideoForm.EGetFeaturedCounts; VideoForm.EConsoleError "Failed to save video:"].
Proof. reflexivity. Qed.

(** ** Concrete submissions *)

(** The logo upload of a project and the thumbnail upload of a video come
    after the creation of their folder. *)
Lemma C5_folder_before_upload_witness :
  (ProjectForm.ECreateProjectFolders "Foo"
     ∈ [ProjectForm.EGetFeaturedCounts; ProjectForm.ECreateProjectFolders "Foo"]
   /\ ProjectForm.createProjectFolders (Samples.projectApi None) "Foo" = Some tt)
  /\ exists p,
       VideoForm.selectedProject Samples.videoDraft Samples.videoState = Some p
       /\ VideoForm.ECreateVideoFolder (Project.name p) "aBcDeFgHiJkL01234567"
            ∈ [VideoForm.EGetFeaturedCounts;
               VideoForm.ECreateVideoFolder "Foo" "aBcDeFgHiJkL01234567"]
       /\ VideoForm.createVideoFolder (Samples.videoApi None) (Project.name p)
            "aBcDeFgHiJkL01234567" = Some tt.
Proof.
  split.
  - apply (proj1 C5_folder_before_upload (Samples.projectApi None) create None
             Samples.featuredDraft (Samples.projectState Samples.featuredDraft)
             [ProjectForm.EGetFeaturedCounts; ProjectForm.ECreateProjectFolders "Foo"]
             (ProjectForm.EUploadFile (mkFile "logo.png") "logo" "Foo")
             (drop 3 (events (ProjectForm.onSubmit (Samples.projectApi None) create None
                                Samples.featuredDraft
                                (Samples.projectState Samples.featuredDraft)))));
      reflexivity.
  - apply (proj2 C5_folder_before_upload (Samples.videoApi None) create None
             Samples.videoDraft Samples.videoState
             [VideoForm.EGetFeaturedCounts;
              VideoForm.ECreateVideoFolder "Foo" "aBcDeFgHiJkL01234567"]
             (VideoForm.EUploadVideoThumbnail (mkFile "thumb.png") "Foo"
                "aBcDeFgHiJkL01234567")
             (drop 3 (events (VideoForm.onSubmit (Samples.videoApi None) create None
                                Samples.videoDraft Samples.videoState))));
      reflexivity.
Defined.


(** ** The gallery of staged images *)

Section Gallery.
Import ProjectForm.

(** Filtering out one index is deleting at that position. *)
Lemma filter_index_from_delete {A : Type} (index k : nat) (l : list A) :
  filter_index_from (fun _ i => negb (i =? index)%nat) k l
  = if decide (k <= index)%nat then delete (index - k)%nat l else l.
Proof.
  revert k. induction l as [|x l IH]; intros k; simpl.
  - by case_decide.
  - rewrite IH. destruct (Nat.eqb_spec k index) as [->|Hne]; simpl.
    + rewrite Nat.sub_diag. repeat case_decide; try lia. done.
    + repeat case_decide; try lia; [|done].
      replace (index - k)%nat with (S (index - S k)) by lia. done.
Qed.

Lemma filter_index_delete {A : Type} (index : nat) (l : list A) :
  filter_index (fun _ i => negb (i =? index)%nat) l = delete index l.
Proof.
  unfold filter_index. rewrite filter_index_from_delete.
  case_decide; [|lia]. by rewrite Nat.sub_0_r.
Qed.

Lemma removeProjectImage_lists (index : nat) (st : State) :
  projectImageFiles (removeProjectImage index st) = delete index (projectImageFiles st)
  /\ projectImagePreviews (removeProjectImage index st)
     = delete index (projectImagePreviews st).
Proof. unfold removeProjectImage. simpl. by rewrite !filter_index_delete. Qed.

Lemma lookup_delete_shift {A : Type} (index j : nat) (l : list A) :
  delete index l !! j = l !! (if (j <? index)%nat then j else S j).
Proof.
  destruct (Nat.ltb_spec j index).
  - by apply list_lookup_delete_lt.
  - by apply list_lookup_delete_ge.
Qed.

Lemma delete_beyond {A : Type} (index : nat) (l : list A) :
  (length l <= index)%nat -> delete index l = l.
Proof.
  intros Hge. rewrite delete_take_drop, take_ge, drop_ge by lia. apply app_nil_r.
Qed.

(** X1: [removeProjectImage(index)] takes the entry at position [index]
    out of the staged files and out of the previews and keeps the other
    entries in their order; a list that has no entry at [index] is left as
    it is. *)
Theorem X1_removeProjectImage_position (index : nat) (st : State) :
  (forall j,
     projectImageFiles (removeProjectImage index st) !! j
     = projectImageFiles st !! (if (j <? index)%nat then j else S j))
  /\ (forall j,
        projectImagePreviews (removeProjectImage index st) !! j
        = projectImagePreviews st !! (if (j <? index)%nat then j else S j))
  /\ length (projectImageFiles (removeProjectImage index st))
     = (if (index <? length (projectImageFiles st))%nat
        then length (projectImageFiles st) - 1
        else length (projectImageFiles st))%nat
  /\ length (projectImagePreviews (removeProjectImage index st))
     = (if (index <? length (projectImagePreviews st))%nat
        then length (projectImagePreviews st) - 1
        else length (projectImagePreviews st))%nat.
Proof.
  destruct (removeProjectImage_lists index st) as [-> ->].
  repeat split; intros; try apply lookup_delete_shift.
  - destruct (Nat.ltb_spec index (length (projectImageFiles st))) as [Hlt|Hge].
    + apply lookup_lt_is_Some in Hlt. by apply length_delete.
    + by rewrite delete_beyond.
  - destruct (Nat.ltb_spec index (length (projectImagePreviews st))) as [Hlt|Hge].
    + apply lookup_lt_is_Some in Hlt. by apply length_delete.
    + by rewrite delete_beyond.
Qed.
(** The gallery after the reads of a batch have completed in the order of
    the files. *)
Lemma gallery_after_reads (dataUrl : File -> string) (fileArray : list File) (st : State) :
  projectImageFiles
    (fold_left (fun s f => projectImage_onload (dataUrl f) s) fileArray st)
  = projectImageFiles st
  /\ projectImagePreviews
       (fold_left (fun s f => projectImage_onload (dataUrl f) s) fileArray st)
     = projectImagePreviews st ++ map dataUrl fileArray.
Proof.
  revert st. induction fileArray as [|f fs IH]; intros st; simpl.
  - by rewrite app_nil_r.
  - destruct (IH (projectImage_onload (dataUrl f) st)) as [-> ->].
    simpl. by rewrite <- app_assoc.
Qed.

Lemma delete_app_first {A : Type} (index : nat) (l1 l2 : list A) :
  (index < length l1)%nat -> delete index (l1 ++ l2) = delete index l1 ++ l2.
Proof.
  revert index. induction l1 as [|x l1 IH]; intros [|index] Hlt; simpl in *;
    try lia; try done.
  by rewrite IH by lia.
Qed.

(** X2: when the previews of the gallery are those of the staged files,
    in order, they still are after an image is removed, and after a batch of
    files is staged and its reads complete in the order of the files. *)
Theorem X2_previews_follow_files (dataUrl : File -> string) (st : State) :
  previews_follow dataUrl st ->
  (forall index, previews_follow dataUrl (removeProjectImage index st))
  /\ (forall fileArray,
        previews_follow dataUrl
          (fold_left (fun s f => projectImage_onload (dataUrl f) s) fileArray
             (handleProjectImagesChange (Some fileArray) st))).
Proof.
  unfold previews_follow. intros Hfollow. split.
  - intros index. destruct (removeProjectImage_lists index st) as [-> ->].
    rewrite Hfollow. symmetry. apply (list_fmap_delete dataUrl).
  - intros fileArray.
    destruct (gallery_after_reads dataUrl fileArray
                (handleProjectImagesChange (Some fileArray) st)) as [-> ->].
    simpl. rewrite Hfollow. symmetry. apply (fmap_app dataUrl).
Qed.

(** X3: removal is by position, not by file.  In a form loaded for edit
    whose project has stored images, the previews start with those images,
    for which no file is staged: removing the preview of a stored image takes
    the staged file at the same position out of the files to upload, and the
    preview of that file stays.  And when the reads of two staged files
    complete in the other order, removing the first preview takes out the
    first file, whose preview is the one that stays. *)
Theorem X3_removal_by_position (dataUrl : File -> string) :
  (forall api i p existing st fileArray index,
     truthy i = true ->
     getProject api i = Some p ->
     Project.images p = Some existing ->
     projectImageFiles st = [] ->
     (index < length existing)%nat ->
     projectImagePreviews
       (removeProjectImage index
          (fold_left (fun s f => projectImage_onload (dataUrl f) s) fileArray
             (handleProjectImagesChange (Some fileArray)
                (final (fetchProject api (Some i) st)))))
     = delete index existing ++ map dataUrl fileArray
     /\ projectImageFiles
          (removeProjectImage index
             (fold_left (fun s f => projectImage_onload (dataUrl f) s) fileArray
                (handleProjectImagesChange (Some fileArray)
                   (final (fetchProject api (Some i) st)))))
        = delete index fileArray)
  /\ (forall f g st,
        projectImageFiles st = [] ->
        projectImagePreviews st = [] ->
        projectImageFiles
          (removeProjectImage 0
             (projectImage_onload (dataUrl f)
                (projectImage_onload (dataUrl g)
                   (handleProjectImagesChange (Some [f; g]) st))))
        = [g]
        /\ projectImagePreviews
             (removeProjectImage 0
                (projectImage_onload (dataUrl f)
                   (projectImage_onload (dataUrl g)
                      (handleProjectImagesChange (Some [f; g]) st))))
           = [dataUrl f]).
Proof.
  split.
  - intros api i p existing st fileArray index Hi Hp Himages Hfiles Hindex.
    set (st1 := final (fetchProject api (Some i) st)).
    assert (Hst1 : projectImageFiles st1 = [] /\ projectImagePreviews st1 = existing).
    { subst st1.
      unfold fetchProject, function_body, try_catch_finally, try_finally, try_catch.
      rewrite Hi. unfold mbind, M_bind, bind, call. simpl. rewrite Hp, Himages.
      simpl. by rewrite Hfiles. }
    destruct Hst1 as [Hf1 Hp1].
    destruct (removeProjectImage_lists index
                (fold_left (fun s f => projectImage_onload (dataUrl f) s) fileArray
                   (handleProjectImagesChange (Some fileArray) st1))) as [-> ->].
    destruct (gallery_after_reads dataUrl fileArray
                (handleProjectImagesChange (Some fileArray) st1)) as [-> ->].
    simpl. rewrite Hf1, Hp1. simpl. by rewrite delete_app_first.
  - intros f g st Hfiles Hpreviews.
    destruct (removeProjectImage_lists 0
                (projectImage_onload (dataUrl f)
                   (projectImage_onload (dataUrl g)
                      (handleProjectImagesChange (Some [f; g]) st)))) as [-> ->].
    simpl. by rewrite Hfiles, Hpreviews.
Qed.
End Gallery.

(** ** The uploads of a submission *)

Section ProjectUploads.
Import ProjectForm.
Variable api : ApiService.
Variable mode : Mode.
Variable id : option string.

Lemma stagedUploads_are_uploads (projectName : string) (st : State) :
  Forall (fun e => is_upload e = true) (stagedUploads projectName st).
Proof.
  unfold stagedUploads.
  destruct (logoFile st), (heroImageFile st), (projectImageFiles st);
    repeat constructor.
Qed.

(** What [uploadFiles] uploads and returns, against the staged files. *)
Lemma uploadFiles_staged (projectName : string) (st : State) :
  exists ups,
    events (uploadFiles api projectName st) = ECreateProjectFolders projectName :: ups
    /\ ups `prefix_of` stagedUploads projectName st
    /\ (forall u,
          completion (uploadFiles api projectName st) = Normal u ->
          ups = stagedUploads projectName st
          /\ logo u
             = (logoFile st ≫= fun file =>
                  url <$> uploadFile api file "logo" projectName)
          /\ heroImage u
             = (heroImageFile st ≫= fun file =>
                  url <$> uploadFile api file "project-hero-image" projectName)
          /\ projectImages u
             = match projectImageFiles st with
               | _ :: _ =>
                   map url <$> uploadMultipleFiles api (projectImageFiles st)
                                 "project-image" projectName
               | [] => None
               end).
Proof.
  unfold uploadFiles, stagedUploads, mbind, M_bind, bind, call, get, mret, M_ret, ret,
    events, completion.
  destruct (createProjectFolders api projectName) as [[]|]; simpl;
    [|eexists; split; [reflexivity|]; split; [apply prefix_nil | done]].
  destruct (logoFile st) as [lf|]; simpl;
    [destruct (uploadFile api lf _ _) eqn:Hl; simpl;
     [|eexists; split; [reflexivity|]; split; [by eexists | done]]|];
  (destruct (heroImageFile st) as [hf|]; simpl;
    [destruct (uploadFile api hf _ _) eqn:Hh; simpl;
     [|eexists; split; [reflexivity|]; split; [by eexists | done]]|]);
  (destruct (projectImageFiles st) as [|f fs]; simpl;
    [|destruct (uploadMultipleFiles api _ _ _) eqn:Hm; simpl;
      [|eexists; split; [reflexivity|]; split; [by eexists | done]]]).
  all: eexists; split; [reflexivity|]; split; [by exists []|].
  all: intros ? [= <-]; simpl; rewrite ?Hl, ?Hh, ?Hm; done.
Qed.

Lemma createOrUpdate_no_upload (payload : ProjectData) (st : State) :
  List.filter is_upload
    (events (bind (createOrUpdate api mode id payload)
               (fun _ => emit (ENavigate "/projects")) st)) = [].
Proof.
  unfold createOrUpdate, mbind, M_bind, bind, call, emit, mret, M_ret, ret.
  destruct mode; simpl.
  - by destruct (createProject api payload) as [[]|].
  - destruct id as [i|]; [destruct (truthy i)|]; simpl; try done.
    by destruct (updateProject api i payload) as [[]|].
Qed.

Lemma filter_all_kind {Ev : Type} (kind : Ev -> bool) (tr : list Ev) :
  Forall (fun e => kind e = true) tr -> List.filter kind tr = tr.
Proof. induction 1 as [|e tr He _ IH]; [done|]. simpl. by rewrite He, IH. Qed.

(** The upload calls of a submission are those of [uploadFiles]. *)
Lemma onSubmit_upload_calls (data : ProjectFormData) (st : State) :
  upload_calls (events (onSubmit api mode id data st))
  = if cap_reached api data then []
    else List.tl (events (uploadFiles api (name data) (setLoading true st))).
Proof.
  destruct (cap_reached api data) eqn:Hcap.
  - by rewrite onSubmit_run, onSubmit_try_stopped.
  - rewrite onSubmit_run, onSubmit_try_proceeds by done.
    destruct (uploadFiles_staged (name data) (setLoading true st))
      as (ups & Hev & Hprefix & _).
    assert (Hups : Forall (fun e => is_upload e = true) ups).
    { destruct Hprefix as [k Hk].
      pose proof (stagedUploads_are_uploads (name data) (setLoading true st)) as Hall.
      rewrite Hk in Hall. by apply Forall_app in Hall as [? _]. }
    unfold saveProject, mbind, M_bind. unfold events at 1 3, completion at 1. simpl.
    rewrite bind_events, Hev. unfold upload_calls.
    rewrite !List.filter_app. simpl. rewrite (filter_all_kind _ _ Hups).
    replace (List.filter is_upload
               (if featured data then [EGetFeaturedCounts] else [])) with (@nil Event)
      by (by destruct (featured data)).
    simpl.
    replace (List.filter is_upload
               match completion (uploadFiles api (name data) (setLoading true st)) with
               | Normal a =>
                   events
                     (bind (createOrUpdate api mode id (projectData data a))
                        (fun _ => emit (ENavigate "/projects"))
                        (final (uploadFiles api (name data) (setLoading true st))))
               | _ => []
               end) with (@nil Event)
      by (destruct (completion _); by rewrite ?createOrUpdate_no_upload).
    rewrite app_nil_r.
    match goal with |- _ ++ List.filter _ ?l = _ =>
      replace (List.filter is_upload l) with (@nil Event)
        by (by destruct (completion _)) end.
    by rewrite app_nil_r.
Qed.
(** The upload calls of a submission against the staged files. *)
Lemma onSubmit_uploads_staged (data : ProjectFormData) (st : State) :
  upload_calls (events (onSubmit api mode id data st))
    `prefix_of` stagedUploads (name data) st
  /\ (forall u,
        cap_reached api data = false ->
        completion (uploadFiles api (name data) (setLoading true st)) = Normal u ->
        upload_calls (events (onSubmit api mode id data st))
        = stagedUploads (name data) st).
Proof.
  rewrite onSubmit_upload_calls.
  destruct (uploadFiles_staged (name data) (setLoading true st))
    as (ups & Hev & Hprefix & Hdone).
  rewrite Hev. simpl. split.
  - destruct (cap_reached api data); [apply prefix_nil | exact Hprefix].
  - intros u -> Hu. by destruct (Hdone u Hu) as [-> _].
Qed.

(** X4: a submission of the project form uploads staged files only, each
    at most once and in the order logo, hero image, gallery (the gallery in
    one call that carries the staged files in their order): its upload calls
    are a prefix of those the staged files call for, and all of them once
    the cap does not stop the submission and [uploadFiles] completes. *)
Theorem X4_uploads_are_the_staged_files (data : ProjectFormData) (st : State) :
  upload_calls (events (onSubmit api mode id data st))
    `prefix_of` stagedUploads (name data) st
  /\ (forall u,
        cap_reached api data = false ->
        completion (uploadFiles api (name data) (setLoading true st)) = Normal u ->
        upload_calls (events (onSubmit api mode id data st))
        = stagedUploads (name data) st).
Proof. apply onSubmit_uploads_staged. Qed.

(** X5: the image URLs of the payload are those the uploads returned.
    Once the cap does not stop a creation and [uploadFiles] completes, the
    one create call carries, for the logo and the hero image, the URL
    returned for the staged file and no value when no file is staged, and for
    the gallery the URLs returned for the staged files, in order, and no
    value when the gallery is empty. *)
Theorem X5_payload_holds_uploaded_urls (data : ProjectFormData) (st : State)
    (u : Uploads) :
  mode = create ->
  cap_reached api data = false ->
  completion (uploadFiles api (name data) (setLoading true st)) = Normal u ->
  exists payload,
    create_calls (events (onSubmit api mode id data st)) = [payload]
    /\ pd_logo payload
       = (logoFile st ≫= fun file => url <$> uploadFile api file "logo" (name data))
    /\ pd_heroImage payload
       = (heroImageFile st ≫= fun file =>
            url <$> uploadFile api file "project-hero-image" (name data))
    /\ pd_projectImages payload
       = match projectImageFiles st with
         | _ :: _ =>
             map url <$> uploadMultipleFiles api (projectImageFiles st)
                           "project-image" (name data)
         | [] => None
         end.
Proof.
  intros -> Hcap Hu. exists (projectData data u).
  destruct (onSubmit_reaches_call api create id data st u Hcap Hu) as [-> _].
  split; [done|].
  destruct (uploadFiles_staged (name data) (setLoading true st)) as (ups & _ & _ & Hdone).
  destruct (Hdone u Hu) as (_ & Hlogo & Hhero & Himages).
  simpl. by rewrite Hlogo, Hhero, Himages.
Qed.

End ProjectUploads.

(** ** What a submission leaves and tells *)

(** X6: a submission changes no cell of the component but the loading
    flag: the staged files, the previews, the selections and the field values
    are after [onSubmit] what they were before, on success as on failure, in
    the project form and in the video form. *)
Theorem X6_submission_keeps_the_form :
  (forall api mode id data st,
     final (ProjectForm.onSubmit api mode id data st) = ProjectForm.setLoading false st)
  /\ (forall api mode id data st,
        final (VideoForm.onSubmit api mode id data st) = VideoForm.setLoading false st).
Proof.
  split; intros api mode id data st.
  - rewrite onSubmit_run. unfold final at 1. simpl.
    destruct (ProjectForm.cap_reached api data) eqn:Hcap.
    + by rewrite onSubmit_try_stopped.
    + rewrite onSubmit_try_proceeds by done.
      destruct (saveProject_run api mode id data (ProjectForm.setLoading true st))
        as (c & ups & tail & -> & _).
      reflexivity.
  - rewrite video_onSubmit_run. unfold final at 1. simpl.
    destruct (VideoForm.cap_reached api data) eqn:Hcap.
    + by rewrite video_onSubmit_try_stopped.
    + rewrite video_onSubmit_try_proceeds by done.
      destruct (saveVideo_run api mode id data (VideoForm.setLoading true st))
        as (c & ups & tail & -> & _).
      reflexivity.
Qed.

Section Messages.

Lemma project_messages api mode id data st :
  ProjectForm.error_toasts (events (ProjectForm.onSubmit api mode id data st))
  = (if ProjectForm.cap_reached api data then [ProjectForm.featuredCapMessage] else [])
  /\ ProjectForm.console_errors (events (ProjectForm.onSubmit api mode id data st))
     = (if completion (ProjectForm.onSubmit_try api mode id data st) is ThrowC
        then ["Failed to save project:"] else [])
  /\ ProjectForm.success_toasts (events (ProjectForm.onSubmit api mode id data st))
     = match completion (ProjectForm.onSubmit_try api mode id data st) with
       | Normal _ =>
           match mode with
           | create => ["Project created successfully"]
           | edit => if truthy_opt id then ["Project updated successfully"] else []
           end
       | _ => []
       end.
Proof.
  destruct (ProjectForm.cap_reached api data) eqn:Hcap.
  - by rewrite onSubmit_run, onSubmit_try_stopped.
  - destruct (onSubmit_shape api mode id data st Hcap)
      as (c & ups & tail & Hc & Hev & Hups & _ & Htail).
    rewrite Hev, Hc. clear Hev Hc.
    unfold ProjectForm.error_toasts, ProjectForm.console_errors,
      ProjectForm.success_toasts.
    rewrite !omap_app. simpl. rewrite !omap_app.
    rewrite !(omap_other_kind ProjectForm.is_upload _ ups) by (done || by intros []).
    destruct (ProjectForm.featured data); simpl;
      destruct Htail as [|u Hm Hcall|u Hm Hcall|i u Hm Hid Hi Hcall
                         |i u Hm Hid Hi Hcall|Hm Hid];
      subst; simpl; try rewrite Hi; try rewrite Hid; done.
Qed.

Lemma video_messages api mode id data st :
  VideoForm.error_toasts (events (VideoForm.onSubmit api mode id data st))
  = (if VideoForm.cap_reached api data then [VideoForm.featuredCapMessage] else [])
  /\ VideoForm.console_errors (events (VideoForm.onSubmit api mode id data st))
     = (if completion (VideoForm.onSubmit_try api mode id data st) is ThrowC
        then ["Failed to save video:"] else [])
  /\ VideoForm.success_toasts (events (VideoForm.onSubmit api mode id data st))
     = match completion (VideoForm.onSubmit_try api mode id data st) with
       | Normal _ =>
           match mode with
           | create => ["Video created successfully"]
           | edit => if truthy_opt id then ["Video updated successfully"] else []
           end
       | _ => []
       end.
Proof.
  destruct (VideoForm.cap_reached api data) eqn:Hcap.
  - by rewrite video_onSubmit_run, video_onSubmit_try_stopped.
  - destruct (video_onSubmit_shape api mode id data st Hcap)
      as (c & ups & tail & Hc & Hev & Hups & Htail).
    rewrite Hev, Hc. clear Hev Hc.
    unfold VideoForm.error_toasts, VideoForm.console_errors, VideoForm.success_toasts.
    rewrite !omap_app.
    destruct Hups as [| p Hp Hfolder | p file Hp Hfolder]; simpl.
    all: destruct (VideoForm.featured data); simpl;
      destruct Htail as [|u Hm Hcall|u Hm Hcall|i u Hm Hid Hi Hcall
                         |i u Hm Hid Hi Hcall|Hm Hid];
      subst; simpl; try rewrite Hi; try rewrite Hid; done.
Qed.

(** X7: what a submission tells the user.  The only error toast is the
    one of the featured cap; an error thrown by a step is written to the
    console and shows no toast; the success toast, worded after the mode, is
    shown exactly when the [try] block completes after its create or update
    call.  This holds for the project form and for the video form. *)
Theorem X7_messages_of_a_submission :
  (forall api mode id data st,
     ProjectForm.error_toasts (events (ProjectForm.onSubmit api mode id data st))
     = (if ProjectForm.cap_reached api data then [ProjectForm.featuredCapMessage] else [])
     /\ ProjectForm.console_errors (events (ProjectForm.onSubmit api mode id data st))
        = (if completion (ProjectForm.onSubmit_try api mode id data st) is ThrowC
           then ["Failed to save project:"] else [])
     /\ ProjectForm.success_toasts (events (ProjectForm.onSubmit api mode id data st))
        = match completion (ProjectForm.onSubmit_try api mode id data st) with
          | Normal _ =>
              match mode with
              | create => ["Project created successfully"]
              | edit => if truthy_opt id then ["Project updated successfully"] else []
              end
          | _ => []
          end)
  /\ (forall api mode id data st,
        VideoForm.error_toasts (events (VideoForm.onSubmit api mode id data st))
        = (if VideoForm.cap_reached api data then [VideoForm.featuredCapMessage] else [])
        /\ VideoForm.console_errors (events (VideoForm.onSubmit api mode id data st))
           = (if completion (VideoForm.onSubmit_try api mode id data st) is ThrowC
              then ["Failed to save video:"] else [])
        /\ VideoForm.success_toasts (events (VideoForm.onSubmit api mode id data st))
           = match completion (VideoForm.onSubmit_try api mode id data st) with
             | Normal _ =>
                 match mode with
                 | create => ["Video created successfully"]
                 | edit => if truthy_opt id then ["Video updated successfully"] else []
                 end
             | _ => []
             end).
Proof.
  split; intros api mode id data st.
  - apply project_messages.
  - apply video_messages.
Qed.
End Messages.

(** ** Acceptance by the schemas *)

Section Acceptance.
Import ProjectForm.
Variable is_url : string -> bool.

Lemma string_min_accepts (n : nat) (msg : string) (p : list string) (s : string) :
  string_min n msg p s = [] <-> (n <= String.length s)%nat.
Proof.
  unfold string_min. destruct (Nat.leb_spec n (String.length s)); split;
    try done; lia.
Qed.

Lemma array_min_accepts (n : nat) (msg : string) (p : list string) (l : list string) :
  array_min n msg p l = [] <-> (n <= length l)%nat.
Proof.
  unfold array_min. destruct (Nat.leb_spec n (length l)); split; try done; lia.
Qed.

Lemma truthy_false (s : string) : truthy s = false <-> s = "".
Proof. by destruct s. Qed.

Lemma optional_url_accepts (p : list string) (v : option string) :
  optional_url is_url p v = [] <-> well_formed_or_empty is_url v.
Proof.
  split; [|apply optional_url_ok].
  unfold optional_url, well_formed_or_empty.
  destruct v as [s|]; [|by left].
  destruct (is_url s) eqn:Hs; simpl.
  - intros _. right; right. by exists s.
  - destruct (truthy s) eqn:Ht; simpl; [done|].
    intros _. apply truthy_false in Ht as ->. by right; left.
Qed.

Lemma length_positive (s : string) : (1 <= String.length s)%nat <-> s <> "".
Proof. destruct s; simpl; split; try done; lia. Qed.

(** X10: [Validate] accepts a project draft exactly when its name and
    tagline are not empty, its description has at least 10 characters, it
    has a category, and each of its nine URL fields is absent, empty or a
    well-formed URL. *)
Theorem X10_project_draft_accepted_iff (d : ProjectFormData) :
  Validate is_url d = true
  <-> name d <> ""
      /\ tagline d <> ""
      /\ (10 <= String.length (description d))%nat
      /\ categories d <> []
      /\ well_formed_or_empty is_url (website d)
      /\ well_formed_or_empty is_url (careerPageUrl d)
      /\ well_formed_or_empty is_url (bountySubmissionUrl d)
      /\ well_formed_or_empty is_url (githubUrl d)
      /\ well_formed_or_empty is_url (link_website (socialLinks d))
      /\ well_formed_or_empty is_url (link_twitter (socialLinks d))
      /\ well_formed_or_empty is_url (link_github (socialLinks d))
      /\ well_formed_or_empty is_url (link_discord (socialLinks d))
      /\ well_formed_or_empty is_url (link_telegram (socialLinks d)).
Proof.
  rewrite Validate_true_iff. unfold projectSchema.
  rewrite !app_nil, !string_min_accepts, array_min_accepts, !optional_url_accepts.
  rewrite !length_positive.
  assert (Hcat : (1 <= length (categories d))%nat <-> categories d <> []).
  { destruct (categories d); simpl; split; try done; lia. }
  rewrite Hcat. tauto.
Qed.

(** X16: the schema of the video form accepts a draft exactly when its
    title, its playback id and its project id are not empty; the description
    and the thumbnail are never required. *)
Theorem X16_video_draft_accepted_iff (d : VideoForm.VideoFormData) :
  VideoForm.Validate d = true
  <-> VideoForm.title d <> ""
      /\ VideoForm.playbackId d <> ""
      /\ VideoForm.projectId d <> "".
Proof.
  unfold VideoForm.Validate.
  assert (Hnil : match VideoForm.videoSchema d with [] => true | _ :: _ => false end = true
                 <-> VideoForm.videoSchema d = []).
  { destruct (VideoForm.videoSchema d); split; congruence. }
  rewrite Hnil. unfold VideoForm.videoSchema.
  rewrite !app_nil, !string_min_accepts, !length_positive. tauto.
Qed.

End Acceptance.

(** ** Social links *)

Section SocialLinks.
Import ProjectForm.

Lemma platform_key_inj (p q : Platform) : platform_key p = platform_key q -> p = q.
Proof. by destruct p, q. Qed.

(** The entries kept for the payload, platform by platform. *)
Lemma keptSocialLinks_elem (d : ProjectFormData) (k v : string) :
  (k, v) ∈ keptSocialLinks d
  <-> exists platform,
        k = platform_key platform
        /\ included platform (includeSocialLinks d) = true
        /\ link_of platform (socialLinks d) = Some v
        /\ v <> "".
Proof.
  unfold keptSocialLinks, socialLinkEntries. rewrite list_elem_of_omap. split.
  - intros ([[key inc] link] & Hin & Hkept).
    destruct link as [value|]; [|done].
    destruct inc; [|done]. simpl in Hkept.
    destruct (truthy value) eqn:Hv; [|done]. injection Hkept as -> ->.
    assert (Hne : v <> "") by (intros ->; done).
    set_unfold in Hin.
    destruct Hin as [Hin | [Hin | [Hin | [Hin | [Hin | []]]]]];
      injection Hin as -> Hinc Hlink;
      [exists on_website | exists on_twitter | exists on_github
       | exists on_discord | exists on_telegram]; by simpl.
  - intros (platform & -> & Hinc & Hlink & Hne).
    exists (platform_key platform, true, Some v). split.
    + destruct platform; simpl in *; rewrite <- Hinc, <- Hlink; set_solver.
    + simpl. by destruct v.
Qed.


(** X12: [toggleSocialLink(platform)] flips the flag of that platform and
    no other, in the selection and in the form field alike, so that the two
    agree on that platform afterwards; toggling twice restores the
    selection. *)
Theorem X12_toggleSocialLink (platform : Platform) (st : State) :
  (forall q,
     included q (socialLinksSelection (toggleSocialLink platform st))
     = if decide (q = platform)
       then negb (included q (socialLinksSelection st))
       else included q (socialLinksSelection st))
  /\ (forall q,
        included q (includeSocialLinks (values (toggleSocialLink platform st)))
        = if decide (q = platform)
          then negb (included q (socialLinksSelection st))
          else included q (includeSocialLinks (values st)))
  /\ socialLinksSelection (toggleSocialLink platform (toggleSocialLink platform st))
     = socialLinksSelection st.
Proof.
  split; [|split].
  - intros q. by destruct q, platform.
  - intros q. by destruct q, platform.
  - destruct st as [? ? ? ? ? ? ? ? [[] [] [] [] []] ? ?]; by destruct platform.
Qed.
End SocialLinks.

(** ** Loading, editing, saving *)

Section LoadEditSave.
Import ProjectForm.

(** The cells left by [fetchProject] when the project is fetched. *)
Lemma fetchProject_cells (api : ApiService) (i : string) (p : Project.t) (st : State) :
  truthy i = true ->
  getProject api i = Some p ->
  selectedCategories (final (fetchProject api (Some i) st)) = Project.categories p
  /\ socialLinksSelection (final (fetchProject api (Some i) st))
     = loadedInclude (Project.socialLinks p)
  /\ loading (final (fetchProject api (Some i) st)) = false
  /\ logoPreview (final (fetchProject api (Some i) st)) = or_empty (Project.logo p)
  /\ heroImagePreview (final (fetchProject api (Some i) st))
     = or_empty (Project.heroImage p)
  /\ projectImagePreviews (final (fetchProject api (Some i) st))
     = default (projectImagePreviews st) (Project.images p)
  /\ logoFile (final (fetchProject api (Some i) st)) = logoFile st
  /\ heroImageFile (final (fetchProject api (Some i) st)) = heroImageFile st
  /\ projectImageFiles (final (fetchProject api (Some i) st)) = projectImageFiles st.
Proof.
  intros Hi Hp.
  unfold fetchProject, function_body, try_catch_finally, try_finally, try_catch.
  rewrite Hi. unfold mbind, M_bind, bind, call. simpl. rewrite Hp.
  by destruct (Project.images p).
Qed.

Lemma perform_in_sync (a : Action) (st : State) :
  form_in_sync st -> form_in_sync (perform a st).
Proof.
  unfold form_in_sync. intros [Hcat Hsocial].
  destruct a as [c|platform|[file|] [|]|file [|] result|[files|]|result|index];
    simpl; try done.
  split; [done|]. rewrite Hsocial. by destruct platform.
Qed.

(** X13: the form fields [categories] and [includeSocialLinks] mirror
    the cells [selectedCategories] and [socialLinksSelection].  They agree
    once a project is fetched by [fetchProject], and stay in agreement
    through every sequence of toggles, file selections, reads and removals
    and through [onSubmit]; the categories sent with the payload are then
    the categories selected. *)
Theorem X13_form_mirrors_selection :
  (forall api i p st,
     truthy i = true -> getProject api i = Some p ->
     form_in_sync (final (fetchProject api (Some i) st)))
  /\ (forall st actions,
        form_in_sync st ->
        form_in_sync (performAll actions st)
        /\ forall u,
             pd_categories (projectData (values (performAll actions st)) u)
             = selectedCategories (performAll actions st))
  /\ (forall api mode id data st,
        form_in_sync st -> form_in_sync (final (onSubmit api mode id data st))).
Proof.
  split; [|split].
  - intros api i p st Hi Hp. unfold form_in_sync.
    rewrite (fetchProject_values api i p st Hi Hp).
    destruct (fetchProject_cells api i p st Hi Hp) as (-> & -> & _). done.
  - intros st actions Hsync.
    assert (Hall : form_in_sync (performAll actions st)).
    { unfold performAll. revert st Hsync.
      induction actions as [|a actions IH]; intros st Hsync; simpl; [done|].
      by apply IH, perform_in_sync. }
    split; [done|]. intros u. by destruct Hall as [Hcat _].
  - intros api mode id data st Hsync.
    destruct (ProjectForm.cap_reached api data) eqn:Hcap.
    + by rewrite onSubmit_run, onSubmit_try_stopped.
    + rewrite onSubmit_run, onSubmit_try_proceeds by done.
      by destruct (saveProject_run api mode id data (setLoading true st))
        as (c & ups & tail & -> & _).
Qed.

(** X14: [fetchProject] without an identity does nothing at all; when
    the fetch fails, the error is written to the console and the form is
    left as it was, with the loading flag false. *)
Theorem X14_fetchProject_failure (api : ApiService) (st : State) :
  (forall id, truthy_opt id = false -> fetchProject api id st = (Normal tt, st, []))
  /\ (forall i,
        truthy i = true ->
        getProject api i = None ->
        fetchProject api (Some i) st
        = (Normal tt, setLoading false st,
           [EGetProject i; EConsoleError "Failed to fetch project:"])).
Proof.
  split.
  - intros [i|] Hid; simpl in Hid; unfold fetchProject, function_body; [|done].
    by rewrite Hid.
  - intros i Hi Hnone.
    unfold fetchProject, function_body, try_catch_finally, try_finally, try_catch.
    rewrite Hi. unfold mbind, M_bind, bind, call. simpl. by rewrite Hnone.
Qed.

Lemma loaded_link (platform : Platform) (social : option Project.SocialLinks) :
  included platform (loadedInclude social)
  = truthy_opt (social ≫=
                  match platform with
                  | on_website => Project.social_website
                  | on_twitter => Project.social_twitter
                  | on_github => Project.social_github
                  | on_discord => Project.social_discord
                  | on_telegram => Project.social_telegram
                  end)
  /\ link_of platform (loadedSocialLinks social)
     = Some (or_empty (social ≫=
                         match platform with
                         | on_website => Project.social_website
                         | on_twitter => Project.social_twitter
                         | on_github => Project.social_github
                         | on_discord => Project.social_discord
                         | on_telegram => Project.social_telegram
                         end)).
Proof. by destruct platform. Qed.

End LoadEditSave.

(** ** The video form: lookup, thumbnail, loading *)

Section VideoExtras.
Import VideoForm.

Lemma saveVideo_not_found api mode id (data : VideoFormData) (st : State) :
  selectedProject data st = None ->
  saveVideo api mode id data st = (ThrowC, st, []).
Proof.
  intros Hnone. unfold saveVideo, findSelectedProject, mbind, M_bind.
  unfold bind at 1 2. unfold get. simpl.
  unfold selectedProject in Hnone. by rewrite Hnone.
Qed.

(** What a submission holds when the selected project is not in the list. *)
Lemma video_not_found_calls api mode id (data : VideoFormData) (st : State) :
  selectedProject data st = None ->
  events (onSubmit api mode id data st)
  = if cap_reached api data
    then [EGetFeaturedCounts; EToastError featuredCapMessage]
    else (if featured data then [EGetFeaturedCounts] else [])
         ++ [EConsoleError "Failed to save video:"].
Proof.
  intros Hnone. destruct (cap_reached api data) eqn:Hcap.
  - by rewrite video_onSubmit_run, video_onSubmit_try_stopped.
  - rewrite video_onSubmit_run, video_onSubmit_try_proceeds by done.
    rewrite saveVideo_not_found by done.
    unfold events, completion. simpl. by rewrite app_nil_r.
Qed.

(** X17: a video whose project is not in the list of the form is not
    saved: whatever the draft, the submission creates no folder, uploads
    nothing, issues no create or update call and does not navigate; unless
    the cap has turned the draft down before, the failure is only written to
    the console. *)
Theorem X17_video_without_project_not_saved api mode id (data : VideoFormData)
    (st : State) :
  selectedProject data st = None ->
  folder_calls (events (onSubmit api mode id data st)) = []
  /\ upload_calls (events (onSubmit api mode id data st)) = []
  /\ create_calls (events (onSubmit api mode id data st)) = []
  /\ update_calls (events (onSubmit api mode id data st)) = []
  /\ navigations (events (onSubmit api mode id data st)) = []
  /\ (cap_reached api data = false ->
      error_toasts (events (onSubmit api mode id data st)) = []
      /\ console_errors (events (onSubmit api mode id data st))
         = ["Failed to save video:"]).
Proof.
  intros Hnone. rewrite (video_not_found_calls api mode id data st Hnone).
  destruct (cap_reached api data); [by repeat split|].
  by destruct (featured data).
Qed.

Lemma videoData_unchanged (data : VideoFormData) : videoData data None = data.
Proof. by destruct data. Qed.

Lemma uploadThumbnail_none api (projectName playbackId : string) (st : State) :
  thumbnailFile st = None ->
  uploadThumbnail api projectName playbackId st = (Normal None, st, []).
Proof.
  intros Hnone. unfold uploadThumbnail, mbind, M_bind, bind, get. simpl.
  by rewrite Hnone.
Qed.

Lemma uploadThumbnail_done api (projectName playbackId : string) (st : State)
    (file : File) (r : UploadResult) :
  thumbnailFile st = Some file ->
  createVideoFolder api projectName playbackId = Some tt ->
  uploadVideoThumbnail api file projectName playbackId = Some r ->
  uploadThumbnail api projectName playbackId st
  = (Normal (Some (url r)), st,
     [ECreateVideoFolder projectName playbackId;
      EUploadVideoThumbnail file projectName playbackId]).
Proof.
  intros Hfile Hfolder Hupload.
  unfold uploadThumbnail, mbind, M_bind, bind, get, call, mret, M_ret, ret. simpl.
  by rewrite Hfile, Hfolder, Hupload.
Qed.

(** X18: the thumbnail of the payload.  When the cap does not stop the
    submission and the project is found: without a staged thumbnail the
    create or update call carries the draft itself, its thumbnail as it was;
    with a staged thumbnail whose folder creation and upload succeed, it
    carries the draft with the returned URL as thumbnail (the thumbnail of
    the draft when that URL is empty). *)
Theorem X18_video_payload_thumbnail api id (data : VideoFormData) (st : State)
    (p : Project.t) :
  cap_reached api data = false ->
  selectedProject data st = Some p ->
  (thumbnailFile st = None ->
   create_calls (events (onSubmit api create id data st)) = [data]
   /\ forall i, truthy i = true ->
        update_calls (events (onSubmit api edit (Some i) data st)) = [(i, data)])
  /\ (forall file r,
        thumbnailFile st = Some file ->
        createVideoFolder api (Project.name p) (playbackId data) = Some tt ->
        uploadVideoThumbnail api file (Project.name p) (playbackId data) = Some r ->
        create_calls (events (onSubmit api create id data st))
        = [with_thumbnail (if truthy (url r) then Some (url r) else thumbnail data) data]
        /\ forall i, truthy i = true ->
             update_calls (events (onSubmit api edit (Some i) data st))
             = [(i, with_thumbnail
                      (if truthy (url r) then Some (url r) else thumbnail data) data)]).
Proof.
  intros Hcap Hp. split.
  - intros Hnone.
    assert (Hu : completion (uploadThumbnail api (Project.name p) (playbackId data)
                               (setLoading true st)) = Normal None)
      by (by rewrite uploadThumbnail_none).
    split.
    + destruct (video_onSubmit_reaches_call api create id data st p None Hcap Hp Hu)
        as [-> _].
      simpl. by rewrite videoData_unchanged.
    + intros i Hi.
      destruct (video_onSubmit_reaches_call api edit (Some i) data st p None Hcap Hp Hu)
        as [_ ->].
      by rewrite Hi, videoData_unchanged.
  - intros file r Hfile Hfolder Hupload.
    assert (Hu : completion (uploadThumbnail api (Project.name p) (playbackId data)
                               (setLoading true st)) = Normal (Some (url r)))
      by (by rewrite (uploadThumbnail_done api _ _ _ file r)).
    split.
    + by destruct (video_onSubmit_reaches_call api create id data st p _ Hcap Hp Hu)
        as [-> _].
    + intros i Hi.
      destruct (video_onSubmit_reaches_call api edit (Some i) data st p _ Hcap Hp Hu)
        as [_ ->].
      by rewrite Hi.
Qed.
Lemma video_createOrUpdate_plain api mode id (payload : VideoFormData) (st : State) :
  List.filter is_upload
    (events (bind (createOrUpdate api mode id payload)
               (fun _ => emit (ENavigate "/videos")) st)) = []
  /\ List.filter is_folder_creation
       (events (bind (createOrUpdate api mode id payload)
                  (fun _ => emit (ENavigate "/videos")) st)) = [].
Proof.
  unfold createOrUpdate, mbind, M_bind, bind, call, emit, mret, M_ret, ret.
  destruct mode; simpl.
  - by destruct (createVideo api payload) as [[]|].
  - destruct id as [i|]; [destruct (truthy i)|]; simpl; try done.
    by destruct (updateVideo api i payload) as [[]|].
Qed.

(** Without a staged thumbnail, a submission makes no storage call. *)
Lemma video_no_thumbnail_calls api mode id (data : VideoFormData) (st : State) :
  thumbnailFile st = None ->
  folder_calls (events (onSubmit api mode id data st)) = []
  /\ upload_calls (events (onSubmit api mode id data st)) = [].
Proof.
  intros Hnone. destruct (cap_reached api data) eqn:Hcap.
  - by rewrite video_onSubmit_run, video_onSubmit_try_stopped.
  - rewrite video_onSubmit_run, video_onSubmit_try_proceeds by done.
    destruct (selectedProject data (setLoading true st)) as [p|] eqn:Hp.
    + rewrite (saveVideo_reaches api mode id data _ p None [] Hp)
        by (by apply uploadThumbnail_none).
      unfold events at 1 3 5 7, completion at 1 3. simpl.
      unfold folder_calls, upload_calls. rewrite !List.filter_app.
      destruct (video_createOrUpdate_plain api mode id (videoData data None)
                  (setLoading true st)) as [-> ->].
      destruct (featured data); simpl; by destruct (completion _).
    + rewrite saveVideo_not_found by done. unfold events, completion. simpl.
      by destruct (featured data).
Qed.
End VideoExtras.

Section VideoLoading.
Import VideoForm.

Lemma fetchVideo_loaded (service : LoadService) (i : string) (v : Video.t) (fm : Form) :
  truthy i = true ->
  getVideo service i = Some v ->
  fetchVideo service (Some i) fm
  = (Normal tt,
     {| cells := setLoading false (setThumbnailPreview (Video.thumbnail v) (cells fm));
        values :=
          {| title := Video.title v;
             description := Some (or_empty (Video.description v));
             playbackId := Video.playbackId v;
             thumbnail := Some (Video.thumbnail v);
             featured := Video.featured v;
             projectId := Video.projectId v |} |},
     [EGetVideo i]).
Proof.
  intros Hi Hv.
  unfold fetchVideo, function_body, try_catch_finally, try_finally, try_catch.
  rewrite Hi. unfold mbind, M_bind, bind, call. simpl. by rewrite Hv.
Qed.

(** X19: the loaders of the video form fail silently.  When the list of
    published projects cannot be fetched, the error is written to the
    console and the list stays as it was; from an empty list, no submission
    can then save a video.  [fetchVideo] without an identity does nothing;
    when the fetch fails, the error is written to the console and the form
    is left as it was, with the loading flag false. *)
Theorem X19_video_loaders_fail_silently (service : LoadService) (fm : Form) :
  (getPublishedProjects service = None ->
   fetchProjects service fm
   = (Normal tt, fm,
      [EGetPublishedProjects; ELoadError "Failed to fetch published projects:"])
   /\ (projects (cells fm) = [] ->
       forall api mode id data,
         create_calls
           (events (onSubmit api mode id data (cells (final (fetchProjects service fm)))))
         = []
         /\ update_calls
              (events (onSubmit api mode id data
                         (cells (final (fetchProjects service fm)))))
            = []
         /\ navigations
              (events (onSubmit api mode id data
                         (cells (final (fetchProjects service fm)))))
            = []))
  /\ (forall id, truthy_opt id = false ->
        fetchVideo service id fm = (Normal tt, fm, []))
  /\ (forall i,
        truthy i = true ->
        getVideo service i = None ->
        fetchVideo service (Some i) fm
        = (Normal tt, onCells (setLoading false) fm,
           [EGetVideo i; ELoadError "Failed to fetch video:"])).
Proof.
  split; [|split].
  - intros Hnone.
    assert (Hrun : fetchProjects service fm
                   = (Normal tt, fm,
                      [EGetPublishedProjects;
                       ELoadError "Failed to fetch published projects:"])).
    { unfold fetchProjects, try_catch, mbind, M_bind, bind, call, emit.
      by rewrite Hnone. }
    split; [done|]. intros Hempty api mode id data. rewrite Hrun.
    unfold final. simpl.
    assert (Hnot : selectedProject data (cells fm) = None)
      by (unfold selectedProject; by rewrite Hempty).
    rewrite (video_not_found_calls api mode id data (cells fm) Hnot).
    destruct (cap_reached api data); [done|]. by destruct (featured data).
  - intros [i|] Hid; simpl in Hid; unfold fetchVideo, function_body; [|done].
    by rewrite Hid.
  - intros i Hi Hnone.
    unfold fetchVideo, function_body, try_catch_finally, try_finally, try_catch.
    rewrite Hi. unfold mbind, M_bind, bind, call. simpl. rewrite Hnone.
    by destruct fm.
Qed.

(** X20: saving a video just loaded for edit sends back what was stored.
    After [fetchVideo] has fetched a video, with no thumbnail staged, its
    project in the list of the form and the cap not in the way, the
    submission of the loaded fields issues one update call, with the
    identity of the route and the stored title, playback id, thumbnail,
    featured flag and project; a stored description that is [null] is sent
    as the empty string. *)
Theorem X20_video_load_then_save (service : LoadService) api (i : string)
    (v : Video.t) (p : Project.t) (fm : Form) :
  truthy i = true ->
  getVideo service i = Some v ->
  thumbnailFile (cells fm) = None ->
  List.find (fun q => String.eqb (Project.id q) (Video.projectId v)) (projects (cells fm))
  = Some p ->
  cap_reached api (values (final (fetchVideo service (Some i) fm))) = false ->
  update_calls
    (events (onSubmit api edit (Some i)
               (values (final (fetchVideo service (Some i) fm)))
               (cells (final (fetchVideo service (Some i) fm)))))
  = [(i, {| title := Video.title v;
            description := Some (or_empty (Video.description v));
            playbackId := Video.playbackId v;
            thumbnail := Some (Video.thumbnail v);
            featured := Video.featured v;
            projectId := Video.projectId v |})].
Proof.
  intros Hi Hv Hfile Hfind. rewrite (fetchVideo_loaded service i v fm Hi Hv).
  unfold final. simpl. intros Hcap.
  match goal with |- update_calls (events (onSubmit _ _ _ ?d ?st)) = _ =>
    assert (Hp : selectedProject d st = Some p) by exact Hfind;
    assert (Hu : completion (uploadThumbnail api (Project.name p) (playbackId d)
                               (setLoading true st)) = Normal None)
      by (by rewrite uploadThumbnail_none);
    destruct (video_onSubmit_reaches_call api edit (Some i) d st p None Hcap Hp Hu)
      as [_ ->]
  end.
  by rewrite Hi.
Qed.
End VideoLoading.

(** ** Clearing a file *)

Section Clearing.

Lemma logo_not_staged (projectName : string) (st : ProjectForm.State) (e : ProjectForm.Event) :
  ProjectForm.logoFile st = None ->
  e ∈ ProjectForm.stagedUploads projectName st ->
  forall file n, e <> ProjectForm.EUploadFile file "logo" n.
Proof.
  intros Hnone Hin file n ->. unfold ProjectForm.stagedUploads in Hin.
  rewrite Hnone in Hin. simpl in Hin.
  destruct (ProjectForm.heroImageFile st), (ProjectForm.projectImageFiles st);
    simpl in Hin; rewrite list_elem_of_In in Hin; simpl in Hin;
    intuition discriminate.
Qed.

(** X21: clearing a file.  [handleFileChange(null, "logo")] empties the
    logo and its preview and leaves the hero image and the gallery as they
    are; a submission that follows uploads no logo.  In the video form,
    [handleFileChange(null)] empties the thumbnail and its preview; a
    submission that follows creates no folder and uploads nothing. *)
Theorem X21_cleared_file_not_uploaded :
  (forall st,
     ProjectForm.logoFile (ProjectForm.handleFileChange None ProjectForm.slot_logo st)
     = None
     /\ ProjectForm.logoPreview
          (ProjectForm.handleFileChange None ProjectForm.slot_logo st) = ""
     /\ ProjectForm.heroImageFile
          (ProjectForm.handleFileChange None ProjectForm.slot_logo st)
        = ProjectForm.heroImageFile st
     /\ ProjectForm.heroImagePreview
          (ProjectForm.handleFileChange None ProjectForm.slot_logo st)
        = ProjectForm.heroImagePreview st
     /\ ProjectForm.projectImageFiles
          (ProjectForm.handleFileChange None ProjectForm.slot_logo st)
        = ProjectForm.projectImageFiles st
     /\ forall api mode id data file n,
          ProjectForm.EUploadFile file "logo" n
          ∉ events (ProjectForm.onSubmit api mode id data
                      (ProjectForm.handleFileChange None ProjectForm.slot_logo st)))
  /\ (forall st,
        VideoForm.thumbnailFile (VideoForm.handleFileChange None st) = None
        /\ VideoForm.thumbnailPreview (VideoForm.handleFileChange None st) = ""
        /\ forall api mode id data,
             VideoForm.folder_calls
               (events (VideoForm.onSubmit api mode id data
                          (VideoForm.handleFileChange None st))) = []
             /\ VideoForm.upload_calls
                  (events (VideoForm.onSubmit api mode id data
                             (VideoForm.handleFileChange None st))) = []).
Proof.
  split; intros st.
  - repeat split. intros api mode id data file n Hin.
    set (st' := ProjectForm.handleFileChange None ProjectForm.slot_logo st) in *.
    assert (Hup : ProjectForm.EUploadFile file "logo" n
                  ∈ ProjectForm.upload_calls
                      (events (ProjectForm.onSubmit api mode id data st'))).
    { unfold ProjectForm.upload_calls. rewrite list_elem_of_In, filter_In.
      by rewrite <- list_elem_of_In. }
    destruct (onSubmit_uploads_staged api mode id data st') as [[k Hk] _].
    assert (Hstaged : ProjectForm.EUploadFile file "logo" n
                      ∈ ProjectForm.stagedUploads (ProjectForm.name data) st')
      by (rewrite Hk; set_solver).
    by apply (logo_not_staged _ st' _ eq_refl Hstaged file n).
  - split; [done|]. split; [done|]. intros api mode id data.
    by apply video_no_thumbnail_calls.
Qed.
End Clearing.

(** ** A submission against the answers of the service *)

Section ProjectAnswers.
Import ProjectForm.
Variable api : ApiService.
Variable mode : Mode.
Variable id : option string.

(** When the storage resolves every call, [uploadFiles] creates the
    folders, uploads the staged files and returns their URLs. *)
Lemma uploadFiles_answers (projectName : string) (st : State) (u : Uploads) :
  storage_answers api projectName st u ->
  uploadFiles api projectName st
  = (Normal u, st, ECreateProjectFolders projectName :: stagedUploads projectName st).
Proof.
  intros (Hfolder & Hlogo & Hhero & Himages).
  unfold uploadFiles, stagedUploads, mbind, M_bind, bind, call, get, mret, M_ret, ret.
  rewrite Hfolder. simpl. destruct u as [ul uh ui]. simpl in *.
  destruct (logoFile st) as [lf|];
    [destruct Hlogo as (rl & -> & ->)|subst ul]; simpl;
  (destruct (heroImageFile st) as [hf|];
    [destruct Hhero as (rh & -> & ->)|subst uh]; simpl);
  (destruct (projectImageFiles st) as [|f fs];
    [subst ui|destruct Himages as (rs & -> & ->)]; simpl);
  reflexivity.
Qed.

(** When it rejects one, [uploadFiles] throws. *)
Lemma uploadFiles_rejects (projectName : string) (st : State) :
  storage_rejects api projectName st ->
  completion (uploadFiles api projectName st) = ThrowC.
Proof.
  intros Hrej.
  unfold uploadFiles, mbind, M_bind, bind, call, get, mret, M_ret, ret, completion.
  destruct (createProjectFolders api projectName) as [[]|] eqn:Hfolder; simpl; [|done].
  destruct (logoFile st) as [lf|] eqn:Hl; simpl;
    [destruct (uploadFile api lf _ _) eqn:Hlu; simpl; [|done]|];
  (destruct (heroImageFile st) as [hf|] eqn:Hh; simpl;
    [destruct (uploadFile api hf _ _) eqn:Hhu; simpl; [|done]|]);
  (destruct (projectImageFiles st) as [|f fs] eqn:Hm; simpl;
    [|destruct (uploadMultipleFiles api _ _ _) eqn:Hmu; simpl; [|done]]).
  all: exfalso;
    destruct Hrej as [H|[(file & H1 & H2)|[(file & H1 & H2)|[H1 H2]]]]; congruence.
Qed.

(** The save block once the storage calls are resolved. *)
Lemma saveProject_answered (data : ProjectFormData) (st : State) (u : Uploads) :
  storage_answers api (name data) st u ->
  saveProject api mode id data st
  = (completion (bind (createOrUpdate api mode id (projectData data u))
                   (fun _ => emit (ENavigate "/projects")) st),
     final (bind (createOrUpdate api mode id (projectData data u))
              (fun _ => emit (ENavigate "/projects")) st),
     ECreateProjectFolders (name data) :: stagedUploads (name data) st
     ++ events (bind (createOrUpdate api mode id (projectData data u))
                  (fun _ => emit (ENavigate "/projects")) st)).
Proof.
  intros Hans. unfold saveProject, mbind, M_bind. unfold bind at 1.
  rewrite (uploadFiles_answers _ _ _ Hans).
  by destruct (bind _ _ st) as [[c s] t].
Qed.

(** The whole trace of a submission that the cap does not stop and whose
    storage calls are resolved. *)
Lemma onSubmit_answered (data : ProjectFormData) (st : State) (u : Uploads) :
  cap_reached api data = false ->
  storage_answers api (name data) st u ->
  events (onSubmit api mode id data st)
  = (if featured data then [EGetFeaturedCounts] else [])
    ++ ECreateProjectFolders (name data) :: stagedUploads (name data) st
    ++ lastCalls api mode id (projectData data u).
Proof.
  intros Hcap Hans.
  rewrite onSubmit_run, onSubmit_try_proceeds by done.
  rewrite (saveProject_answered data (setLoading true st) u Hans).
  unfold lastCalls, createOrUpdate, mbind, M_bind, bind, call, emit, mret, M_ret, ret,
    completion, events.
  change (stagedUploads (name data) (setLoading true st))
    with (stagedUploads (name data) st).
  destruct mode; simpl.
  - destruct (createProject api _) as [[]|]; simpl;
      rewrite ?app_nil_r, <- ?app_assoc; simpl; by rewrite <- ?app_assoc.
  - destruct id as [i|]; [destruct (truthy i)|]; simpl;
      [destruct (updateProject api i _) as [[]|]; simpl|..];
      rewrite ?app_nil_r, <- ?app_assoc; simpl; by rewrite <- ?app_assoc.
Qed.

(** When the storage rejects a call, the submission ends in the [catch]
    block after the folder creation and some uploads. *)
Lemma onSubmit_rejected (data : ProjectFormData) (st : State) :
  cap_reached api data = false ->
  storage_rejects api (name data) st ->
  exists ups,
    events (onSubmit api mode id data st)
    = (if featured data then [EGetFeaturedCounts] else [])
      ++ ECreateProjectFolders (name data) :: ups
      ++ [EConsoleError "Failed to save project:"]
    /\ Forall (fun e => is_upload e = true) ups.
Proof.
  intros Hcap Hrej.
  assert (Hthrow := uploadFiles_rejects (name data) (setLoading true st) Hrej).
  destruct (uploadFiles_run api (name data) (setLoading true st))
    as (c & ups & Hrun & _ & Hups & _).
  rewrite Hrun in Hthrow. unfold completion in Hthrow. simpl in Hthrow. subst c.
  exists ups. split; [|done].
  rewrite onSubmit_run, onSubmit_try_proceeds by done.
  assert (Hsave : saveProject api mode id data (setLoading true st)
                  = (ThrowC, setLoading true st, ECreateProjectFolders (name data) :: ups)).
  { unfold saveProject, mbind, M_bind. unfold bind at 1. by rewrite Hrun. }
  rewrite Hsave. unfold completion, events. simpl. by rewrite <- app_assoc.
Qed.

(** What the calls after the last upload hold. *)
Lemma lastCalls_read (payload : ProjectData) :
  List.filter is_folder_creation (lastCalls api mode id payload) = []
  /\ List.filter is_upload (lastCalls api mode id payload) = []
  /\ error_toasts (lastCalls api mode id payload) = []
  /\ create_calls (lastCalls api mode id payload)
     = (if is_create mode then [payload] else [])
  /\ update_calls (lastCalls api mode id payload)
     = match mode, id with
       | edit, Some i => if truthy i then [(i, payload)] else []
       | _, _ => []
       end.
Proof.
  unfold lastCalls. destruct mode; simpl.
  - by destruct (createProject api payload).
  - destruct id as [i|]; [destruct (truthy i)|]; simpl; try done.
    by destruct (updateProject api i payload).
Qed.

Lemma stagedUploads_read (projectName : string) (st : State) :
  List.filter is_folder_creation (stagedUploads projectName st) = []
  /\ List.filter is_upload (stagedUploads projectName st) = stagedUploads projectName st
  /\ error_toasts (stagedUploads projectName st) = []
  /\ create_calls (stagedUploads projectName st) = []
  /\ update_calls (stagedUploads projectName st) = []
  /\ navigations (stagedUploads projectName st) = [].
Proof.
  unfold stagedUploads.
  by destruct (logoFile st), (heroImageFile st), (projectImageFiles st).
Qed.

(** The calls of a submission that the cap does not stop and whose storage
    calls are resolved: one folder creation, the staged uploads, and the one
    call the mode asks for, with the payload built from the returned URLs. *)
Lemma onSubmit_answered_calls (data : ProjectFormData) (st : State) (u : Uploads) :
  cap_reached api data = false ->
  storage_answers api (name data) st u ->
  List.filter is_folder_creation (events (onSubmit api mode id data st))
  = [ECreateProjectFolders (name data)]
  /\ upload_calls (events (onSubmit api mode id data st))
     = stagedUploads (name data) st
  /\ error_toasts (events (onSubmit api mode id data st)) = []
  /\ create_calls (events (onSubmit api mode id data st))
     = (if is_create mode then [projectData data u] else [])
  /\ update_calls (events (onSubmit api mode id data st))
     = match mode, id with
       | edit, Some i => if truthy i then [(i, projectData data u)] else []
       | _, _ => []
       end.
Proof.
  intros Hcap Hans. rewrite (onSubmit_answered data st u Hcap Hans).
  destruct (lastCalls_read (projectData data u)) as (Hl1 & Hl2 & Hl3 & Hl4 & Hl5).
  destruct (stagedUploads_read (name data) st) as (Hs1 & Hs2 & Hs3 & Hs4 & Hs5 & _).
  unfold upload_calls, error_toasts, create_calls, update_calls in *.
  rewrite !List.filter_app, !omap_app. simpl.
  rewrite !List.filter_app, !omap_app.
  rewrite Hl1, Hl2, Hl3, Hl4, Hl5, Hs1, Hs2, Hs3, Hs4, Hs5.
  destruct (featured data); simpl; by rewrite ?app_nil_r.
Qed.

(** Where a submission navigates, on the answers of the service. *)
Lemma onSubmit_navigates (data : ProjectFormData) (st : State) :
  (cap_reached api data = true ->
   navigations (events (onSubmit api mode id data st)) = [])
  /\ (storage_rejects api (name data) st ->
      navigations (events (onSubmit api mode id data st)) = [])
  /\ (forall u,
        cap_reached api data = false ->
        storage_answers api (name data) st u ->
        navigations (events (onSubmit api mode id data st))
        = navigations (lastCalls api mode id (projectData data u))).
Proof.
  assert (Hstop : cap_reached api data = true ->
                  navigations (events (onSubmit api mode id data st)) = []).
  { intros Hcap. by rewrite onSubmit_run, onSubmit_try_stopped. }
  split; [exact Hstop|]. split.
  - intros Hrej. destruct (cap_reached api data) eqn:Hcap; [by apply Hstop|].
    destruct (onSubmit_rejected data st Hcap Hrej) as (ups & -> & Hups).
    unfold navigations. rewrite !omap_app. simpl. rewrite !omap_app.
    rewrite (omap_other_kind is_upload _ ups) by (done || by intros []).
    by destruct (featured data).
  - intros u Hcap Hans. rewrite (onSubmit_answered data st u Hcap Hans).
    destruct (stagedUploads_read (name data) st) as (_ & _ & _ & _ & _ & Hs).
    unfold navigations in *. rewrite !omap_app. simpl. rewrite !omap_app, Hs.
    by destruct (featured data).
Qed.
End ProjectAnswers.

Section VideoAnswers.
Import VideoForm.
Variable api : ApiService.
Variable mode : Mode.
Variable id : option string.

(** When the storage resolves its calls, [uploadThumbnail] makes the
    calls of the staged thumbnail and returns the URL. *)
Lemma uploadThumbnail_answers (projectName playbackId : string) (st : State)
    (u : option string) :
  thumbnail_answers api projectName playbackId st u ->
  uploadThumbnail api projectName playbackId st
  = (Normal u, st, stagedThumbnail projectName playbackId st).
Proof.
  unfold thumbnail_answers, stagedThumbnail, uploadThumbnail,
    mbind, M_bind, bind, get, call, mret, M_ret, ret. simpl.
  destruct (thumbnailFile st) as [file|].
  - intros (-> & r & -> & ->). reflexivity.
  - by intros ->.
Qed.

(** When it rejects one, [uploadThumbnail] throws after the folder
    creation, or after the upload. *)
Lemma uploadThumbnail_rejects (projectName playbackId : string) (st : State) :
  thumbnail_rejects api projectName playbackId st ->
  exists ups,
    uploadThumbnail api projectName playbackId st
    = (ThrowC, st, ECreateVideoFolder projectName playbackId :: ups)
    /\ Forall (fun e => is_upload e = true) ups.
Proof.
  intros (file & Hfile & Hrej).
  unfold uploadThumbnail, mbind, M_bind, bind, get, call, mret, M_ret, ret. simpl.
  rewrite Hfile.
  destruct (createVideoFolder api projectName playbackId) as [[]|] eqn:Hfolder; simpl.
  - destruct Hrej as [Hrej|Hrej]; [congruence|]. rewrite Hrej.
    eexists. split; [reflexivity|]. by repeat constructor.
  - exists []. by split.
Qed.

(** The whole trace of a submission that the cap does not stop, whose
    project is found and whose storage calls are resolved. *)
Lemma video_onSubmit_answered (data : VideoFormData) (st : State) (p : Project.t)
    (u : option string) :
  cap_reached api data = false ->
  selectedProject data st = Some p ->
  thumbnail_answers api (Project.name p) (playbackId data) st u ->
  events (onSubmit api mode id data st)
  = (if featured data then [EGetFeaturedCounts] else [])
    ++ stagedThumbnail (Project.name p) (playbackId data) st
    ++ lastCalls api mode id (videoData data u).
Proof.
  intros Hcap Hp Hans.
  rewrite video_onSubmit_run, video_onSubmit_try_proceeds by done.
  rewrite (saveVideo_reaches api mode id data (setLoading true st) p u _ Hp
             (uploadThumbnail_answers _ _ (setLoading true st) u Hans)).
  unfold lastCalls, createOrUpdate, mbind, M_bind, bind, call, emit, mret, M_ret, ret,
    completion, events.
  change (stagedThumbnail (Project.name p) (playbackId data) (setLoading true st))
    with (stagedThumbnail (Project.name p) (playbackId data) st).
  destruct mode; simpl.
  - destruct (createVideo api _) as [[]|]; simpl;
      rewrite ?app_nil_r, <- ?app_assoc; simpl; by rewrite <- ?app_assoc.
  - destruct id as [i|]; [destruct (truthy i)|]; simpl;
      [destruct (updateVideo api i _) as [[]|]; simpl|..];
      rewrite ?app_nil_r, <- ?app_assoc; simpl; by rewrite <- ?app_assoc.
Qed.

(** When the storage rejects a call, the submission ends in the [catch]
    block after the folder creation or the upload. *)
Lemma video_onSubmit_rejected (data : VideoFormData) (st : State) (p : Project.t) :
  cap_reached api data = false ->
  selectedProject data st = Some p ->
  thumbnail_rejects api (Project.name p) (playbackId data) st ->
  exists ups,
    events (onSubmit api mode id data st)
    = (if featured data then [EGetFeaturedCounts] else [])
      ++ ECreateVideoFolder (Project.name p) (playbackId data) :: ups
      ++ [EConsoleError "Failed to save video:"]
    /\ Forall (fun e => is_upload e = true) ups.
Proof.
  intros Hcap Hp Hrej.
  destruct (uploadThumbnail_rejects (Project.name p) (playbackId data)
              (setLoading true st) Hrej) as (ups & Hrun & Hups).
  exists ups. split; [|done].
  rewrite video_onSubmit_run, video_onSubmit_try_proceeds by done.
  assert (Hsave : saveVideo api mode id data (setLoading true st)
                  = (ThrowC, setLoading true st,
                     ECreateVideoFolder (Project.name p) (playbackId data) :: ups)).
  { unfold saveVideo, findSelectedProject, mbind, M_bind.
    unfold bind at 1 2. unfold get. simpl.
    unfold selectedProject in Hp. rewrite Hp.
    unfold mret, M_ret, ret. simpl. unfold bind at 1. by rewrite Hrun. }
  rewrite Hsave. unfold completion, events. simpl. by rewrite <- app_assoc.
Qed.

(** With a thumbnail staged and the project found, a submission that the
    cap does not stop goes on to the folder creation. *)
Lemma video_onSubmit_starts (data : VideoFormData) (st : State) (p : Project.t)
    (file : File) :
  cap_reached api data = false ->
  selectedProject data st = Some p ->
  thumbnailFile st = Some file ->
  exists rest,
    events (onSubmit api mode id data st)
    = (if featured data then [EGetFeaturedCounts] else [])
      ++ ECreateVideoFolder (Project.name p) (playbackId data) :: rest.
Proof.
  intros Hcap Hp Hfile.
  destruct (createVideoFolder api (Project.name p) (playbackId data)) as [[]|] eqn:Hfolder;
    [destruct (uploadVideoThumbnail api file (Project.name p) (playbackId data))
       as [r|] eqn:Hupload|].
  - assert (Hans : thumbnail_answers api (Project.name p) (playbackId data) st
                     (Some (url r))).
    { unfold thumbnail_answers. rewrite Hfile. split; [done|]. by exists r. }
    rewrite (video_onSubmit_answered data st p _ Hcap Hp Hans).
    unfold stagedThumbnail. rewrite Hfile. by eexists.
  - assert (Hrej : thumbnail_rejects api (Project.name p) (playbackId data) st)
      by (exists file; split; [done|by right]).
    destruct (video_onSubmit_rejected data st p Hcap Hp Hrej) as (ups & -> & _).
    by eexists.
  - assert (Hrej : thumbnail_rejects api (Project.name p) (playbackId data) st)
      by (exists file; split; [done|by left]).
    destruct (video_onSubmit_rejected data st p Hcap Hp Hrej) as (ups & -> & _).
    by eexists.
Qed.

(** What the calls after the thumbnail hold. *)
Lemma video_lastCalls_read (payload : VideoFormData) :
  storage_calls (lastCalls api mode id payload) = []
  /\ error_toasts (lastCalls api mode id payload) = []
  /\ create_calls (lastCalls api mode id payload)
     = (if is_create mode then [payload] else [])
  /\ update_calls (lastCalls api mode id payload)
     = match mode, id with
       | edit, Some i => if truthy i then [(i, payload)] else []
       | _, _ => []
       end.
Proof.
  unfold lastCalls. destruct mode; simpl.
  - by destruct (createVideo api payload).
  - destruct id as [i|]; [destruct (truthy i)|]; simpl; try done.
    by destruct (updateVideo api i payload).
Qed.

Lemma stagedThumbnail_read (projectName playbackId : string) (st : State) :
  storage_calls (stagedThumbnail projectName playbackId st)
  = stagedThumbnail projectName playbackId st
  /\ error_toasts (stagedThumbnail projectName playbackId st) = []
  /\ create_calls (stagedThumbnail projectName playbackId st) = []
  /\ update_calls (stagedThumbnail projectName playbackId st) = []
  /\ navigations (stagedThumbnail projectName playbackId st) = [].
Proof. unfold stagedThumbnail. by destruct (thumbnailFile st). Qed.

(** The calls of a submission that the cap does not stop, whose project
    is found and whose storage calls are resolved: those of the staged
    thumbnail, and the one call the mode asks for, with the payload built
    from the returned URL. *)
Lemma video_onSubmit_answered_calls (data : VideoFormData) (st : State)
    (p : Project.t) (u : option string) :
  cap_reached api data = false ->
  selectedProject data st = Some p ->
  thumbnail_answers api (Project.name p) (playbackId data) st u ->
  storage_calls (events (onSubmit api mode id data st))
  = stagedThumbnail (Project.name p) (playbackId data) st
  /\ error_toasts (events (onSubmit api mode id data st)) = []
  /\ create_calls (events (onSubmit api mode id data st))
     = (if is_create mode then [videoData data u] else [])
  /\ update_calls (events (onSubmit api mode id data st))
     = match mode, id with
       | edit, Some i => if truthy i then [(i, videoData data u)] else []
       | _, _ => []
       end.
Proof.
  intros Hcap Hp Hans. rewrite (video_onSubmit_answered data st p u Hcap Hp Hans).
  destruct (video_lastCalls_read (videoData data u)) as (Hl1 & Hl2 & Hl3 & Hl4).
  destruct (stagedThumbnail_read (Project.name p) (playbackId data) st)
    as (Hs1 & Hs2 & Hs3 & Hs4 & _).
  unfold storage_calls, error_toasts, create_calls, update_calls in *.
  rewrite !List.filter_app, !omap_app.
  rewrite Hl1, Hl2, Hl3, Hl4, Hs1, Hs2, Hs3, Hs4.
  destruct (featured data); simpl; by rewrite ?app_nil_r.
Qed.

(** Where a submission navigates, on the answers of the service. *)
Lemma video_onSubmit_navigates (data : VideoFormData) (st : State) :
  (cap_reached api data = true ->
   navigations (events (onSubmit api mode id data st)) = [])
  /\ (selectedProject data st = None ->
      navigations (events (onSubmit api mode id data st)) = [])
  /\ (forall p,
        selectedProject data st = Some p ->
        thumbnail_rejects api (Project.name p) (playbackId data) st ->
        navigations (events (onSubmit api mode id data st)) = [])
  /\ (forall p u,
        cap_reached api data = false ->
        selectedProject data st = Some p ->
        thumbnail_answers api (Project.name p) (playbackId data) st u ->
        navigations (events (onSubmit api mode id data st))
        = navigations (lastCalls api mode id (videoData data u))).
Proof.
  assert (Hstop : cap_reached api data = true ->
                  navigations (events (onSubmit api mode id data st)) = []).
  { intros Hcap. by rewrite video_onSubmit_run, video_onSubmit_try_stopped. }
  split; [exact Hstop|]. split; [|split].
  - intros Hnone. rewrite (video_not_found_calls api mode id data st Hnone).
    destruct (cap_reached api data); [done|]. by destruct (featured data).
  - intros p Hp Hrej. destruct (cap_reached api data) eqn:Hcap; [by apply Hstop|].
    destruct (video_onSubmit_rejected data st p Hcap Hp Hrej) as (ups & -> & Hups).
    unfold navigations. rewrite !omap_app. simpl. rewrite !omap_app.
    rewrite (omap_other_kind is_upload _ ups) by (done || by intros []).
    by destruct (featured data).
  - intros p u Hcap Hp Hans. rewrite (video_onSubmit_answered data st p u Hcap Hp Hans).
    destruct (stagedThumbnail_read (Project.name p) (playbackId data) st)
      as (_ & _ & _ & _ & Hs).
    unfold navigations in *. rewrite !omap_app, Hs.
    by destruct (featured data).
Qed.
End VideoAnswers.

(** ** Submitting, on the answers of the service *)

(** C4: for a featured draft, when the count query succeeds with 3 or more
    featured entities of the form's kind, [onSubmit] makes no call after the
    query but the error toast (no folder creation, no upload, no create or
    update) and returns.  When it reports fewer than 3, the submission
    proceeds.  The project form goes on with the folder creation and, once
    the storage resolves its calls, uploads the staged files and issues the
    create or update call of the mode with the payload built from the
    returned URLs.  The video form, its project found, goes on with the
    folder creation of a staged thumbnail and, once the storage resolves its
    calls, issues the create or update call of the mode with the payload
    built from the returned URL. *)
Theorem C4_featured_cap :
  (forall api mode id data st counts,
     ProjectForm.featured data = true ->
     ProjectForm.getFeaturedCounts api = Some counts ->
     ((3 <= projects counts)%Z ->
      ProjectForm.onSubmit api mode id data st
      = (Normal tt, ProjectForm.setLoading false st,
         [ProjectForm.EGetFeaturedCounts;
          ProjectForm.EToastError ProjectForm.featuredCapMessage]))
     /\ ((projects counts < 3)%Z ->
         ProjectForm.onSubmit api mode id data st
         = (Normal tt, final (ProjectForm.onSubmit_unchecked api mode id data st),
            ProjectForm.EGetFeaturedCounts
            :: events (ProjectForm.onSubmit_unchecked api mode id data st))
         /\ (exists rest,
               events (ProjectForm.onSubmit api mode id data st)
               = ProjectForm.EGetFeaturedCounts
                 :: ProjectForm.ECreateProjectFolders (ProjectForm.name data) :: rest)
         /\ (forall u,
               ProjectForm.storage_answers api (ProjectForm.name data) st u ->
               ProjectForm.upload_calls (events (ProjectForm.onSubmit api mode id data st))
               = ProjectForm.stagedUploads (ProjectForm.name data) st
               /\ ProjectForm.create_calls
                    (events (ProjectForm.onSubmit api mode id data st))
                  = (if is_create mode then [ProjectForm.projectData data u] else [])
               /\ ProjectForm.update_calls
                    (events (ProjectForm.onSubmit api mode id data st))
                  = match mode, id with
                    | edit, Some i =>
                        if truthy i then [(i, ProjectForm.projectData data u)] else []
                    | _, _ => []
                    end)))
  /\ (forall api mode id data st counts,
        VideoForm.featured data = true ->
        VideoForm.getFeaturedCounts api = Some counts ->
        ((3 <= videos counts)%Z ->
         VideoForm.onSubmit api mode id data st
         = (Normal tt, VideoForm.setLoading false st,
            [VideoForm.EGetFeaturedCounts;
             VideoForm.EToastError VideoForm.featuredCapMessage]))
        /\ ((videos counts < 3)%Z ->
            VideoForm.onSubmit api mode id data st
            = (Normal tt, final (VideoForm.onSubmit_unchecked api mode id data st),
               VideoForm.EGetFeaturedCounts
               :: events (VideoForm.onSubmit_unchecked api mode id data st))
            /\ (forall p file,
                  VideoForm.selectedProject data st = Some p ->
                  VideoForm.thumbnailFile st = Some file ->
                  exists rest,
                    events (VideoForm.onSubmit api mode id data st)
                    = VideoForm.EGetFeaturedCounts
                      :: VideoForm.ECreateVideoFolder (Project.name p)
                           (VideoForm.playbackId data)
                      :: rest)
            /\ (forall p u,
                  VideoForm.selectedProject data st = Some p ->
                  VideoForm.thumbnail_answers api (Project.name p)
                    (VideoForm.playbackId data) st u ->
                  VideoForm.storage_calls
                    (events (VideoForm.onSubmit api mode id data st))
                  = VideoForm.stagedThumbnail (Project.name p)
                      (VideoForm.playbackId data) st
                  /\ VideoForm.create_calls
                       (events (VideoForm.onSubmit api mode id data st))
                     = (if is_create mode then [VideoForm.videoData data u] else [])
                  /\ VideoForm.update_calls
                       (events (VideoForm.onSubmit api mode id data st))
                     = match mode, id with
                       | edit, Some i =>
                           if truthy i then [(i, VideoForm.videoData data u)] else []
                       | _, _ => []
                       end))).
Proof.
  split; intros api mode id data st counts Hfeat Hcounts; split; intros Hcap.
  - assert (Hstop : ProjectForm.cap_reached api data = true).
    { unfold ProjectForm.cap_reached. rewrite Hfeat, Hcounts. simpl. lia. }
    rewrite onSubmit_run, onSubmit_try_stopped by done. reflexivity.
  - assert (Hgo : ProjectForm.cap_reached api data = false).
    { unfold ProjectForm.cap_reached. rewrite Hfeat, Hcounts. simpl. lia. }
    split; [|split].
    + rewrite onSubmit_proceeds by done. by rewrite Hfeat.
    + destruct (onSubmit_shape api mode id data st Hgo)
        as (c & ups & tail & _ & Hev & _).
      rewrite Hev, Hfeat. by eexists.
    + intros u Hans.
      by destruct (onSubmit_answered_calls api mode id data st u Hgo Hans)
        as (_ & Hup & _ & Hcreate & Hupdate).
  - assert (Hstop : VideoForm.cap_reached api data = true).
    { unfold VideoForm.cap_reached. rewrite Hfeat, Hcounts. simpl. lia. }
    rewrite video_onSubmit_run, video_onSubmit_try_stopped by done. reflexivity.
  - assert (Hgo : VideoForm.cap_reached api data = false).
    { unfold VideoForm.cap_reached. rewrite Hfeat, Hcounts. simpl. lia. }
    split; [|split].
    + rewrite video_onSubmit_proceeds by done. by rewrite Hfeat.
    + intros p file Hp Hfile.
      destruct (video_onSubmit_starts api mode id data st p file Hgo Hp Hfile)
        as (rest & Hev).
      rewrite Hev, Hfeat. by eexists.
    + intros p u Hp Hans.
      by destruct (video_onSubmit_answered_calls api mode id data st p u Hgo Hp Hans)
        as (Hst & _ & Hcreate & Hupdate).
Qed.

(** C9: for a featured draft, when the count query itself fails, [onSubmit]
    swallows the failure: no error toast is shown and the submission runs as
    it does when the query reports a count below the cap.  The project form
    goes on with the folder creation and, once the storage resolves its
    calls, uploads the staged files and issues the create or update call of
    the mode; the video form, its project found, goes on with the folder
    creation of a staged thumbnail and, once the storage resolves its calls,
    issues the create or update call of the mode. *)
Theorem C9_count_failure_swallowed :
  (forall api mode id data st counts,
     ProjectForm.featured data = true ->
     ProjectForm.getFeaturedCounts api = None ->
     (projects counts < 3)%Z ->
     ProjectForm.onSubmit api mode id data st
     = ProjectForm.onSubmit (ProjectForm.withFeaturedCounts (Some counts) api)
         mode id data st
     /\ events (ProjectForm.onSubmit api mode id data st)
        = ProjectForm.EGetFeaturedCounts
          :: events (ProjectForm.onSubmit_unchecked api mode id data st)
     /\ ProjectForm.error_toasts (events (ProjectForm.onSubmit api mode id data st)) = []
     /\ (exists rest,
           events (ProjectForm.onSubmit api mode id data st)
           = ProjectForm.EGetFeaturedCounts
             :: ProjectForm.ECreateProjectFolders (ProjectForm.name data) :: rest)
     /\ (forall u,
           ProjectForm.storage_answers api (ProjectForm.name data) st u ->
           ProjectForm.upload_calls (events (ProjectForm.onSubmit api mode id data st))
           = ProjectForm.stagedUploads (ProjectForm.name data) st
           /\ ProjectForm.create_calls
                (events (ProjectForm.onSubmit api mode id data st))
              = (if is_create mode then [ProjectForm.projectData data u] else [])
           /\ ProjectForm.update_calls
                (events (ProjectForm.onSubmit api mode id data st))
              = match mode, id with
                | edit, Some i =>
                    if truthy i then [(i, ProjectForm.projectData data u)] else []
                | _, _ => []
                end))
  /\ (forall api mode id data st counts,
        VideoForm.featured data = true ->
        VideoForm.getFeaturedCounts api = None ->
        (videos counts < 3)%Z ->
        VideoForm.onSubmit api mode id data st
        = VideoForm.onSubmit (VideoForm.withFeaturedCounts (Some counts) api)
            mode id data st
        /\ events (VideoForm.onSubmit api mode id data st)
           = VideoForm.EGetFeaturedCounts
             :: events (VideoForm.onSubmit_unchecked api mode id data st)
        /\ VideoForm.error_toasts (events (VideoForm.onSubmit api mode id data st)) = []
        /\ (forall p file,
              VideoForm.selectedProject data st = Some p ->
              VideoForm.thumbnailFile st = Some file ->
              exists rest,
                events (VideoForm.onSubmit api mode id data st)
                = VideoForm.EGetFeaturedCounts
                  :: VideoForm.ECreateVideoFolder (Project.name p)
                       (VideoForm.playbackId data)
                  :: rest)
        /\ (forall p u,
              VideoForm.selectedProject data st = Some p ->
              VideoForm.thumbnail_answers api (Project.name p)
                (VideoForm.playbackId data) st u ->
              VideoForm.storage_calls (events (VideoForm.onSubmit api mode id data st))
              = VideoForm.stagedThumbnail (Project.name p) (VideoForm.playbackId data) st
              /\ VideoForm.create_calls
                   (events (VideoForm.onSubmit api mode id data st))
                 = (if is_create mode then [VideoForm.videoData data u] else [])
              /\ VideoForm.update_calls
                   (events (VideoForm.onSubmit api mode id data st))
                 = match mode, id with
                   | edit, Some i =>
                       if truthy i then [(i, VideoForm.videoData data u)] else []
                   | _, _ => []
                   end)).
Proof.
  split; intros api mode id data st counts Hfeat Hnone Hbelow.
  - assert (Hgo : ProjectForm.cap_reached api data = false).
    { unfold ProjectForm.cap_reached. by rewrite Hfeat, Hnone. }
    assert (Hgo' : ProjectForm.cap_reached
                     (ProjectForm.withFeaturedCounts (Some counts) api) data = false).
    { unfold ProjectForm.cap_reached. rewrite Hfeat. simpl. lia. }
    split; [|split; [|split; [|split]]].
    + rewrite !onSubmit_proceeds by done. by rewrite Hfeat.
    + rewrite !onSubmit_proceeds by done. by rewrite Hfeat.
    + destruct (project_messages api mode id data st) as (-> & _). by rewrite Hgo.
    + destruct (onSubmit_shape api mode id data st Hgo)
        as (c & ups & tail & _ & Hev & _).
      rewrite Hev, Hfeat. by eexists.
    + intros u Hans.
      by destruct (onSubmit_answered_calls api mode id data st u Hgo Hans)
        as (_ & Hup & _ & Hcreate & Hupdate).
  - assert (Hgo : VideoForm.cap_reached api data = false).
    { unfold VideoForm.cap_reached. by rewrite Hfeat, Hnone. }
    assert (Hgo' : VideoForm.cap_reached
                     (VideoForm.withFeaturedCounts (Some counts) api) data = false).
    { unfold VideoForm.cap_reached. rewrite Hfeat. simpl. lia. }
    split; [|split; [|split; [|split]]].
    + rewrite !video_onSubmit_proceeds by done. by rewrite Hfeat.
    + rewrite !video_onSubmit_proceeds by done. by rewrite Hfeat.
    + destruct (video_messages api mode id data st) as (-> & _). by rewrite Hgo.
    + intros p file Hp Hfile.
      destruct (video_onSubmit_starts api mode id data st p file Hgo Hp Hfile)
        as (rest & Hev).
      rewrite Hev, Hfeat. by eexists.
    + intros p u Hp Hans.
      by destruct (video_onSubmit_answered_calls api mode id data st p u Hgo Hp Hans)
        as (Hst & _ & Hcreate & Hupdate).
Qed.

(** C7: in edit mode, with the identity of the entity at hand, a
    submission issues no create call and at most one update call, which
    carries that identity; it issues exactly one as soon as it reaches the
    call, that is when the cap does not stop it and the uploads complete.  In
    create mode it issues no update call and at most one create call, exactly
    one as soon as it reaches the call.  In either mode the form navigates to
    the collection view exactly when the [try] block completes normally.  On
    the answers of the service: there is no navigation when the cap stops the
    submission, when the storage rejects the folder creation or an upload
    (in the video form also when the project is not found), or when the
    create or update call is rejected; once the storage resolves its calls,
    the form navigates to the collection view exactly when the create or
    update call is resolved.  This holds for the project form and for the
    video form. *)
Theorem C7_create_or_update :
  (forall api id data st,
     (forall i, id = Some i -> truthy i = true ->
        ProjectForm.create_calls (events (ProjectForm.onSubmit api edit id data st)) = []
        /\ (ProjectForm.update_calls (events (ProjectForm.onSubmit api edit id data st)) = []
            \/ exists u,
                ProjectForm.update_calls (events (ProjectForm.onSubmit api edit id data st))
                = [(i, ProjectForm.projectData data u)])
        /\ (forall u,
              ProjectForm.cap_reached api data = false ->
              completion (ProjectForm.uploadFiles api (ProjectForm.name data)
                            (ProjectForm.setLoading true st)) = Normal u ->
              ProjectForm.update_calls (events (ProjectForm.onSubmit api edit id data st))
              = [(i, ProjectForm.projectData data u)]))
     /\ (ProjectForm.update_calls (events (ProjectForm.onSubmit api create id data st)) = []
         /\ (ProjectForm.create_calls (events (ProjectForm.onSubmit api create id data st))
             = []
             \/ exists u,
                 ProjectForm.create_calls
                   (events (ProjectForm.onSubmit api create id data st))
                 = [ProjectForm.projectData data u])
         /\ (forall u,
               ProjectForm.cap_reached api data = false ->
               completion (ProjectForm.uploadFiles api (ProjectForm.name data)
                             (ProjectForm.setLoading true st)) = Normal u ->
               ProjectForm.create_calls
                 (events (ProjectForm.onSubmit api create id data st))
               = [ProjectForm.projectData data u]))
     /\ (forall mode,
           ProjectForm.navigations (events (ProjectForm.onSubmit api mode id data st))
           = if completion (ProjectForm.onSubmit_try api mode id data st) is Normal _
             then ["/projects"] else [])
     /\ (forall mode,
           ProjectForm.cap_reached api data = true ->
           ProjectForm.navigations (events (ProjectForm.onSubmit api mode id data st))
           = [])
     /\ (forall mode,
           ProjectForm.storage_rejects api (ProjectForm.name data) st ->
           ProjectForm.navigations (events (ProjectForm.onSubmit api mode id data st))
           = [])
     /\ (forall u,
           ProjectForm.cap_reached api data = false ->
           ProjectForm.storage_answers api (ProjectForm.name data) st u ->
           ProjectForm.navigations
             (events (ProjectForm.onSubmit api create id data st))
           = (if ProjectForm.createProject api (ProjectForm.projectData data u) is Some _
              then ["/projects"] else [])
           /\ forall i, id = Some i -> truthy i = true ->
                ProjectForm.navigations
                  (events (ProjectForm.onSubmit api edit id data st))
                = (if ProjectForm.updateProject api i (ProjectForm.projectData data u)
                      is Some _
                   then ["/projects"] else [])))
  /\ (forall api id data st,
        (forall i, id = Some i -> truthy i = true ->
           VideoForm.create_calls (events (VideoForm.onSubmit api edit id data st)) = []
           /\ (VideoForm.update_calls (events (VideoForm.onSubmit api edit id data st)) = []
               \/ exists u,
                   VideoForm.update_calls (events (VideoForm.onSubmit api edit id data st))
                   = [(i, VideoForm.videoData data u)])
           /\ (forall p u,
                 VideoForm.cap_reached api data = false ->
                 VideoForm.selectedProject data st = Some p ->
                 completion (VideoForm.uploadThumbnail api (Project.name p)
                               (VideoForm.playbackId data)
                               (VideoForm.setLoading true st)) = Normal u ->
                 VideoForm.update_calls (events (VideoForm.onSubmit api edit id data st))
                 = [(i, VideoForm.videoData data u)]))
        /\ (VideoForm.update_calls (events (VideoForm.onSubmit api create id data st)) = []
            /\ (VideoForm.create_calls (events (VideoForm.onSubmit api create id data st))
                = []
                \/ exists u,
                    VideoForm.create_calls
                      (events (VideoForm.onSubmit api create id data st))
                    = [VideoForm.videoData data u])
            /\ (forall p u,
                  VideoForm.cap_reached api data = false ->
                  VideoForm.selectedProject data st = Some p ->
                  completion (VideoForm.uploadThumbnail api (Project.name p)
                                (VideoForm.playbackId data)
                                (VideoForm.setLoading true st)) = Normal u ->
                  VideoForm.create_calls
                    (events (VideoForm.onSubmit api create id data st))
                  = [VideoForm.videoData data u]))
        /\ (forall mode,
              VideoForm.navigations (events (VideoForm.onSubmit api mode id data st))
              = if completion (VideoForm.onSubmit_try api mode id data st) is Normal _
                then ["/videos"] else [])
        /\ (forall mode,
              VideoForm.cap_reached api data = true ->
              VideoForm.navigations (events (VideoForm.onSubmit api mode id data st))
              = [])
        /\ (forall mode,
              VideoForm.selectedProject data st = None ->
              VideoForm.navigations (events (VideoForm.onSubmit api mode id data st))
              = [])
        /\ (forall mode p,
              VideoForm.selectedProject data st = Some p ->
              VideoForm.thumbnail_rejects api (Project.name p)
                (VideoForm.playbackId data) st ->
              VideoForm.navigations (events (VideoForm.onSubmit api mode id data st))
              = [])
        /\ (forall p u,
              VideoForm.cap_reached api data = false ->
              VideoForm.selectedProject data st = Some p ->
              VideoForm.thumbnail_answers api (Project.name p)
                (VideoForm.playbackId data) st u ->
              VideoForm.navigations
                (events (VideoForm.onSubmit api create id data st))
              = (if VideoForm.createVideo api (VideoForm.videoData data u) is Some _
                 then ["/videos"] else [])
              /\ forall i, id = Some i -> truthy i = true ->
                   VideoForm.navigations
                     (events (VideoForm.onSubmit api edit id data st))
                   = (if VideoForm.updateVideo api i (VideoForm.videoData data u)
                         is Some _
                      then ["/videos"] else []))).
Proof.
  split; intros api id data st.
  - split; [|split; [|split; [|split; [|split]]]].
    + intros i -> Hi.
      destruct (onSubmit_calls api edit (Some i) data st) as [_ [Hcreate Hupdate]].
      rewrite Hi in Hupdate. destruct Hupdate as [Hmost _].
      repeat split; try done.
      intros u Hcap Hu.
      destruct (onSubmit_reaches_call api edit (Some i) data st u Hcap Hu) as [_ ->].
      by rewrite Hi.
    + destruct (onSubmit_calls api create id data st) as [_ (Hupdate & Hmost & _)].
      repeat split; try done.
      intros u Hcap Hu.
      by destruct (onSubmit_reaches_call api create id data st u Hcap Hu) as [-> _].
    + intros mode. by destruct (onSubmit_calls api mode id data st) as [Hnav _].
    + intros mode. apply (onSubmit_navigates api mode id data st).
    + intros mode. apply (onSubmit_navigates api mode id data st).
    + intros u Hcap Hans. split.
      * rewrite (proj2 (proj2 (onSubmit_navigates api create id data st)) u Hcap Hans).
        unfold ProjectForm.lastCalls. simpl.
        by destruct (ProjectForm.createProject api _).
      * intros i -> Hi.
        rewrite (proj2 (proj2 (onSubmit_navigates api edit (Some i) data st))
                   u Hcap Hans).
        unfold ProjectForm.lastCalls. rewrite Hi. simpl.
        by destruct (ProjectForm.updateProject api i _).
  - split; [|split; [|split; [|split; [|split; [|split]]]]].
    + intros i -> Hi.
      destruct (video_onSubmit_calls api edit (Some i) data st) as [_ [Hcreate Hupdate]].
      rewrite Hi in Hupdate. destruct Hupdate as [Hmost _].
      repeat split; try done.
      intros p u Hcap Hp Hu.
      destruct (video_onSubmit_reaches_call api edit (Some i) data st p u Hcap Hp Hu)
        as [_ ->].
      by rewrite Hi.
    + destruct (video_onSubmit_calls api create id data st) as [_ (Hupdate & Hmost & _)].
      repeat split; try done.
      intros p u Hcap Hp Hu.
      by destruct (video_onSubmit_reaches_call api create id data st p u Hcap Hp Hu)
        as [-> _].
    + intros mode. by destruct (video_onSubmit_calls api mode id data st) as [Hnav _].
    + intros mode. apply (video_onSubmit_navigates api mode id data st).
    + intros mode. apply (video_onSubmit_navigates api mode id data st).
    + intros mode. apply (video_onSubmit_navigates api mode id data st).
    + intros p u Hcap Hp Hans. split.
      * rewrite (proj2 (proj2 (proj2 (video_onSubmit_navigates api create id data st)))
                   p u Hcap Hp Hans).
        unfold VideoForm.lastCalls. simpl.
        by destruct (VideoForm.createVideo api _).
      * intros i -> Hi.
        rewrite (proj2 (proj2 (proj2 (video_onSubmit_navigates api edit (Some i)
                                        data st))) p u Hcap Hp Hans).
        unfold VideoForm.lastCalls. rewrite Hi. simpl.
        by destruct (VideoForm.updateVideo api i _).
Qed.

(** ** Loading a project for edit *)

(** C10: [fetchProject] computes, for each governing flag, the disjunction
    of the stored flag and the non-emptiness of the paired URL, and hands it
    to [setValue].  The three selects are registered with [setValueAs], which
    turns every boolean into [false]: after a project is fetched the three
    flags of the draft are [false], whatever is stored, while the three URL
    fields hold the stored URLs. *)
Theorem C10_loaded_flags_are_false api i p st :
  truthy i = true ->
  ProjectForm.getProject api i = Some p ->
  ProjectForm.isHiring
    (ProjectForm.values (final (ProjectForm.fetchProject api (Some i) st))) = false
  /\ ProjectForm.isOpenForBounty
       (ProjectForm.values (final (ProjectForm.fetchProject api (Some i) st))) = false
  /\ ProjectForm.isOpenSource
       (ProjectForm.values (final (ProjectForm.fetchProject api (Some i) st))) = false
  /\ ProjectForm.careerPageUrl
       (ProjectForm.values (final (ProjectForm.fetchProject api (Some i) st)))
     = Some (or_empty (Project.careerPageUrl p))
  /\ ProjectForm.bountySubmissionUrl
       (ProjectForm.values (final (ProjectForm.fetchProject api (Some i) st)))
     = Some (or_empty (Project.bountySubmissionUrl p))
  /\ ProjectForm.githubUrl
       (ProjectForm.values (final (ProjectForm.fetchProject api (Some i) st)))
     = Some (or_empty (Project.githubUrl p)).
Proof. intros Hi Hp. by rewrite (fetchProject_values api i p st Hi Hp). Qed.

Section SaveAfterLoad.
Import ProjectForm.

(** X15: saving a project just loaded for edit.  The payload built from
    the loaded fields has the stored name, tagline, description, categories,
    featured flag and status, and its social links are the stored links of
    the five platforms that are non-empty.  The three flags, which reached
    the form through [setValueAs], are sent [false] and the three
    conditional URLs are left out, whatever is stored.  Once the cap does
    not stop it and the storage resolves its calls, the submission issues
    one update call, with the identity of the route and this payload. *)
Theorem X15_load_then_save (api : ApiService) (i : string) (p : Project.t)
    (st : State) (u : Uploads) :
  truthy i = true ->
  getProject api i = Some p ->
  (pd_name (reloadedPayload api i st u) = Project.name p
   /\ pd_tagline (reloadedPayload api i st u) = Project.tagline p
   /\ pd_description (reloadedPayload api i st u) = Project.description p
   /\ pd_categories (reloadedPayload api i st u) = Project.categories p
   /\ pd_featured (reloadedPayload api i st u) = Project.featured p
   /\ pd_status (reloadedPayload api i st u) = Project.status p)
  /\ (pd_isHiring (reloadedPayload api i st u) = false
      /\ pd_careerPageUrl (reloadedPayload api i st u) = None
      /\ pd_isOpenForBounty (reloadedPayload api i st u) = false
      /\ pd_bountySubmissionUrl (reloadedPayload api i st u) = None
      /\ pd_isOpenSource (reloadedPayload api i st u) = false
      /\ pd_githubUrl (reloadedPayload api i st u) = None)
  /\ (forall k v,
        (k, v) ∈ pd_socialLinks (reloadedPayload api i st u)
        <-> v <> ""
            /\ exists platform,
                 k = platform_key platform /\ stored_link platform p = Some v)
  /\ (cap_reached api (values (final (fetchProject api (Some i) st))) = false ->
      storage_answers api (Project.name p) (final (fetchProject api (Some i) st)) u ->
      update_calls
        (events (onSubmit api edit (Some i)
                   (values (final (fetchProject api (Some i) st)))
                   (final (fetchProject api (Some i) st))))
      = [(i, reloadedPayload api i st u)]).
Proof.
  intros Hi Hp.
  assert (Hsent :
    cap_reached api (values (final (fetchProject api (Some i) st))) = false ->
    storage_answers api (Project.name p) (final (fetchProject api (Some i) st)) u ->
    update_calls
      (events (onSubmit api edit (Some i)
                 (values (final (fetchProject api (Some i) st)))
                 (final (fetchProject api (Some i) st))))
    = [(i, reloadedPayload api i st u)]).
  { intros Hcap Hans.
    assert (Hname : name (values (final (fetchProject api (Some i) st)))
                    = Project.name p)
      by (by rewrite (fetchProject_values api i p st Hi Hp)).
    rewrite <- Hname in Hans.
    destruct (onSubmit_answered_calls api edit (Some i) _ _ u Hcap Hans)
      as (_ & _ & _ & _ & ->).
    by rewrite Hi. }
  revert Hsent. unfold reloadedPayload.
  rewrite (fetchProject_values api i p st Hi Hp). intros Hsent.
  split; [done|]. split; [done|]. split; [|exact Hsent].
  unfold projectData. simpl.
  intros k v. split.
  - intros Hin. apply keptSocialLinks_elem in Hin
      as (platform & -> & Hinc & Hlink & Hne). simpl in Hinc, Hlink.
    destruct (loaded_link platform (Project.socialLinks p)) as [Hi' Hl'].
    rewrite Hl' in Hlink. injection Hlink as Hlink.
    split; [done|]. exists platform. split; [done|]. unfold stored_link.
    destruct (Project.socialLinks p ≫= _) as [s|] eqn:Hs; simpl in Hlink.
    + destruct (truthy s); [by subst|]. by subst.
    + by subst.
  - intros (Hne & platform & -> & Hstored).
    apply keptSocialLinks_elem. exists platform. simpl.
    destruct (loaded_link platform (Project.socialLinks p)) as [-> ->].
    unfold stored_link in Hstored. rewrite Hstored.
    split; [done|]. simpl. by destruct v.
Qed.
End SaveAfterLoad.

Section UploadFailure.
Import ProjectForm.

(** X8: when the storage rejects a call of the project form (the folder
    creation, or the upload of the staged logo, of the staged hero image or
    of the staged gallery), the submission stops there: no create call, no
    update call, no navigation and no success toast; the error is logged to
    the console. *)
Theorem X8_upload_failure_stops_submission api mode id (data : ProjectFormData)
    (st : State) :
  cap_reached api data = false ->
  storage_rejects api (name data) st ->
  create_calls (events (onSubmit api mode id data st)) = []
  /\ update_calls (events (onSubmit api mode id data st)) = []
  /\ navigations (events (onSubmit api mode id data st)) = []
  /\ success_toasts (events (onSubmit api mode id data st)) = []
  /\ console_errors (events (onSubmit api mode id data st))
     = ["Failed to save project:"].
Proof.
  intros Hcap Hrej.
  destruct (onSubmit_rejected api mode id data st Hcap Hrej) as (ups & -> & Hups).
  unfold create_calls, update_calls, navigations, success_toasts, console_errors.
  rewrite !omap_app. simpl. rewrite !omap_app. simpl.
  rewrite !(omap_other_kind is_upload _ ups) by (done || by intros []).
  by destruct (featured data).
Qed.
End UploadFailure.

(** ** The properties above on concrete forms *)

Section OnConcreteForms.
Import Samples.

(** A gallery whose previews follow its files still does once its first
    image is removed. *)
Lemma X2_previews_follow_files_witness :
  ProjectForm.previews_follow dataUrlOf (fullyStaged scenarioDraft)
  /\ ProjectForm.previews_follow dataUrlOf
       (ProjectForm.removeProjectImage 0 (fullyStaged scenarioDraft)).
Proof.
  split; [reflexivity|].
  apply (proj1 (X2_previews_follow_files dataUrlOf (fullyStaged scenarioDraft) eq_refl) 0).
Defined.

(** Two images are stored, two files are staged; removing the first
    preview, that of a stored image, takes the first staged file out. *)
Lemma X3_removal_by_position_witness :
  ProjectForm.projectImagePreviews
    (ProjectForm.removeProjectImage 0
       (fold_left (fun s f => ProjectForm.projectImage_onload (dataUrlOf f) s)
          [mkFile "one.png"; mkFile "two.png"]
          (ProjectForm.handleProjectImagesChange
             (Some [mkFile "one.png"; mkFile "two.png"])
             (final (ProjectForm.fetchProject galleryApi (Some "p2")
                       (emptyForm scenarioDraft))))))
  = ["https://cdn.example/b.png"; "data:one.png"; "data:two.png"]
  /\ ProjectForm.projectImageFiles
       (ProjectForm.removeProjectImage 0
          (fold_left (fun s f => ProjectForm.projectImage_onload (dataUrlOf f) s)
             [mkFile "one.png"; mkFile "two.png"]
             (ProjectForm.handleProjectImagesChange
                (Some [mkFile "one.png"; mkFile "two.png"])
                (final (ProjectForm.fetchProject galleryApi (Some "p2")
                          (emptyForm scenarioDraft))))))
    = [mkFile "two.png"].
Proof.
  apply (proj1 (X3_removal_by_position dataUrlOf) galleryApi "p2" storedGallery
           ["https://cdn.example/a.png"; "https://cdn.example/b.png"]
           (emptyForm scenarioDraft) [mkFile "one.png"; mkFile "two.png"] 0%nat
           eq_refl eq_refl eq_refl eq_refl).
  simpl. lia.
Defined.

(** With every slot staged and a backend that answers, the uploads of
    the submission are the logo, the hero image and the gallery, in that
    order. *)
Lemma X4_uploads_are_the_staged_files_witness :
  ProjectForm.upload_calls
    (events (ProjectForm.onSubmit (projectApi None) create None scenarioDraft
               (fullyStaged scenarioDraft)))
  = [ProjectForm.EUploadFile (mkFile "logo.png") "logo" "Foo";
     ProjectForm.EUploadFile (mkFile "hero.png") "project-hero-image" "Foo";
     ProjectForm.EUploadMultipleFiles [mkFile "one.png"; mkFile "two.png"]
       "project-image" "Foo"].
Proof.
  apply (proj2 (X4_uploads_are_the_staged_files (projectApi None) create None
                  scenarioDraft (fullyStaged scenarioDraft))
           {| ProjectForm.logo := Some "https://cdn.example/logo";
              ProjectForm.heroImage := Some "https://cdn.example/project-hero-image";
              ProjectForm.projectImages :=
                Some ["https://cdn.example/image"; "https://cdn.example/image"] |}
           eq_refl eq_refl).
Defined.

(** The payload of that submission carries the URLs the storage
    returned. *)
Lemma X5_payload_holds_uploaded_urls_witness :
  exists payload,
    ProjectForm.create_calls
      (events (ProjectForm.onSubmit (projectApi None) create None scenarioDraft
                 (fullyStaged scenarioDraft))) = [payload]
    /\ ProjectForm.pd_logo payload = Some "https://cdn.example/logo"
    /\ ProjectForm.pd_heroImage payload = Some "https://cdn.example/project-hero-image"
    /\ ProjectForm.pd_projectImages payload
       = Some ["https://cdn.example/image"; "https://cdn.example/image"].
Proof.
  apply (X5_payload_holds_uploaded_urls (projectApi None) create None scenarioDraft
           (fullyStaged scenarioDraft)
           {| ProjectForm.logo := Some "https://cdn.example/logo";
              ProjectForm.heroImage := Some "https://cdn.example/project-hero-image";
              ProjectForm.projectImages :=
                Some ["https://cdn.example/image"; "https://cdn.example/image"] |}
           eq_refl eq_refl eq_refl).
Defined.

(** A form in agreement stays so through toggles, a file selection and a
    removal. *)
Lemma X13_form_mirrors_selection_witness :
  ProjectForm.form_in_sync
    (ProjectForm.performAll
       [ProjectForm.ToggleCategory "NFT";
        ProjectForm.ToggleSocialLink ProjectForm.on_github;
        ProjectForm.ChangeProjectImages (Some [mkFile "one.png"]);
        ProjectForm.ProjectImageLoaded "data:one.png";
        ProjectForm.ToggleCategory "DeFi";
        ProjectForm.RemoveProjectImage 0]
       (emptyForm scenarioDraft)).
Proof.
  apply (proj1 (proj1 (proj2 X13_form_mirrors_selection) (emptyForm scenarioDraft)
                  [ProjectForm.ToggleCategory "NFT";
                   ProjectForm.ToggleSocialLink ProjectForm.on_github;
                   ProjectForm.ChangeProjectImages (Some [mkFile "one.png"]);
                   ProjectForm.ProjectImageLoaded "data:one.png";
                   ProjectForm.ToggleCategory "DeFi";
                   ProjectForm.RemoveProjectImage 0]
                  (conj eq_refl eq_refl))).
Defined.

(** The backend does not answer: the form is left as it was. *)
Lemma X14_fetchProject_failure_witness :
  ProjectForm.fetchProject offlineApi (Some "p1") (projectState scenarioDraft)
  = (Normal tt, ProjectForm.setLoading false (projectState scenarioDraft),
     [ProjectForm.EGetProject "p1";
      ProjectForm.EConsoleError "Failed to fetch project:"]).
Proof.
  apply (proj2 (X14_fetchProject_failure offlineApi (projectState scenarioDraft))
           "p1" eq_refl eq_refl).
Defined.

(** The list of projects is empty: the video is not saved. *)
Lemma X17_video_without_project_not_saved_witness :
  VideoForm.create_calls
    (events (VideoForm.onSubmit (videoApi None) create None videoDraft
               (VideoForm.cells newVideoForm))) = []
  /\ VideoForm.console_errors
       (events (VideoForm.onSubmit (videoApi None) create None videoDraft
                  (VideoForm.cells newVideoForm)))
     = ["Failed to save video:"].
Proof.
  pose proof (X17_video_without_project_not_saved (videoApi None) create None videoDraft
                (VideoForm.cells newVideoForm) eq_refl)
    as (_ & _ & Hcreate & _ & _ & Hlog).
  split; [exact Hcreate|]. apply (proj2 (Hlog eq_refl)).
Defined.

(** A thumbnail is staged and stored: the video created carries its
    URL. *)
Lemma X18_video_payload_thumbnail_witness :
  VideoForm.create_calls
    (events (VideoForm.onSubmit (videoApi (Some belowCap)) create None videoDraft
               videoState))
  = [VideoForm.with_thumbnail (Some "https://cdn.example/aBcDeFgHiJkL01234567")
       videoDraft].
Proof.
  apply (proj1 (proj2 (X18_video_payload_thumbnail (videoApi (Some belowCap)) None
                         videoDraft videoState storedProject eq_refl eq_refl)
                  (mkFile "thumb.png")
                  {| url := "https://cdn.example/aBcDeFgHiJkL01234567" |}
                  eq_refl eq_refl eq_refl)).
Defined.

(** The backend does not answer: the list stays empty and the video form
    is left as it was. *)
Lemma X19_video_loaders_fail_silently_witness :
  VideoForm.fetchProjects offlineLoaders newVideoForm
  = (Normal tt, newVideoForm,
     [VideoForm.EGetPublishedProjects;
      VideoForm.ELoadError "Failed to fetch published projects:"])
  /\ VideoForm.fetchVideo offlineLoaders (Some "v1") newVideoForm
     = (Normal tt, VideoForm.onCells (VideoForm.setLoading false) newVideoForm,
        [VideoForm.EGetVideo "v1"; VideoForm.ELoadError "Failed to fetch video:"]).
Proof.
  split.
  - apply (proj1 (proj1 (X19_video_loaders_fail_silently offlineLoaders newVideoForm)
                    eq_refl)).
  - apply (proj2 (proj2 (X19_video_loaders_fail_silently offlineLoaders newVideoForm))
             "v1" eq_refl eq_refl).
Defined.

(** The stored video, loaded and saved. *)
Lemma X20_video_load_then_save_witness :
  VideoForm.update_calls
    (events (VideoForm.onSubmit (videoApi None) edit (Some "v1")
               (VideoForm.values (final (VideoForm.fetchVideo videoLoaders (Some "v1")
                                           loadedVideoForm)))
               (VideoForm.cells (final (VideoForm.fetchVideo videoLoaders (Some "v1")
                                          loadedVideoForm)))))
  = [("v1",
      {| VideoForm.title := "Intro"; VideoForm.description := Some "";
         VideoForm.playbackId := "aBcDeFgHiJkL01234567";
         VideoForm.thumbnail := Some "https://cdn.example/thumb.png";
         VideoForm.featured := false; VideoForm.projectId := "p1" |})].
Proof.
  apply (X20_video_load_then_save videoLoaders (videoApi None) "v1" storedVideo
           storedProject loadedVideoForm eq_refl eq_refl eq_refl eq_refl eq_refl).
Defined.
(** At the cap, a featured project and a featured video are turned down
    after the count query; below it, the project form goes on with the
    folder creation and the video form uploads its thumbnail and creates the
    video. *)
Lemma C4_featured_cap_witness :
  ProjectForm.onSubmit (projectApi (Some atCap)) create None
    featuredDraft (projectState featuredDraft)
  = (Normal tt,
     ProjectForm.setLoading false (projectState featuredDraft),
     [ProjectForm.EGetFeaturedCounts;
      ProjectForm.EToastError ProjectForm.featuredCapMessage])
  /\ VideoForm.onSubmit (videoApi (Some atCap)) edit (Some "v1") videoDraft videoState
     = (Normal tt, VideoForm.setLoading false videoState,
        [VideoForm.EGetFeaturedCounts;
         VideoForm.EToastError VideoForm.featuredCapMessage])
  /\ (exists rest,
        events (ProjectForm.onSubmit (projectApi (Some belowCap)) create
                  None featuredDraft (projectState featuredDraft))
        = ProjectForm.EGetFeaturedCounts :: ProjectForm.ECreateProjectFolders "Foo" :: rest)
  /\ VideoForm.storage_calls
       (events (VideoForm.onSubmit (videoApi (Some belowCap)) create None videoDraft
                  videoState))
     = [VideoForm.ECreateVideoFolder "Foo" "aBcDeFgHiJkL01234567";
        VideoForm.EUploadVideoThumbnail (mkFile "thumb.png") "Foo" "aBcDeFgHiJkL01234567"]
  /\ VideoForm.create_calls
       (events (VideoForm.onSubmit (videoApi (Some belowCap)) create None videoDraft
                  videoState))
     = [VideoForm.videoData videoDraft (Some "https://cdn.example/aBcDeFgHiJkL01234567")].
Proof.
  split; [|split; [|split]].
  - apply (proj1 (proj1 C4_featured_cap (projectApi (Some atCap)) create
                    None featuredDraft (projectState featuredDraft) atCap
                    eq_refl eq_refl)).
    simpl. lia.
  - apply (proj1 (proj2 C4_featured_cap (videoApi (Some atCap)) edit
                    (Some "v1") videoDraft videoState atCap eq_refl eq_refl)).
    simpl. lia.
  - apply (proj2 (proj1 C4_featured_cap (projectApi (Some belowCap))
                    create None featuredDraft (projectState featuredDraft) belowCap
                    eq_refl eq_refl)).
    simpl. lia.
  - assert (Hbelow : (videos belowCap < 3)%Z) by (simpl; lia).
    destruct (proj2 (proj2 C4_featured_cap (videoApi (Some belowCap)) create None
                       videoDraft videoState belowCap eq_refl eq_refl) Hbelow)
      as (_ & _ & Hcalls).
    destruct (Hcalls storedProject (Some "https://cdn.example/aBcDeFgHiJkL01234567")
                eq_refl) as (Hstorage & Hcreate & _).
    + unfold VideoForm.thumbnail_answers. simpl.
      split; [reflexivity|]. eexists. split; reflexivity.
    + split; [exact Hstorage | exact Hcreate].
Defined.

(** An edit whose logo upload completes issues one update call with the
    identity of the route; a creation whose thumbnail upload completes issues
    one create call.  A creation whose create call is rejected does not
    navigate, nor does one whose logo the storage turns down; the same for a
    video. *)
Lemma C7_create_or_update_witness :
  ProjectForm.update_calls
    (events (ProjectForm.onSubmit (projectApi None) edit (Some "p1")
               scenarioDraft (projectState scenarioDraft)))
  = [("p1", ProjectForm.projectData scenarioDraft
              {| ProjectForm.logo := Some "https://cdn.example/logo";
                 ProjectForm.heroImage := None;
                 ProjectForm.projectImages := None |})]
  /\ VideoForm.create_calls
       (events (VideoForm.onSubmit (videoApi None) create None videoDraft videoState))
     = [VideoForm.videoData videoDraft
          (Some "https://cdn.example/aBcDeFgHiJkL01234567")]
  /\ ProjectForm.navigations
       (events (ProjectForm.onSubmit rejectingBackend create None scenarioDraft
                  (projectState scenarioDraft))) = []
  /\ ProjectForm.navigations
       (events (ProjectForm.onSubmit (projectApi None) create None scenarioDraft
                  (projectState scenarioDraft))) = ["/projects"]
  /\ ProjectForm.navigations
       (events (ProjectForm.onSubmit brokenStorage create None scenarioDraft
                  (projectState scenarioDraft))) = []
  /\ VideoForm.navigations
       (events (VideoForm.onSubmit rejectingVideoBackend create None videoDraft
                  videoState)) = []
  /\ VideoForm.navigations
       (events (VideoForm.onSubmit brokenVideoStorage create None videoDraft
                  videoState)) = [].
Proof.
  split; [|split; [|split; [|split; [|split; [|split]]]]].
  - apply (proj2 (proj2 (proj1 (proj1 C7_create_or_update (projectApi None)
                                   (Some "p1") scenarioDraft
                                   (projectState scenarioDraft))
                           "p1" eq_refl eq_refl)));
      reflexivity.
  - apply (proj2 (proj2 (proj1 (proj2 (proj2 C7_create_or_update (videoApi None)
                                          None videoDraft videoState))))
             storedProject);
      reflexivity.
  - destruct (proj1 C7_create_or_update rejectingBackend None scenarioDraft
                (projectState scenarioDraft)) as (_ & _ & _ & _ & _ & Hans).
    apply (proj1 (Hans {| ProjectForm.logo := Some "https://cdn.example/logo";
                          ProjectForm.heroImage := None;
                          ProjectForm.projectImages := None |} eq_refl
                    ltac:(unfold ProjectForm.storage_answers; simpl; eauto 10))).
  - destruct (proj1 C7_create_or_update (projectApi None) None scenarioDraft
                (projectState scenarioDraft)) as (_ & _ & _ & _ & _ & Hans).
    apply (proj1 (Hans {| ProjectForm.logo := Some "https://cdn.example/logo";
                          ProjectForm.heroImage := None;
                          ProjectForm.projectImages := None |} eq_refl
                    ltac:(unfold ProjectForm.storage_answers; simpl; eauto 10))).
  - destruct (proj1 C7_create_or_update brokenStorage None scenarioDraft
                (projectState scenarioDraft)) as (_ & _ & _ & _ & Hrej & _).
    apply (Hrej create). right; left. exists (mkFile "logo.png"). by split.
  - destruct (proj2 C7_create_or_update rejectingVideoBackend None videoDraft
                videoState) as (_ & _ & _ & _ & _ & _ & Hans).
    apply (proj1 (Hans storedProject (Some "https://cdn.example/aBcDeFgHiJkL01234567")
                    eq_refl eq_refl
                    ltac:(unfold VideoForm.thumbnail_answers; simpl; eauto 10))).
  - destruct (proj2 C7_create_or_update brokenVideoStorage None videoDraft
                videoState) as (_ & _ & _ & _ & _ & Hrej & _).
    apply (Hrej create storedProject eq_refl).
    exists (mkFile "thumb.png"). split; [reflexivity|]. by right.
Defined.

(** With the count query failing, the featured draft is submitted as with
    two featured projects: the logo is uploaded and the project created; the
    thumbnail is uploaded and the video created. *)
Lemma C9_count_failure_swallowed_witness :
  ProjectForm.onSubmit (projectApi None) create None featuredDraft
    (projectState featuredDraft)
  = ProjectForm.onSubmit
      (ProjectForm.withFeaturedCounts (Some belowCap) (projectApi None))
      create None featuredDraft (projectState featuredDraft)
  /\ VideoForm.onSubmit (videoApi None) create None videoDraft videoState
     = VideoForm.onSubmit
         (VideoForm.withFeaturedCounts (Some belowCap) (videoApi None))
         create None videoDraft videoState
  /\ (ProjectForm.upload_calls
        (events (ProjectForm.onSubmit (projectApi None) create None featuredDraft
                   (projectState featuredDraft)))
      = [ProjectForm.EUploadFile (mkFile "logo.png") "logo" "Foo"]
      /\ ProjectForm.create_calls
           (events (ProjectForm.onSubmit (projectApi None) create None featuredDraft
                      (projectState featuredDraft)))
         = [ProjectForm.projectData featuredDraft
              {| ProjectForm.logo := Some "https://cdn.example/logo";
                 ProjectForm.heroImage := None;
                 ProjectForm.projectImages := None |}])
  /\ (VideoForm.storage_calls
        (events (VideoForm.onSubmit (videoApi None) create None videoDraft videoState))
      = [VideoForm.ECreateVideoFolder "Foo" "aBcDeFgHiJkL01234567";
         VideoForm.EUploadVideoThumbnail (mkFile "thumb.png") "Foo"
           "aBcDeFgHiJkL01234567"]
      /\ VideoForm.create_calls
           (events (VideoForm.onSubmit (videoApi None) create None videoDraft videoState))
         = [VideoForm.videoData videoDraft
              (Some "https://cdn.example/aBcDeFgHiJkL01234567")]).
Proof.
  assert (Hbelow : (projects belowCap < 3)%Z) by (simpl; lia).
  assert (Hbelow' : (videos belowCap < 3)%Z) by (simpl; lia).
  split; [|split; [|split]].
  - apply (proj1 C9_count_failure_swallowed (projectApi None) create None
             featuredDraft (projectState featuredDraft) belowCap eq_refl eq_refl Hbelow).
  - apply (proj2 C9_count_failure_swallowed (videoApi None) create None
             videoDraft videoState belowCap eq_refl eq_refl Hbelow').
  - destruct (proj1 C9_count_failure_swallowed (projectApi None) create None
                featuredDraft (projectState featuredDraft) belowCap eq_refl eq_refl
                Hbelow) as (_ & _ & _ & _ & Hcalls).
    destruct (Hcalls {| ProjectForm.logo := Some "https://cdn.example/logo";
                        ProjectForm.heroImage := None;
                        ProjectForm.projectImages := None |})
      as (Hup & Hcreate & _).
    + unfold ProjectForm.storage_answers. simpl. eauto 10.
    + split; [exact Hup | exact Hcreate].
  - destruct (proj2 C9_count_failure_swallowed (videoApi None) create None
                videoDraft videoState belowCap eq_refl eq_refl Hbelow')
      as (_ & _ & _ & _ & Hcalls).
    destruct (Hcalls storedProject (Some "https://cdn.example/aBcDeFgHiJkL01234567")
                eq_refl) as (Hstorage & Hcreate & _).
    + unfold VideoForm.thumbnail_answers. simpl. eauto 10.
    + split; [exact Hstorage | exact Hcreate].
Defined.

(** The stored project has [isHiring = false] with a career page, and
    [isOpenSource = true]: both flags are loaded [false]. *)
Lemma C10_loaded_flags_are_false_witness :
  Project.isHiring storedProject = false
  /\ Project.careerPageUrl storedProject = Some "https://foo.dev/careers"
  /\ Project.isOpenSource storedProject = true
  /\ ProjectForm.isHiring
       (ProjectForm.values
          (final (ProjectForm.fetchProject (projectApi None) (Some "p1")
                    (emptyForm scenarioDraft)))) = false
  /\ ProjectForm.isOpenSource
       (ProjectForm.values
          (final (ProjectForm.fetchProject (projectApi None) (Some "p1")
                    (emptyForm scenarioDraft)))) = false.
Proof.
  destruct (C10_loaded_flags_are_false (projectApi None) "p1" storedProject
              (emptyForm scenarioDraft) eq_refl eq_refl)
    as (Hhiring & _ & Hsource & _).
  split; [reflexivity|]. split; [reflexivity|]. split; [reflexivity|].
  split; [exact Hhiring | exact Hsource].
Defined.

(** The storage turns the staged logo down, or the staged gallery, or
    does not create the folders: nothing is created. *)
Lemma X8_upload_failure_stops_submission_witness :
  (ProjectForm.create_calls
     (events (ProjectForm.onSubmit brokenStorage create None scenarioDraft
                (projectState scenarioDraft))) = []
   /\ ProjectForm.console_errors
        (events (ProjectForm.onSubmit brokenStorage create None scenarioDraft
                   (projectState scenarioDraft)))
      = ["Failed to save project:"])
  /\ (ProjectForm.create_calls
        (events (ProjectForm.onSubmit brokenStorage create None scenarioDraft
                   (galleryOnly scenarioDraft))) = []
      /\ ProjectForm.navigations
           (events (ProjectForm.onSubmit brokenStorage create None scenarioDraft
                      (galleryOnly scenarioDraft))) = [])
  /\ (ProjectForm.update_calls
        (events (ProjectForm.onSubmit offlineApi edit (Some "p1") scenarioDraft
                   (emptyForm scenarioDraft))) = []
      /\ ProjectForm.success_toasts
           (events (ProjectForm.onSubmit offlineApi edit (Some "p1") scenarioDraft
                      (emptyForm scenarioDraft))) = []).
Proof.
  split; [|split].
  - destruct (X8_upload_failure_stops_submission brokenStorage create None
                scenarioDraft (projectState scenarioDraft) eq_refl)
      as (Hcreate & _ & _ & _ & Hlog).
    + right; left. exists (mkFile "logo.png"). by split.
    + split; [exact Hcreate | exact Hlog].
  - destruct (X8_upload_failure_stops_submission brokenStorage create None
                scenarioDraft (galleryOnly scenarioDraft) eq_refl)
      as (Hcreate & _ & Hnav & _).
    + right; right; right. by split.
    + split; [exact Hcreate | exact Hnav].
  - destruct (X8_upload_failure_stops_submission offlineApi edit (Some "p1")
                scenarioDraft (emptyForm scenarioDraft) eq_refl)
      as (_ & Hupdate & _ & Htoast & _).
    + by left.
    + split; [exact Hupdate | exact Htoast].
Defined.

(** The stored project has a career page: saved right after it is loaded,
    it is sent as not hiring and without the page. *)
Lemma X15_load_then_save_witness :
  Project.careerPageUrl storedProject = Some "https://foo.dev/careers"
  /\ ProjectForm.pd_isHiring
       (ProjectForm.reloadedPayload (projectApi None) "p1" (emptyForm scenarioDraft)
          {| ProjectForm.logo := None; ProjectForm.heroImage := None;
             ProjectForm.projectImages := None |}) = false
  /\ ProjectForm.pd_careerPageUrl
       (ProjectForm.reloadedPayload (projectApi None) "p1" (emptyForm scenarioDraft)
          {| ProjectForm.logo := None; ProjectForm.heroImage := None;
             ProjectForm.projectImages := None |}) = None
  /\ ProjectForm.update_calls
       (events (ProjectForm.onSubmit (projectApi None) edit (Some "p1")
                  (ProjectForm.values
                     (final (ProjectForm.fetchProject (projectApi None) (Some "p1")
                               (emptyForm scenarioDraft))))
                  (final (ProjectForm.fetchProject (projectApi None) (Some "p1")
                            (emptyForm scenarioDraft)))))
     = [("p1",
         ProjectForm.reloadedPayload (projectApi None) "p1" (emptyForm scenarioDraft)
           {| ProjectForm.logo := None; ProjectForm.heroImage := None;
              ProjectForm.projectImages := None |})].
Proof.
  destruct (X15_load_then_save (projectApi None) "p1" storedProject
              (emptyForm scenarioDraft)
              {| ProjectForm.logo := None; ProjectForm.heroImage := None;
                 ProjectForm.projectImages := None |} eq_refl eq_refl)
    as (_ & (Hhiring & Hurl & _) & _ & Hsent).
  split; [reflexivity|]. split; [exact Hhiring|]. split; [exact Hurl|].
  apply Hsent; [reflexivity|].
  unfold ProjectForm.storage_answers. simpl. eauto 10.
Defined.
End OnConcreteForms.
